(** * Odin: the ReAct control loop, its parser, safety governor and memory

    A shallow embedding of the Python sources
      - [src/odin/agent/parser.py]   (response parser and parameter validation),
      - [src/odin/action/safety.py]  (safety governor),
      - [src/odin/agent/memory.py]   (memory store),
      - [src/odin/agent/core.py]     (the agent's [run] loop),
      - [src/odin/action/controller.py] (the action controller),
    followed by the properties of the specification that were checked
    against it and by further properties of the code.

    Conventions of the embedding.
      - Python [int] is [Z]; [float] is [pyfloat] (exact rationals plus the
        IEEE specials, rounding is not modelled); [str] is [string], a
        sequence of bytes (exact for ASCII text); a [dict] with string keys
        is an insertion-ordered association list; a [list] is a [list].
      - A call that may raise returns a [result]: [Return v] or [Raise e].
      - Builtins of the Python runtime that the repository calls but does
        not define ([str()] on an arbitrary object, the [json] decoder) are
        the fields of the class [PyRuntime]; [Module Model] gives one
        instance, used to evaluate the code on concrete inputs. *)

From Stdlib Require Import ZArith QArith String Ascii List Lia Bool DecimalString.
From stdpp Require Import gmap strings list.

Set Warnings "-register-all".

Local Open Scope string_scope.
Local Open Scope list_scope.
Local Open Scope Z_scope.

(** ** Python values *)

Inductive pyfloat : Type :=
| FNaN
| FInf (negative : bool)
| FFin (q : Q).

Inductive value : Type :=
| VNone
| VBool (b : bool)
| VInt (n : Z)
| VFloat (f : pyfloat)
| VStr (s : string)
| VList (l : list value)
| VDict (d : list (string * value)).

(** A [dict] whose keys are strings, in insertion order. *)
Abbreviation dict := (list (string * value)).

Fixpoint dict_lookup (k : string) (d : dict) : option value :=
  match d with
  | [] => None
  | (k', v) :: d' => if String.eqb k k' then Some v else dict_lookup k d'
  end.

(** [k in d] *)
Definition dict_in (k : string) (d : dict) : bool :=
  match dict_lookup k d with Some _ => true | None => false end.

(** [d.get(k, default)] *)
Definition dict_get (k : string) (default : value) (d : dict) : value :=
  match dict_lookup k d with Some v => v | None => default end.

(** [d[k] = v]: an existing key keeps its place, a new key goes last. *)
Fixpoint dict_set (k : string) (v : value) (d : dict) : dict :=
  match d with
  | [] => [(k, v)]
  | (k', v') :: d' =>
      if String.eqb k k' then (k, v) :: d' else (k', v') :: dict_set k v d'
  end.

(** [type(v).__name__] *)
Definition type_name (v : value) : string :=
  match v with
  | VNone => "NoneType"
  | VBool _ => "bool"
  | VInt _ => "int"
  | VFloat _ => "float"
  | VStr _ => "str"
  | VList _ => "list"
  | VDict _ => "dict"
  end.

(** [isinstance(v, int)]: [bool] is a subclass of [int]. *)
Definition isinstance_int (v : value) : bool :=
  match v with VInt _ | VBool _ => true | _ => false end.

Definition isinstance_str (v : value) : bool :=
  match v with VStr _ => true | _ => false end.

Definition isinstance_list (v : value) : bool :=
  match v with VList _ => true | _ => false end.

Definition isinstance_dict (v : value) : bool :=
  match v with VDict _ => true | _ => false end.

(** ** Exceptions *)

Inductive exn : Type :=
| ParseError (msg : string)
| AttributeError (msg : string)
| TypeError (msg : string)
| KeyError (msg : string)
| Exception (msg : string).

(** [str(e)] *)
Definition exn_str (e : exn) : string :=
  match e with
  | ParseError m | AttributeError m | TypeError m | KeyError m
  | Exception m => m
  end.

Inductive result (A : Type) : Type :=
| Return (a : A)
| Raise (e : exn).
Arguments Return {A} a.
Arguments Raise {A} e.

Definition bind {A B : Type} (r : result A) (k : A -> result B) : result B :=
  match r with
  | Return a => k a
  | Raise e => Raise e
  end.

Notation "x <- r ;; k" := (bind r (fun x => k))
  (at level 100, r at next level, right associativity).

(** ** Strings *)

Definition lower_ascii (c : ascii) : ascii :=
  let n := nat_of_ascii c in
  if ((65 <=? n) && (n <=? 90))%nat then ascii_of_nat (n + 32) else c.

(** [s.lower()], on a string held as its UTF-8 bytes. The letters [A-Z]
    and the Kelvin sign (U+212A, bytes 226 132 170) are the only characters
    whose lower case is an ASCII letter, and they are lowered as Python
    lowers them. Any other cased letter is left as it is: Python turns it
    into another character outside ASCII, so the result differs in those
    bytes, and agrees on whether it is one of the ASCII words that
    [parser.py] compares it with. *)
Fixpoint lower (s : string) : string :=
  match s with
  | EmptyString => EmptyString
  | String c s' =>
      match c, s' with
      | "226"%char, String "132"%char (String "170"%char s'') =>
          String "k"%char (lower s'')
      | _, _ => String (lower_ascii c) (lower s')
      end
  end.

(** [s[:n]] *)
Fixpoint str_take (n : nat) (s : string) : string :=
  match n, s with
  | S n', String c s' => String c (str_take n' s')
  | _, _ => EmptyString
  end.

(** [s[n:]] *)
Fixpoint str_drop (n : nat) (s : string) : string :=
  match n, s with
  | S n', String _ s' => str_drop n' s'
  | _, _ => s
  end.

Fixpoint str_prefix (p s : string) : bool :=
  match p, s with
  | EmptyString, _ => true
  | String a p', String b s' => Ascii.eqb a b && str_prefix p' s'
  | String _ _, EmptyString => false
  end.

(** [needle in s] *)
Fixpoint str_contains (needle s : string) : bool :=
  str_prefix needle s ||
  match s with
  | EmptyString => false
  | String _ s' => str_contains needle s'
  end.

(** [x in (s1, s2, ...)] for strings. *)
Definition str_in (x : string) (l : list string) : bool :=
  existsb (String.eqb x) l.

(** [str(n)] for an [int]. *)
Definition string_of_Z (n : Z) : string := NilZero.string_of_int (Z.to_int n).

Definition string_of_nat (n : nat) : string := string_of_Z (Z.of_nat n).

(** ** The Python runtime the repository relies on *)

(** [json.JSONDecodeError]: message, document and position of the fault. *)
Record JSONDecodeError : Type := {
  jde_msg : string;
  jde_doc : string;
  jde_pos : nat
}.

(** Number of newlines in [doc[:pos]], and the index just after the last
    of them (0 when there is none). *)
Fixpoint line_start (doc : string) (pos : nat) (i : nat) (lines last : nat)
  : nat * nat :=
  match pos, doc with
  | S pos', String c doc' =>
      if Ascii.eqb c "010"%char
      then line_start doc' pos' (S i) (S lines) (S i)
      else line_start doc' pos' (S i) lines last
  | _, _ => (lines, last)
  end.

(** [str(exc)]: ["msg: line L column C (char P)"]. *)
Definition JSONDecodeError_str (e : JSONDecodeError) : string :=
  let '(lines, last) := line_start (jde_doc e) (jde_pos e) 0 0 0 in
  jde_msg e +:+ ": line " +:+ string_of_nat (S lines) +:+
  " column " +:+ string_of_nat (S (jde_pos e - last)) +:+
  " (char " +:+ string_of_nat (jde_pos e) +:+ ")".

Class PyRuntime : Type := {
  (** [str(v)] *)
  py_str : value -> string;
  py_str_str : forall s, py_str (VStr s) = s;
  py_str_int : forall n, py_str (VInt n) = string_of_Z n;
  py_str_bool : forall b, py_str (VBool b) = if b then "True" else "False";
  py_str_none : py_str VNone = "None";
  (** [json.JSONDecoder().raw_decode(s)], without the end index, which the
      parser discards. *)
  raw_decode : string -> JSONDecodeError + value;
  (** A document that starts with an opening brace decodes to an object or
      not at all. *)
  raw_decode_brace :
    forall s v, raw_decode (String "{" s) = inr v -> isinstance_dict v = true
}.

(** ** Response parser: [src/odin/agent/parser.py] *)

Record ParsedAction : Type := {
  thought : string;
  action : string;
  params : dict;
  raw_response : string
}.

Definition valid_actions : list string :=
  ["click"; "double_click"; "move"; "type"; "hotkey"; "scroll"; "wait"; "done"].

(** [repr(valid_actions)], as the f-string prints the list. *)
Definition valid_actions_repr : string :=
  "['click', 'double_click', 'move', 'type', 'hotkey', 'scroll', 'wait', 'done']".

(** The candidates [response[match.start():]], one for each match of
    [re.finditer(r"\{", response)], in scan order. *)
Fixpoint brace_candidates (response : string) : list string :=
  match response with
  | EmptyString => []
  | String c rest =>
      if Ascii.eqb c "{"
      then response :: brace_candidates rest
      else brace_candidates rest
  end.

(** The three locals that the scan of [_extract_json_object] updates. *)
Record scan_state : Type := {
  parsed_objects : list dict;
  first_decode_error : option JSONDecodeError;
  found_json_start : bool
}.

Definition scan_init : scan_state :=
  {| parsed_objects := []; first_decode_error := None;
     found_json_start := false |}.

Section Parser.
Context `{PyRuntime}.

(** One iteration of the [for match in re.finditer(...)] loop. *)
Definition scan_step (st : scan_state) (candidate : string) : scan_state :=
  match raw_decode candidate with
  | inl exc =>
      {| parsed_objects := parsed_objects st;
         first_decode_error :=
           match first_decode_error st with
           | None => Some exc
           | Some e => Some e
           end;
         found_json_start := true |}
  | inr parsed =>
      {| parsed_objects :=
           match parsed with
           | VDict d => parsed_objects st ++ [d]
           | _ => parsed_objects st
           end;
         first_decode_error := first_decode_error st;
         found_json_start := true |}
  end.

Definition scan (response : string) : scan_state :=
  fold_left scan_step (brace_candidates response) scan_init.

Definition _extract_json_object (response : string) : result dict :=
  let st := scan response in
  match parsed_objects st with
  | [] =>
      match found_json_start st, first_decode_error st with
      | true, Some e =>
          Raise (ParseError ("Invalid JSON: " +:+ JSONDecodeError_str e))
      | _, _ =>
          Raise (ParseError
                   ("No JSON found in response: " +:+ str_take 200 response))
      end
  | first :: _ =>
      match List.find (dict_in "action") (parsed_objects st) with
      | Some parsed => Return parsed
      | None => Return first
      end
  end.

Definition parse_llm_response (response : string) : result ParsedAction :=
  data <- _extract_json_object response ;;
  if negb (dict_in "action" data)
  then Raise (ParseError "Missing 'action' field in response")
  else
    match dict_get "action" VNone data with
    | VStr action_value =>
        let action := lower action_value in
        if negb (str_in action valid_actions)
        then Raise (ParseError ("Unknown action: " +:+ action +:+
                                ". Valid: " +:+ valid_actions_repr))
        else
          match dict_get "params" (VDict []) data with
          | VDict params =>
              Return {| thought := py_str (dict_get "thought" (VStr EmptyString) data);
                        action := action;
                        params := params;
                        raw_response := response |}
          | _ => Raise (ParseError "Field 'params' must be an object")
          end
    | _ => Raise (ParseError "Field 'action' must be a string")
    end.
End Parser.

Definition required_params : list (string * list string) :=
  [("click", ["x"; "y"]);
   ("double_click", ["x"; "y"]);
   ("move", ["x"; "y"]);
   ("type", ["text"]);
   ("hotkey", ["keys"]);
   ("scroll", ["direction"]);
   ("wait", ["seconds"]);
   ("done", ["result"])].

(** [required_params.get(name, [])] *)
Fixpoint required_for (name : string) (table : list (string * list string))
  : list string :=
  match table with
  | [] => []
  | (k, fields) :: table' =>
      if String.eqb name k then fields else required_for name table'
  end.

(** The first required parameter that [params] lacks, in table order. *)
Fixpoint first_missing (required : list string) (params : dict)
  : option string :=
  match required with
  | [] => None
  | param :: required' =>
      if dict_in param params then first_missing required' params
      else Some param
  end.

(** [v.lower()]: only a [str] has the method. *)
Definition py_lower (v : value) : result string :=
  match v with
  | VStr s => Return (lower s)
  | _ => Raise (AttributeError
                  ("'" +:+ type_name v +:+ "' object has no attribute 'lower'"))
  end.

(** A verdict [(ok, reason)]. *)
Abbreviation verdict := (bool * option string)%type.

Definition validate_action_params (a : ParsedAction) : result verdict :=
  let required := required_for (action a) required_params in
  match first_missing required (params a) with
  | Some param =>
      Return (false, Some ("Missing required parameter '" +:+ param +:+
                           "' for " +:+ action a))
  | None =>
      if str_in (action a) ["click"; "double_click"; "move"] &&
         (negb (isinstance_int (dict_get "x" VNone (params a))) ||
          negb (isinstance_int (dict_get "y" VNone (params a))))
      then Return (false, Some "Coordinates x and y must be integers")
      else if String.eqb (action a) "hotkey" &&
              negb (isinstance_list (dict_get "keys" VNone (params a)))
      then Return (false, Some "Keys must be a list")
      else if String.eqb (action a) "scroll"
      then
        direction <- py_lower (dict_get "direction" (VStr EmptyString) (params a)) ;;
        if negb (str_in direction ["up"; "down"; "left"; "right"])
        then Return (false,
                     Some "Direction must be 'up', 'down', 'left', or 'right'")
        else Return (true, None)
      else Return (true, None)
  end.

(** ** Safety governor: [src/odin/action/safety.py] *)

Record SafetyConfig : Type := {
  max_actions_per_minute : Z;
  min_action_delay : Q;
  require_confirmation : bool;
  bounds_margin : Z
}.

Definition default_SafetyConfig : SafetyConfig :=
  {| max_actions_per_minute := 60;
     min_action_delay := 1 # 10;
     require_confirmation := false;
     bounds_margin := 10 |}.

(** [screen_width] and [screen_height] are what [pyautogui.size()] gave
    when the controller was built. *)
Record SafetyController : Type := {
  config : SafetyConfig;
  _action_times : list Q;
  _last_action_time : Q;
  screen_width : Z;
  screen_height : Z
}.

Definition Qlt_bool (a b : Q) : bool := negb (Qle_bool b a).

(** [x < n] for an [int] [n]: numbers compare, anything else is a
    [TypeError]. *)
Definition py_lt (x : value) (n : Z) : result bool :=
  match x with
  | VInt a => Return (a <? n)
  | VBool b => Return (Z.b2z b <? n)
  | VFloat FNaN => Return false
  | VFloat (FInf negative) => Return negative
  | VFloat (FFin q) => Return (Qlt_bool q (inject_Z n))
  | _ => Raise (TypeError ("'<' not supported between instances of '" +:+
                           type_name x +:+ "' and 'int'"))
  end.

(** [x >= n] for an [int] [n]. *)
Definition py_ge (x : value) (n : Z) : result bool :=
  match x with
  | VInt a => Return (a >=? n)
  | VBool b => Return (Z.b2z b >=? n)
  | VFloat FNaN => Return false
  | VFloat (FInf negative) => Return (negb negative)
  | VFloat (FFin q) => Return (Qle_bool (inject_Z n) q)
  | _ => Raise (TypeError ("'>=' not supported between instances of '" +:+
                           type_name x +:+ "' and 'int'"))
  end.

(** [x < lo or x >= hi], the right operand evaluated only when needed. *)
Definition outside (x : value) (lo hi : Z) : result bool :=
  below <- py_lt x lo ;;
  if below then Return true else py_ge x hi.

Section Safety.
Context `{PyRuntime}.

Definition validate_coordinates (self : SafetyController) (x y : value)
  : result verdict :=
  let margin := bounds_margin (config self) in
  bad_x <- outside x margin (screen_width self - margin) ;;
  if bad_x
  then Return (false, Some ("X coordinate " +:+ py_str x +:+
                            " is too close to screen edge"))
  else
    bad_y <- outside y margin (screen_height self - margin) ;;
    if bad_y
    then Return (false, Some ("Y coordinate " +:+ py_str y +:+
                              " is too close to screen edge"))
    else Return (true, None).

(** [current_time] is the reading of [time.time()]. *)
Definition check_rate_limit (self : SafetyController) (current_time : Q)
  : SafetyController * verdict :=
  let times :=
    List.filter (fun t => Qlt_bool (current_time - t) 60) (_action_times self) in
  let self' :=
    {| config := config self;
       _action_times := times;
       _last_action_time := _last_action_time self;
       screen_width := screen_width self;
       screen_height := screen_height self |} in
  if Z.of_nat (length times) >=? max_actions_per_minute (config self)
  then (self', (false, Some "Rate limit exceeded: too many actions per minute"))
  else if Qlt_bool (current_time - _last_action_time self)
                   (min_action_delay (config self))
  then (self', (false, Some "Minimum delay between actions not met"))
  else (self', (true, None)).

Definition record_action (self : SafetyController) (current_time : Q)
  : SafetyController :=
  {| config := config self;
     _action_times := (_action_times self ++ [current_time])%list;
     _last_action_time := current_time;
     screen_width := screen_width self;
     screen_height := screen_height self |}.

(** The [for coord_pair in [...]] loop of [validate_action]. *)
Fixpoint validate_pairs (self : SafetyController) (params : dict)
    (pairs : list (string * string)) : result verdict :=
  match pairs with
  | [] => Return (true, None)
  | coord_pair :: pairs' =>
      let x := dict_get (fst coord_pair) (VInt 0) params in
      let y := dict_get (snd coord_pair) (VInt 0) params in
      v <- validate_coordinates self x y ;;
      if negb (fst v) then Return (false, snd v)
      else validate_pairs self params pairs'
  end.

Definition validate_action (self : SafetyController) (current_time : Q)
    (action : string) (params : dict)
  : SafetyController * result verdict :=
  let (self', limit) := check_rate_limit self current_time in
  (self',
   if negb (fst limit) then Return (false, snd limit)
   else
     v <- (if str_in action ["click"; "double_click"; "move"]
           then validate_coordinates self' (dict_get "x" (VInt 0) params)
                                           (dict_get "y" (VInt 0) params)
           else Return (true, None)) ;;
     if negb (fst v) then Return (false, snd v)
     else if String.eqb action "drag"
     then validate_pairs self' params
                         [("start_x", "start_y"); ("end_x", "end_y")]
     else Return (true, None)).
End Safety.

(** ** Memory store: [src/odin/agent/memory.py] *)

(** A screenshot. Pixel data is not modelled: an image is known by the
    serial number of its capture. *)
Inductive Image : Type := image (serial : nat).

Module ActionRecord.
(** The [timestamp] field, a wall-clock reading, is left out. *)
Record t : Type := {
  action : ParsedAction;
  success : bool;
  result_message : option string
}.
End ActionRecord.

(** [l[start:]], with Python's reading of a negative [start]. *)
Definition slice_from {A : Type} (start : Z) (l : list A) : list A :=
  if start <? 0
  then drop (Z.to_nat (Z.max 0 (Z.of_nat (length l) + start))) l
  else drop (Z.to_nat start) l.

(** [v == s] for a string [s]. *)
Definition eq_str (v : value) (s : string) : bool :=
  match v with VStr s' => String.eqb s' s | _ => false end.

Record AgentMemory : Type := {
  messages : list dict;
  actions : list ActionRecord.t;
  screenshots : list Image;
  max_screenshots : Z;
  max_messages : Z
}.

Definition new_AgentMemory : AgentMemory :=
  {| messages := []; actions := []; screenshots := [];
     max_screenshots := 5; max_messages := 20 |}.

Definition set_messages (self : AgentMemory) (msgs : list dict) : AgentMemory :=
  {| messages := msgs; actions := actions self;
     screenshots := screenshots self;
     max_screenshots := max_screenshots self;
     max_messages := max_messages self |}.

(** The trimming that [add_message] applies after the append. *)
Definition trim_messages (cap : Z) (msgs : list dict) : list dict :=
  if Z.of_nat (length msgs) >? cap
  then
    match msgs with
    | first :: _ =>
        if eq_str (dict_get "role" VNone first) "system"
        then ([first] ++ slice_from (- (cap - 1)) msgs)%list
        else slice_from (- cap) msgs
    | [] => slice_from (- cap) msgs
    end
  else msgs.

Definition add_message (self : AgentMemory) (role : string) (content : value)
  : AgentMemory :=
  let appended : list dict :=
    (messages self ++ [[("role", VStr role); ("content", content)]])%list in
  set_messages self (trim_messages (max_messages self) appended).

Definition add_action (self : AgentMemory) (a : ParsedAction) (ok : bool)
    (message : option string) : AgentMemory :=
  {| messages := messages self;
     actions := (actions self ++
                 [{| ActionRecord.action := a; ActionRecord.success := ok;
                     ActionRecord.result_message := message |}])%list;
     screenshots := screenshots self;
     max_screenshots := max_screenshots self;
     max_messages := max_messages self |}.

Definition add_screenshot (self : AgentMemory) (img : Image) : AgentMemory :=
  let appended : list Image := (screenshots self ++ [img])%list in
  {| messages := messages self;
     actions := actions self;
     screenshots :=
       if Z.of_nat (length appended) >? max_screenshots self
       then slice_from (- max_screenshots self) appended
       else appended;
     max_screenshots := max_screenshots self;
     max_messages := max_messages self |}.

(** [self.messages.copy()], as a value. The sharing between the copy and
    the store is the subject of [Module Heap] below. *)
Definition get_conversation_for_llm (self : AgentMemory) : list dict :=
  messages self.

Definition clear (self : AgentMemory) : AgentMemory :=
  {| messages := []; actions := []; screenshots := [];
     max_screenshots := max_screenshots self;
     max_messages := max_messages self |}.

Definition total_actions (self : AgentMemory) : Z :=
  Z.of_nat (length (actions self)).

Definition successful_actions (self : AgentMemory) : Z :=
  Z.of_nat (length (List.filter ActionRecord.success (actions self))).

(** ** Control loop: [src/odin/agent/core.py] *)

Inductive AgentStatus : Type := IDLE | RUNNING | COMPLETED | FAILED | STOPPED.

Module ActionResult.
(** [ActionResult] of [src/odin/action/controller.py]. *)
Record t : Type := {
  success : bool;
  action : string;
  message : option string;
  error : option string
}.
End ActionResult.

Module AgentResult.
(** [success] and [message] hold whatever object the loop stores there:
    for a [done] action they come from the action's [params]. The
    [duration_seconds] field, a wall-clock difference, is left out. *)
Record t : Type := {
  success : value;
  message : value;
  total_steps : Z;
  actions_executed : Z;
  final_screenshot : option Image
}.
End AgentResult.

Record AgentConfig : Type := {
  max_steps : Z;
  step_delay : Q;
  use_grid : bool;
  grid_step : Z;
  compress_screenshots : bool;
  max_screenshot_size : Z * Z;
  safety : SafetyConfig
}.

Definition default_AgentConfig : AgentConfig :=
  {| max_steps := 50; step_delay := 1 # 2; use_grid := true;
     grid_step := 100; compress_screenshots := true;
     max_screenshot_size := (1920, 1080);
     safety := default_SafetyConfig |}.

(** A call of one of the primitives of [ActionController]. *)
Inductive ControllerCall : Type :=
| call_click (x y button : value)
| call_double_click (x y : value)
| call_move (x y : value)
| call_type_text (text : value)
| call_hotkey (keys : list value)
| call_scroll (direction clicks : value)
| call_wait (seconds : value).

(** Everything outside the agent that one run interacts with, each
    interaction indexed by the step in which it happens. *)
Record World : Type := {
  (** [Screen.get_screenshot()] *)
  get_screenshot : Z -> result Image;
  (** [Processing.compress_image(screenshot, max_size)] *)
  compress_image : Image -> Z * Z -> result Image;
  (** [draw_grids] and [alpha_composite]: the grid laid over the capture. *)
  overlay_grid : Image -> Z -> result Image;
  (** [llm.analyze_screen(...).content], given the task and the history
      passed to it. *)
  analyze_screen : Z -> string -> list dict -> result string;
  (** The primitives of the [ActionController]. *)
  controller : Z -> ControllerCall -> result ActionResult.t;
  (** The observer given to the agent, if any. *)
  on_step : option (Z -> ParsedAction -> result unit);
  (** [stop()] is called from outside while step [n] waits for the oracle. *)
  stop_during : Z -> bool;
  (** [stop()] is called after step [n] has settled its delay and before
      the loop condition is read again ([n = 0]: before the first read). *)
  stop_between : Z -> bool;
  (** [time.time()] as [check_rate_limit] reads it in step [n]. *)
  time_check : Z -> Q;
  (** [time.time()] as [record_action] reads it in step [n]. *)
  time_record : Z -> Q
}.

(** The agent object: its components and state, and the log of the
    [time.sleep] calls it made (step, seconds). *)
Record Agent : Type := {
  agent_config : AgentConfig;
  agent_safety : SafetyController;
  memory : AgentMemory;
  status : AgentStatus;
  _stop_requested : bool;
  sleeps : list (Z * Q)
}.

Definition set_memory (self : Agent) (m : AgentMemory) : Agent :=
  {| agent_config := agent_config self; agent_safety := agent_safety self;
     memory := m; status := status self;
     _stop_requested := _stop_requested self; sleeps := sleeps self |}.

Definition set_safety (self : Agent) (s : SafetyController) : Agent :=
  {| agent_config := agent_config self; agent_safety := s;
     memory := memory self; status := status self;
     _stop_requested := _stop_requested self; sleeps := sleeps self |}.

Definition set_status (self : Agent) (s : AgentStatus) : Agent :=
  {| agent_config := agent_config self; agent_safety := agent_safety self;
     memory := memory self; status := s;
     _stop_requested := _stop_requested self; sleeps := sleeps self |}.

Definition set_stop_requested (self : Agent) (b : bool) : Agent :=
  {| agent_config := agent_config self; agent_safety := agent_safety self;
     memory := memory self; status := status self;
     _stop_requested := b; sleeps := sleeps self |}.

(** [stop()], when the outside calls it. *)
Definition observe_stop (self : Agent) (called : bool) : Agent :=
  if called then set_stop_requested self true else self.

Definition _delay_between_steps (self : Agent) (step : Z) : Agent :=
  if Qle_bool (step_delay (agent_config self)) 0 then self
  else if _stop_requested self || (step >=? max_steps (agent_config self))
  then self
  else
    {| agent_config := agent_config self; agent_safety := agent_safety self;
       memory := memory self; status := status self;
       _stop_requested := _stop_requested self;
       sleeps := (sleeps self ++ [(step, step_delay (agent_config self))])%list |}.

(** The capture as [_capture_screen] prepares it: compressed if the
    configuration says so, then overlaid with the grid if it says so. *)
Definition processed_screenshot (w : World) (cfg : AgentConfig) (step : Z)
  : result Image :=
  screenshot <- get_screenshot w step ;;
  screenshot <- (if compress_screenshots cfg
                 then compress_image w screenshot (max_screenshot_size cfg)
                 else Return screenshot) ;;
  if use_grid cfg then overlay_grid w screenshot (grid_step cfg)
  else Return screenshot.

Definition _capture_screen (w : World) (self : Agent) (step : Z)
  : Agent * result Image :=
  match processed_screenshot w (agent_config self) step with
  | Return screenshot =>
      (set_memory self (add_screenshot (memory self) screenshot),
       Return screenshot)
  | Raise e => (self, Raise e)
  end.

(** [d[k]] *)
Definition dict_item (k : string) (d : dict) : result value :=
  match dict_lookup k d with
  | Some v => Return v
  | None => Raise (KeyError ("'" +:+ k +:+ "'"))
  end.

(** The positional arguments that a starred argument [v] unpacks to. *)
Definition unpack (v : value) : result (list value) :=
  match v with
  | VList l => Return l
  | VStr s => Return (map (fun c => VStr (String c EmptyString)) (list_ascii_of_string s))
  | VDict d => Return (map (fun kv => VStr (fst kv)) d)
  | _ => Raise (TypeError ("argument after * must be an iterable, not " +:+
                           type_name v))
  end.

Definition _execute_action (w : World) (step : Z) (a : ParsedAction)
  : result ActionResult.t :=
  let params := params a in
  if String.eqb (action a) "click" then
    x <- dict_item "x" params ;; y <- dict_item "y" params ;;
    controller w step (call_click x y (dict_get "button" (VStr "left") params))
  else if String.eqb (action a) "double_click" then
    x <- dict_item "x" params ;; y <- dict_item "y" params ;;
    controller w step (call_double_click x y)
  else if String.eqb (action a) "move" then
    x <- dict_item "x" params ;; y <- dict_item "y" params ;;
    controller w step (call_move x y)
  else if String.eqb (action a) "type" then
    text <- dict_item "text" params ;;
    controller w step (call_type_text text)
  else if String.eqb (action a) "hotkey" then
    keys <- dict_item "keys" params ;; keys <- unpack keys ;;
    controller w step (call_hotkey keys)
  else if String.eqb (action a) "scroll" then
    direction <- dict_item "direction" params ;;
    controller w step (call_scroll direction (dict_get "amount" (VInt 3) params))
  else if String.eqb (action a) "wait" then
    seconds <- dict_item "seconds" params ;;
    controller w step (call_wait seconds)
  else
    Return {| ActionResult.success := false;
              ActionResult.action := action a;
              ActionResult.message := None;
              ActionResult.error := Some ("Unknown action: " +:+ action a) |}.

(** How one pass through the loop body ends: at a [continue] or at the end
    of the body, at a [return], or with an exception that reaches the
    [except Exception] around the loop. *)
Inductive control : Type :=
| Continue
| Exit (r : AgentResult.t)
| Fault (e : exn).

Definition make_result (self : Agent) (step : Z) (final : option Image)
    (ok message : value) : AgentResult.t :=
  {| AgentResult.success := ok;
     AgentResult.message := message;
     AgentResult.total_steps := step;
     AgentResult.actions_executed := total_actions (memory self);
     AgentResult.final_screenshot := final |}.

(** An optional string inside an f-string. *)
Definition fmt_opt (o : option string) : string :=
  match o with Some s => s | None => "None" end.

(** [a or b] for optional strings. *)
Definition opt_or (a b : option string) : option string :=
  match a with
  | Some s => if String.eqb s EmptyString then b else Some s
  | None => b
  end.

(** [self.memory.add_message("assistant", text)] *)
Definition remember (self : Agent) (text : string) : Agent :=
  set_memory self (add_message (memory self) "assistant" (VStr text)).

Section Run.
Context `{PyRuntime}.
Variable w : World.
Variable task : string.

Definition loop_body (self : Agent) (step : Z) (final_screenshot : option Image)
  : Agent * option Image * control :=
  match _capture_screen w self step with
  | (self, Raise e) => (self, final_screenshot, Fault e)
  | (self, Return screenshot) =>
    let final_screenshot := Some screenshot in
    let response :=
      analyze_screen w step task (get_conversation_for_llm (memory self)) in
    let self := observe_stop self (stop_during w step) in
    match response with
    | Raise e =>
        let self := set_status self FAILED in
        (self, final_screenshot,
         Exit (make_result self step final_screenshot (VBool false)
                           (VStr ("LLM error: " +:+ exn_str e))))
    | Return content =>
      match parse_llm_response content with
      | Raise (ParseError msg) =>
          let self := remember self ("Parse error: " +:+ msg +:+
                                     ". Please respond with valid JSON.") in
          (_delay_between_steps self step, final_screenshot, Continue)
      | Raise e => (self, final_screenshot, Fault e)
      | Return a =>
        match validate_action_params a with
        | Raise e => (self, final_screenshot, Fault e)
        | Return (valid, error) =>
          if negb valid then
            let self := remember self ("Invalid action: " +:+ fmt_opt error +:+
                                       ". Please fix parameters.") in
            (_delay_between_steps self step, final_screenshot, Continue)
          else if String.eqb (action a) "done" then
            let self := set_status self COMPLETED in
            (self, final_screenshot,
             Exit (make_result self step final_screenshot
                     (dict_get "success" (VBool true) (params a))
                     (dict_get "result" (VStr "Task completed") (params a))))
          else
            let (safety', checked) :=
              validate_action (agent_safety self) (time_check w step)
                              (action a) (params a) in
            let self := set_safety self safety' in
            match checked with
            | Raise e => (self, final_screenshot, Fault e)
            | Return (safe, safety_error) =>
              if negb safe then
                let self := remember self ("Action blocked by safety: " +:+
                                           fmt_opt safety_error) in
                (_delay_between_steps self step, final_screenshot, Continue)
              else
                match _execute_action w step a with
                | Raise e => (self, final_screenshot, Fault e)
                | Return res =>
                  let self :=
                    set_safety self (record_action (agent_safety self)
                                                   (time_record w step)) in
                  let outcome :=
                    opt_or (ActionResult.message res) (ActionResult.error res) in
                  let self :=
                    set_memory self
                      (add_action (memory self) a (ActionResult.success res)
                                  outcome) in
                  let self :=
                    remember self
                      ("Executed: " +:+ action a +:+ " - " +:+
                       (if ActionResult.success res then "Success" else "Failed")
                       +:+ ": " +:+ fmt_opt outcome) in
                  match on_step w with
                  | Some callback =>
                      match callback step a with
                      | Raise e => (self, final_screenshot, Fault e)
                      | Return _ =>
                          (_delay_between_steps self step, final_screenshot,
                           Continue)
                      end
                  | None =>
                      (_delay_between_steps self step, final_screenshot,
                       Continue)
                  end
                end
            end
        end
      end
    end
  end.

(** The [while] loop and what follows it. [fuel] bounds the number of
    passes; [run_total] shows that [run] never exhausts it. *)
Fixpoint run_loop (fuel : nat) (self : Agent) (step : Z)
    (final_screenshot : option Image) : option (Agent * AgentResult.t) :=
  if (step <? max_steps (agent_config self)) && negb (_stop_requested self)
  then
    match fuel with
    | O => None
    | S fuel' =>
        let step := step + 1 in
        match loop_body self step final_screenshot with
        | (self, final_screenshot, Continue) =>
            run_loop fuel' (observe_stop self (stop_between w step)) step
                     final_screenshot
        | (self, final_screenshot, Exit r) => Some (self, r)
        | (self, final_screenshot, Fault e) =>
            let self := set_status self FAILED in
            Some (self,
                  make_result self step final_screenshot (VBool false)
                              (VStr ("Unexpected error: " +:+ exn_str e)))
        end
    end
  else
    let self :=
      set_status self (if _stop_requested self then STOPPED else FAILED) in
    Some (self,
          make_result self step final_screenshot (VBool false)
                      (VStr (if negb (_stop_requested self)
                             then "Max steps reached"
                             else "Stopped by user"))).

Definition run (self : Agent) : option (Agent * AgentResult.t) :=
  let self := set_status self RUNNING in
  let self := set_stop_requested self false in
  let self := set_memory self (clear (memory self)) in
  let self := observe_stop self (stop_between w 0) in
  run_loop (Z.to_nat (max_steps (agent_config self))) self 0 None.
End Run.

(** ** Safety governor: the dangerous shortcuts *)

(** [iter(v)]: the items that a loop over [v] visits. *)
Definition py_iter (v : value) : result (list value) :=
  match v with
  | VList l => Return l
  | VStr s =>
      Return (map (fun c => VStr (String c EmptyString)) (list_ascii_of_string s))
  | VDict d => Return (map (fun kv => VStr (fst kv)) d)
  | _ => Raise (TypeError ("'" +:+ type_name v +:+ "' object is not iterable"))
  end.

(** [k.lower() for k in keys], consumed to its end. *)
Fixpoint lowered (keys : list value) : result (list string) :=
  match keys with
  | [] => Return []
  | k :: keys' =>
      name <- py_lower k ;;
      names <- lowered keys' ;;
      Return (name :: names)
  end.

Definition dangerous_combos : list (gset string) :=
  [ {[ "command"; "q" ]};
    {[ "command"; "delete" ]};
    {[ "command"; "shift"; "delete" ]};
    {[ "control"; "alt"; "delete" ]} ].

Definition is_dangerous_action (self : SafetyController) (action : string)
    (params : dict) : result bool :=
  if String.eqb action "hotkey" then
    keys <- py_iter (dict_get "keys" (VList []) params) ;;
    names <- lowered keys ;;
    let key_set : gset string := list_to_set names in
    Return (existsb (fun combo => bool_decide (subseteq combo key_set))
                    dangerous_combos)
  else Return false.

(** ** Memory store: the summary of recent actions *)

(** The check mark (U+2713), the ballot cross (U+2717) and the arrow
    (U+2192) of the summary, in UTF-8. *)
Definition check_mark : string :=
  String "226" (String "156" (String "147" EmptyString)).

Definition ballot_cross : string :=
  String "226" (String "156" (String "151" EmptyString)).

Definition rightwards_arrow : string :=
  String "226" (String "134" (String "146" EmptyString)).

Section Summary.
Context `{PyRuntime}.

(** The line that the loop of [get_action_summary] builds for a record. *)
Definition summary_line (record : ActionRecord.t) : string :=
  let status := if ActionRecord.success record then check_mark else ballot_cross in
  let line :=
    "  " +:+ status +:+ " " +:+ action (ActionRecord.action record) +:+
    "(" +:+ py_str (VDict (params (ActionRecord.action record))) +:+ ")" in
  match ActionRecord.result_message record with
  | Some m =>
      if String.eqb m EmptyString then line
      else line +:+ " " +:+ rightwards_arrow +:+ " " +:+ m
  | None => line
  end.

(** The list [lines] when the loop is over. *)
Definition summary_lines (self : AgentMemory) (last_n : Z) : list string :=
  "Recent actions:" :: map summary_line (slice_from (- last_n) (actions self)).

Definition get_action_summary (self : AgentMemory) (last_n : Z) : string :=
  match actions self with
  | [] => "No actions executed yet."
  | _ => String.concat (String "010" EmptyString) (summary_lines self last_n)
  end.
End Summary.

(** ** Action controller: [src/odin/action/controller.py]

    The methods at the argument types that their signatures declare:
    coordinates and scroll units are [int], text, button, keys and
    direction are [str], durations are [float]. *)

Module ActionController.

(** [screen_width] and [screen_height] are what [pyautogui.size()] gave
    when the controller was built. *)
Record t : Type := {
  screen_width : Z;
  screen_height : Z
}.

(** A call of a function of [pyautogui]. *)
Inductive GuiCall : Type :=
| gui_click (x y : Z) (button : string)
| gui_doubleClick (x y : Z)
| gui_moveTo (x y : Z) (duration : option Q)
| gui_drag (dx dy : Z) (duration : Q)
| gui_write (text : string) (interval : Q)
| gui_hotkey (keys : list string)
| gui_hscroll (amount : Z) (x y : option Z)
| gui_scroll (amount : Z) (x y : option Z).

Definition succeeded (name message : string) : ActionResult.t :=
  {| ActionResult.success := true; ActionResult.action := name;
     ActionResult.message := Some message; ActionResult.error := None |}.

Definition failed (name error : string) : ActionResult.t :=
  {| ActionResult.success := false; ActionResult.action := name;
     ActionResult.message := None; ActionResult.error := Some error |}.

(** [(x, y)] inside an f-string. *)
Definition point (x y : Z) : string :=
  "(" +:+ string_of_Z x +:+ ", " +:+ string_of_Z y +:+ ")".

Definition _validate_coordinates (self : t) (x y : Z) : bool :=
  ((0 <=? x) && (x <? screen_width self)) &&
  ((0 <=? y) && (y <? screen_height self)).

Section Methods.
(** What each call of [pyautogui] does: it returns, or raises. *)
Variable pyautogui : GuiCall -> result unit.

(** A [try] block that makes the calls [calls] in turn and then returns
    [succeeded name message]; its [except Exception as e] returns
    [failed name (str e)]. The result comes with the calls that were made. *)
Fixpoint attempt (calls : list GuiCall) (name message : string)
  : list GuiCall * ActionResult.t :=
  match calls with
  | [] => ([], succeeded name message)
  | call :: calls' =>
      match pyautogui call with
      | Return _ =>
          let (made, res) := attempt calls' name message in
          (call :: made, res)
      | Raise e => ([call], failed name (exn_str e))
      end
  end.

Definition click (self : t) (x y : Z) (button : string)
  : list GuiCall * ActionResult.t :=
  if negb (_validate_coordinates self x y)
  then ([], failed "click"
              ("Coordinates " +:+ point x y +:+ " out of screen bounds"))
  else attempt [gui_click x y button] "click"
               ("Clicked " +:+ button +:+ " at " +:+ point x y).

Definition double_click (self : t) (x y : Z) : list GuiCall * ActionResult.t :=
  if negb (_validate_coordinates self x y)
  then ([], failed "double_click"
              ("Coordinates " +:+ point x y +:+ " out of screen bounds"))
  else attempt [gui_doubleClick x y] "double_click"
               ("Double-clicked at " +:+ point x y).

Definition right_click (self : t) (x y : Z) : list GuiCall * ActionResult.t :=
  click self x y "right".

Definition move (self : t) (x y : Z) (duration : Q)
  : list GuiCall * ActionResult.t :=
  if negb (_validate_coordinates self x y)
  then ([], failed "move"
              ("Coordinates " +:+ point x y +:+ " out of screen bounds"))
  else attempt [gui_moveTo x y (Some duration)] "move"
               ("Moved cursor to " +:+ point x y).

Definition drag (self : t) (start_x start_y end_x end_y : Z) (duration : Q)
  : list GuiCall * ActionResult.t :=
  if negb (_validate_coordinates self start_x start_y)
  then ([], failed "drag"
              ("Start coordinates " +:+ point start_x start_y +:+
               " out of bounds"))
  else if negb (_validate_coordinates self end_x end_y)
  then ([], failed "drag"
              ("End coordinates " +:+ point end_x end_y +:+ " out of bounds"))
  else attempt [gui_moveTo start_x start_y None;
                gui_drag (end_x - start_x) (end_y - start_y) duration]
               "drag"
               ("Dragged from " +:+ point start_x start_y +:+ " to " +:+
                point end_x end_y).

Definition type_text (self : t) (text : string) (interval : Q)
  : list GuiCall * ActionResult.t :=
  attempt [gui_write text interval] "type"
          ("Typed: " +:+ str_take 50 text +:+
           (if (50 <? String.length text)%nat then "..." else EmptyString)).

Definition hotkey (self : t) (keys : list string)
  : list GuiCall * ActionResult.t :=
  attempt [gui_hotkey keys] "hotkey" ("Pressed: " +:+ String.concat "+" keys).

Definition scroll (self : t) (clicks : Z) (direction : string)
    (x y : option Z) : list GuiCall * ActionResult.t :=
  let message :=
    "Scrolled " +:+ direction +:+ " by " +:+ string_of_Z clicks in
  if String.eqb direction "up"
  then attempt [gui_scroll clicks x y] "scroll" message
  else if String.eqb direction "down"
  then attempt [gui_scroll (- clicks) x y] "scroll" message
  else
    let scroll_amount :=
      if String.eqb direction "right" then clicks else - clicks in
    attempt [gui_hscroll scroll_amount x y] "scroll" message.
End Methods.

(** [time_sleep] is [time.sleep], which raises for a length it refuses. The
    call stands outside any [try]. *)
Definition wait `{PyRuntime} (time_sleep : value -> result unit) (self : t)
    (seconds : value) : result ActionResult.t :=
  _ <- time_sleep seconds ;;
  Return (succeeded "wait" ("Waited " +:+ py_str seconds +:+ " seconds")).

End ActionController.

(** ** A model of the runtime

    [json.JSONDecoder.raw_decode] after CPython 3.12's scanner
    ([Modules/_json.c]); the theorems below hold for every [PyRuntime],
    this instance serves to run the code on concrete responses. *)

Module Model.

Inductive scanned : Type :=
| Scanned (v : value) (rest : string) (idx : nat)
| Invalid (msg : string) (pos : nat)
| StopIteration (pos : nat)
| Exhausted.

Definition is_whitespace (c : ascii) : bool :=
  Ascii.eqb c " " || Ascii.eqb c "009" || Ascii.eqb c "010" || Ascii.eqb c "013".

Fixpoint skip_ws (s : string) (idx : nat) : string * nat :=
  match s with
  | String c s' => if is_whitespace c then skip_ws s' (S idx) else (s, idx)
  | EmptyString => (s, idx)
  end.

Definition digit_of (c : ascii) : option Z :=
  let n := nat_of_ascii c in
  if ((48 <=? n) && (n <=? 57))%nat then Some (Z.of_nat (n - 48)) else None.

Definition hex_of (c : ascii) : option Z :=
  let n := nat_of_ascii c in
  if ((48 <=? n) && (n <=? 57))%nat then Some (Z.of_nat (n - 48))
  else if ((65 <=? n) && (n <=? 70))%nat then Some (Z.of_nat (n - 55))
  else if ((97 <=? n) && (n <=? 102))%nat then Some (Z.of_nat (n - 87))
  else None.

(** The longest run of decimal digits at the head of [s]: its value, its
    length and what follows. *)
Fixpoint digits (s : string) (acc : Z) (len : nat) : Z * nat * string :=
  match s with
  | String c s' =>
      match digit_of c with
      | Some d => digits s' (10 * acc + d) (S len)
      | None => (acc, len, s)
      end
  | EmptyString => (acc, len, s)
  end.

Definition byte (n : Z) : ascii := ascii_of_nat (Z.to_nat n).

(** [chr(n)], encoded in UTF-8. *)
Definition utf8 (n : Z) : string :=
  if n <? 128 then String (byte n) EmptyString
  else if n <? 2048
  then String (byte (192 + n / 64)) (String (byte (128 + n mod 64)) EmptyString)
  else if n <? 65536
  then String (byte (224 + n / 4096))
         (String (byte (128 + (n / 64) mod 64))
            (String (byte (128 + n mod 64)) EmptyString))
  else String (byte (240 + n / 262144))
         (String (byte (128 + (n / 4096) mod 64))
            (String (byte (128 + (n / 64) mod 64))
               (String (byte (128 + n mod 64)) EmptyString))).

(** Four hexadecimal digits. *)
Definition hex4 (s : string) : option (Z * string) :=
  match s with
  | String a (String b (String c (String d rest))) =>
      match hex_of a, hex_of b, hex_of c, hex_of d with
      | Some x, Some y, Some z, Some t =>
          Some (4096 * x + 256 * y + 16 * z + t, rest)
      | _, _, _, _ => None
      end
  | _ => None
  end.

Definition simple_escape (c : ascii) : option ascii :=
  if Ascii.eqb c "034" then Some "034"%char
  else if Ascii.eqb c "\" then Some "\"%char
  else if Ascii.eqb c "/" then Some "/"%char
  else if Ascii.eqb c "b" then Some "008"%char
  else if Ascii.eqb c "f" then Some "012"%char
  else if Ascii.eqb c "n" then Some "010"%char
  else if Ascii.eqb c "r" then Some "013"%char
  else if Ascii.eqb c "t" then Some "009"%char
  else None.

(** The low half of a surrogate pair, when [hi] is a high half and an
    escaped low half follows: the code point of the pair, what follows it
    and the index there. *)
Definition low_surrogate (hi : Z) (after : string) (idx : nat)
  : option (Z * string * nat) :=
  if (55296 <=? hi) && (hi <=? 56319) then
    match after with
    | String "\" (String "u" low) =>
        match hex4 low with
        | Some (lo, after') =>
            if (56320 <=? lo) && (lo <=? 57343)
            then Some (65536 + (hi - 55296) * 1024 + (lo - 56320),
                       after', (idx + 12)%nat)
            else None
        | None => None
        end
    | _ => None
    end
  else None.

(** [scanstring], strict: [s] starts after the opening quote, at [idx];
    [begin] is the index of that quote. [fuel] is the length of [s], and
    more would change nothing: [scanstring_fuel]. *)
Fixpoint scanstring (fuel : nat) (s : string) (idx begin : nat) (acc : string)
  : scanned :=
  match fuel with
  | O => Invalid "Unterminated string starting at" begin
  | S fuel' =>
    match s with
    | EmptyString => Invalid "Unterminated string starting at" begin
    | String c s' =>
      if Ascii.eqb c "034" then Scanned (VStr acc) s' (S idx)
      else if Ascii.eqb c "\" then
        match s' with
        | EmptyString => Invalid "Unterminated string starting at" begin
        | String e s'' =>
          if Ascii.eqb e "u" then
            match hex4 s'' with
            | None => Invalid "Invalid \uXXXX escape" idx
            | Some (hi, after) =>
              match low_surrogate hi after idx with
              | Some (code, after', idx') =>
                  scanstring fuel' after' idx' begin (acc +:+ utf8 code)
              | None =>
                  scanstring fuel' after (idx + 6)%nat begin (acc +:+ utf8 hi)
              end
            end
          else
            match simple_escape e with
            | Some ch =>
                scanstring fuel' s'' (idx + 2)%nat begin
                           (acc +:+ String ch EmptyString)
            | None => Invalid "Invalid \escape" idx
            end
        end
      else if (nat_of_ascii c <? 32)%nat
      then Invalid "Invalid control character at" idx
      else scanstring fuel' s' (S idx) begin (acc +:+ String c EmptyString)
    end
  end.

(** The parts of [NUMBER_RE]: an optional minus sign, an integer part
    without a superfluous leading zero, an optional fraction, an optional
    exponent. Each takes what it matches off the head of [s]. *)
Definition number_sign (s : string) : bool * string :=
  match s with
  | String "-" s' => (true, s')
  | _ => (false, s)
  end.

Definition integer_part (s : string) : option (Z * nat * string) :=
  match s with
  | String "0" s' => Some (0, 1%nat, s')
  | String c _ =>
      match digit_of c with
      | Some _ => Some (digits s 0 0)
      | None => None
      end
  | EmptyString => None
  end.

Definition fraction_part (s : string) (idx : nat)
  : option (Z * nat) * string * nat :=
  match s with
  | String "." s' =>
      match digits s' 0 0 with
      | (_, O, _) => (None, s, idx)
      | (f, k, rest) => (Some (f, k), rest, (idx + 1 + k)%nat)
      end
  | _ => (None, s, idx)
  end.

Definition exponent_sign (s : string) : Z * string * nat :=
  match s with
  | String "-" t => (-1, t, 1%nat)
  | String "+" t => (1, t, 1%nat)
  | _ => (1, s, 0%nat)
  end.

Definition exponent_part (s : string) (idx : nat)
  : option Z * string * nat :=
  match s with
  | String e s' =>
      if Ascii.eqb e "e" || Ascii.eqb e "E" then
        let '(sign, s'', signed) := exponent_sign s' in
        match digits s'' 0 0 with
        | (_, O, _) => (None, s, idx)
        | (x, k, rest) => (Some (sign * x), rest, (idx + 1 + signed + k)%nat)
        end
      else (None, s, idx)
  | EmptyString => (None, s, idx)
  end.

(** The number that the parts denote: an [int] when there is neither
    fraction nor exponent, a [float] otherwise. *)
Definition number_value (negative : bool) (n : Z) (frac : option (Z * nat))
    (expo : option Z) : value :=
  match frac, expo with
  | None, None => VInt (if negative then - n else n)
  | _, _ =>
      let (f, k) := match frac with Some fk => fk | None => (0, 0%nat) end in
      let x := match expo with Some x => x | None => 0 end in
      let mantissa :=
        (inject_Z n + inject_Z f / inject_Z (10 ^ Z.of_nat k))%Q in
      let scaled :=
        if x <? 0 then (mantissa / inject_Z (10 ^ (- x)))%Q
        else (mantissa * inject_Z (10 ^ x))%Q in
      VFloat (FFin (Qred (if negative then - scaled else scaled)%Q))
  end.

(** [NUMBER_RE.match(s, idx)] and the value that [scan_once] makes of it. *)
Definition match_number (s : string) (idx : nat)
  : option (value * string * nat) :=
  let (negative, s1) := number_sign s in
  match integer_part s1 with
  | None => None
  | Some (n, len, s2) =>
      let '(frac, s3, idx3) :=
        fraction_part s2 (idx + (if negative then 1 else 0) + len)%nat in
      let '(expo, s4, idx4) := exponent_part s3 idx3 in
      Some (number_value negative n frac expo, s4, idx4)
  end.

(** [scan_once], with the loops of [_parse_object] and [_parse_array].
    An object is filled key by key, a repeated key keeping its first
    place and its last value. *)
Fixpoint scan_once (fuel : nat) (s : string) (idx : nat) : scanned :=
  match fuel with
  | O => Exhausted
  | S fuel' =>
    match s with
    | EmptyString => StopIteration idx
    | String c s' =>
      if Ascii.eqb c "034"
      then scanstring (String.length s') s' (S idx) idx EmptyString
      else if Ascii.eqb c "{" then
        let (s1, i1) := skip_ws s' (S idx) in
        match s1 with
        | String "}" rest => Scanned (VDict []) rest (S i1)
        | _ => object_members fuel' s1 i1 []
        end
      else if Ascii.eqb c "[" then
        let (s1, i1) := skip_ws s' (S idx) in
        match s1 with
        | String "]" rest => Scanned (VList []) rest (S i1)
        | _ => array_items fuel' s1 i1 []
        end
      else if str_prefix "null" s
      then Scanned VNone (str_drop 4 s) (idx + 4)
      else if str_prefix "true" s
      then Scanned (VBool true) (str_drop 4 s) (idx + 4)
      else if str_prefix "false" s
      then Scanned (VBool false) (str_drop 5 s) (idx + 5)
      else
        match match_number s idx with
        | Some (v, rest, idx') => Scanned v rest idx'
        | None =>
            if str_prefix "NaN" s
            then Scanned (VFloat FNaN) (str_drop 3 s) (idx + 3)
            else if str_prefix "Infinity" s
            then Scanned (VFloat (FInf false)) (str_drop 8 s) (idx + 8)
            else if str_prefix "-Infinity" s
            then Scanned (VFloat (FInf true)) (str_drop 9 s) (idx + 9)
            else StopIteration idx
        end
    end
  end
with object_members (fuel : nat) (s : string) (idx : nat) (d : dict)
  : scanned :=
  match fuel with
  | O => Exhausted
  | S fuel' =>
    match s with
    | String "034" s' =>
      match scanstring (String.length s') s' (S idx) idx EmptyString with
      | Scanned key s1 i1 =>
        let (s2, i2) := skip_ws s1 i1 in
        match s2 with
        | String ":" s3 =>
          let (s4, i4) := skip_ws s3 (S i2) in
          match scan_once fuel' s4 i4 with
          | Scanned v s5 i5 =>
            let d := dict_set (match key with VStr k => k | _ => EmptyString end) v d in
            let (s6, i6) := skip_ws s5 i5 in
            match s6 with
            | String "}" rest => Scanned (VDict d) rest (S i6)
            | String "," s7 =>
                let (s8, i8) := skip_ws s7 (S i6) in
                object_members fuel' s8 i8 d
            | _ => Invalid "Expecting ',' delimiter" i6
            end
          | other => other
          end
        | _ => Invalid "Expecting ':' delimiter" i2
        end
      | other => other
      end
    | _ => Invalid "Expecting property name enclosed in double quotes" idx
    end
  end
with array_items (fuel : nat) (s : string) (idx : nat) (acc : list value)
  : scanned :=
  match fuel with
  | O => Exhausted
  | S fuel' =>
    match scan_once fuel' s idx with
    | Scanned v s1 i1 =>
      let (s2, i2) := skip_ws s1 i1 in
      match s2 with
      | String "]" rest => Scanned (VList (acc ++ [v])) rest (S i2)
      | String "," s3 =>
          let (s4, i4) := skip_ws s3 (S i2) in
          array_items fuel' s4 i4 (acc ++ [v])
      | _ => Invalid "Expecting ',' delimiter" i2
      end
    | other => other
    end
  end.

(** Fuel that no document exhausts: see [scan_once_fuel]. *)
Definition enough (s : string) : nat := 2 * String.length s + 2.

Definition raw_decode (s : string) : JSONDecodeError + value :=
  match scan_once (enough s) s 0 with
  | Scanned v _ _ => inr v
  | Invalid msg pos => inl {| jde_msg := msg; jde_doc := s; jde_pos := pos |}
  | StopIteration pos =>
      inl {| jde_msg := "Expecting value"; jde_doc := s; jde_pos := pos |}
  | Exhausted =>
      inl {| jde_msg := "Expecting value"; jde_doc := s; jde_pos := 0 |}
  end.

(** [str(v)] where the class fixes it; the text that Python prints for a
    float or a container is not modelled, and nothing below evaluates it. *)
Definition py_str (v : value) : string :=
  match v with
  | VStr s => s
  | VInt n => string_of_Z n
  | VBool b => if b then "True" else "False"
  | VNone => "None"
  | other => "<" +:+ type_name other +:+ ">"
  end.

(** Test documents are written with an apostrophe wherever the document
    has a quotation mark. *)
Fixpoint quoted (s : string) : string :=
  match s with
  | EmptyString => EmptyString
  | String c s' =>
      String (if Ascii.eqb c "'" then "034"%char else c) (quoted s')
  end.

End Model.

(** ** The conversation as objects on the heap

    [self.messages] is a list object whose items are references to the
    message dictionaries. What [get_conversation_for_llm] shares with its
    caller shows only here: a list object holds locations, and two lists
    may hold the same one. *)

Module Heap.

Inductive object : Type :=
| OList (items : list positive)
| ODict (d : dict).

(** A new object, at a location that the heap does not use yet. *)
Definition alloc (h : gmap positive object) (o : object)
  : positive * gmap positive object :=
  let l := fresh (dom h) in (l, <[l := o]> h).

Definition read_dict (h : gmap positive object) (l : positive)
  : option dict :=
  match h !! l with
  | Some (ODict d) => Some d
  | _ => None
  end.

(** The sequence of messages that the list at [l] denotes. *)
Definition read_list (h : gmap positive object) (l : positive)
  : option (list dict) :=
  match h !! l with
  | Some (OList items) => mapM (read_dict h) items
  | _ => None
  end.

(** [self.messages.copy()]: a new list object with the same items.
    [messages] is the location of [self.messages]. *)
Definition get_conversation_for_llm (h : gmap positive object)
    (messages : positive) : option (positive * gmap positive object) :=
  match h !! messages with
  | Some (OList items) => Some (alloc h (OList items))
  | _ => None
  end.

(** Any mutation of the list object at [l] itself ([append], [pop],
    [clear], [sort], [l[i] = r], [del l[i]], ...) leaves some list of
    references there and touches no other object. *)
Definition mutate_list (h : gmap positive object) (l : positive)
    (items' : list positive) : gmap positive object :=
  <[l := OList items']> h.

(** [conversation[i][k] = v] *)
Definition setitem_of_item (h : gmap positive object) (conversation : positive)
    (i : nat) (k : string) (v : value) : option (gmap positive object) :=
  match h !! conversation with
  | Some (OList items) =>
      match items !! i with
      | Some r =>
          match h !! r with
          | Some (ODict d) => Some (<[r := ODict (dict_set k v d)]> h)
          | _ => None
          end
      | None => None
      end
  | _ => None
  end.

(** A store with one message: the list at 1, the dictionary at 2. *)
Definition one_message : gmap positive object :=
  <[1%positive := OList [2%positive]]>
    (<[2%positive := ODict [("role", VStr "user"); ("content", VStr "test1")]]> ∅).

End Heap.

(** ** The specification's reading of parameter validation *)

(** Every field that the table requires for the action's kind is present. *)
Definition fields_present (a : ParsedAction) : Prop :=
  forall p, In p (required_for (action a) required_params) ->
            dict_in p (params a) = true.

(** The type checks of the specification: integer coordinates, a sequence
    of keys, a direction among the four, whatever its case. *)
Definition types_hold (a : ParsedAction) : Prop :=
  (In (action a) ["click"; "double_click"; "move"] ->
   isinstance_int (dict_get "x" VNone (params a)) = true /\
   isinstance_int (dict_get "y" VNone (params a)) = true) /\
  (action a = "hotkey" ->
   isinstance_list (dict_get "keys" VNone (params a)) = true) /\
  (action a = "scroll" ->
   exists s, dict_lookup "direction" (params a) = Some (VStr s) /\
             In (lower s) ["up"; "down"; "left"; "right"]).

(** ** Concrete inputs *)

(** [{"action": "scroll", "params": {"direction": 5}}], parsed. *)
Definition scroll_by_number : ParsedAction :=
  {| thought := EmptyString; action := "scroll";
     params := [("direction", VInt 5)]; raw_response := EmptyString |}.

(** The oracle's text from which the parser builds such an action. *)
Definition scroll_by_number_response : string :=
  Model.quoted "{'thought': 'down', 'action': 'scroll', 'params': {'direction': 5}}".

(** The test's governor: a 1000 by 800 screen, a margin of 10, no action
    taken yet. *)
Definition test_safety : SafetyController :=
  {| config := default_SafetyConfig; _action_times := [];
     _last_action_time := 0; screen_width := 1000; screen_height := 800 |}.

(** ** The specification's reading of the safety verdicts *)

(** The reason that the coordinate check gives for a refusal. *)
Definition too_close (axis : string) (shown : string) : string :=
  axis +:+ " coordinate " +:+ shown +:+ " is too close to screen edge".

Definition bounds_error `{PyRuntime} (reason : option string) : Prop :=
  exists axis v,
    (axis = "X" \/ axis = "Y") /\ reason = Some (too_close axis (py_str v)).

(** A value that [<] and [>=] compare with an [int]. *)
Definition is_number (v : value) : bool :=
  match v with VInt _ | VBool _ | VFloat _ => true | _ => false end.

Definition coordinate_keys : list string :=
  ["x"; "y"; "start_x"; "start_y"; "end_x"; "end_y"].

(** Every coordinate that [params] holds is a number. *)
Definition numeric_coordinates (params : dict) : Prop :=
  forall k v, In k coordinate_keys -> dict_lookup k params = Some v ->
              is_number v = true.

(** A position-bearing action that lacks one of its coordinates. *)
Definition lacks_coordinate (action : string) (params : dict) : Prop :=
  (In action ["click"; "double_click"; "move"] /\
   (dict_in "x" params = false \/ dict_in "y" params = false)) \/
  (action = "drag" /\
   (dict_in "start_x" params = false \/ dict_in "start_y" params = false \/
    dict_in "end_x" params = false \/ dict_in "end_y" params = false)).

(** What [validate_action] computes once the rate limit has let the action
    through. *)
Definition checked_coordinates `{PyRuntime} (self : SafetyController)
    (action : string) (params : dict) : result verdict :=
  v <- (if str_in action ["click"; "double_click"; "move"]
        then validate_coordinates self (dict_get "x" (VInt 0) params)
                                       (dict_get "y" (VInt 0) params)
        else Return (true, None)) ;;
  if negb (fst v) then Return (false, snd v)
  else if String.eqb action "drag"
  then validate_pairs self params [("start_x", "start_y"); ("end_x", "end_y")]
  else Return (true, None).

(** [validate_action("click", {"x": "a"})]: a coordinate that is text. *)
Definition click_on_text : dict := [("x", VStr "a")].

(** ** The specification's reading of message trimming *)

(** The message dictionary that [add_message] appends. *)
Definition mk_message (role : string) (content : value) : dict :=
  [("role", VStr role); ("content", content)].

(** The most recent [n] entries of [l]. *)
Definition last_n {A : Type} (n : nat) (l : list A) : list A :=
  drop (length l - n) l.

(** [role] is the role of the message [m]. *)
Definition has_role (role : string) (m : dict) : bool :=
  eq_str (dict_get "role" VNone m) role.

(** A run of [add_message] calls, given as (role, content) pairs. *)
Definition add_messages (self : AgentMemory) (calls : list (string * value))
  : AgentMemory :=
  fold_left (fun m call => add_message m (fst call) (snd call)) calls self.

(** A store that keeps one message. *)
Definition one_slot_memory : AgentMemory :=
  {| messages := []; actions := []; screenshots := [];
     max_screenshots := 5; max_messages := 1 |}.

(** ** The specification's reading of the extraction *)

Section ParserSpec.
Context `{PyRuntime}.

(** The object that a candidate decodes to, if it does. *)
Definition decode_object (candidate : string) : option dict :=
  match raw_decode candidate with
  | inr (VDict d) => Some d
  | _ => None
  end.

(** The error with which a candidate fails to decode, if it does. *)
Definition decode_error (candidate : string) : option JSONDecodeError :=
  match raw_decode candidate with
  | inl e => Some e
  | inr _ => None
  end.

(** Every valid object, in the order of the opening braces. *)
Definition collected (response : string) : list dict :=
  omap decode_object (brace_candidates response).
End ParserSpec.

(** The parse fails and says that no JSON was found. *)
Definition no_json_found {A : Type} (r : result A) : Prop :=
  exists m, r = Raise (ParseError m) /\
            str_prefix "No JSON found in response: " m = true.


(** A response with an opening brace and nothing that parses. *)
Definition lone_brace : string := "{".


(** ** Agents and worlds of the test suite *)

(** [Agent(llm_client, config)] on a screen of the given size. *)
Definition new_Agent (cfg : AgentConfig) (width height : Z) : Agent :=
  {| agent_config := cfg;
     agent_safety := {| config := safety cfg; _action_times := [];
                        _last_action_time := 0;
                        screen_width := width; screen_height := height |};
     memory := new_AgentMemory;
     status := IDLE;
     _stop_requested := false;
     sleeps := [] |}.

(** A world in which nothing fails and nobody calls [stop()]: captures
    succeed, the oracle answers [answers n] in step [n], every primitive
    of the controller succeeds, and a second passes between two steps. *)
Definition quiet_world (answers : Z -> string) : World :=
  {| get_screenshot := fun n => Return (image (Z.to_nat n));
     compress_image := fun img _ => Return img;
     overlay_grid := fun img _ => Return img;
     analyze_screen := fun n _ _ => Return (answers n);
     controller := fun _ _ =>
       Return {| ActionResult.success := true;
                 ActionResult.action := "click";
                 ActionResult.message := Some "Clicked";
                 ActionResult.error := None |};
     on_step := None;
     stop_during := fun _ => false;
     stop_between := fun _ => false;
     time_check := fun n => inject_Z n;
     time_record := fun n => inject_Z n |}.

Definition done_response : string :=
  Model.quoted "{'thought': 'Done', 'action': 'done', 'params': {'result': 'Done', 'success': true}}".

Definition click_response : string :=
  Model.quoted "{'thought': 'Keep clicking', 'action': 'click', 'params': {'x': 100, 'y': 100}}".


(** First an answer that is no JSON, then [done]. *)
Definition garbage_then_done (n : Z) : string :=
  if n =? 1 then "This is not valid JSON" else done_response.

Definition config_with_max_steps (n : Z) : AgentConfig :=
  {| max_steps := n; step_delay := step_delay default_AgentConfig;
     use_grid := use_grid default_AgentConfig;
     grid_step := grid_step default_AgentConfig;
     compress_screenshots := compress_screenshots default_AgentConfig;
     max_screenshot_size := max_screenshot_size default_AgentConfig;
     safety := safety default_AgentConfig |}.

(** The corrective message that follows a parse error. *)
Definition parse_error_text (msg : string) : string :=
  "Parse error: " +:+ msg +:+ ". Please respond with valid JSON.".

(** ** The specification's reading of a run without faults *)




(** ** The specification's reading of the exits of [run] *)


(** The message of a result made for a failed oracle call or for an
    exception caught around the loop. *)
Definition failure_message (m : value) : Prop :=
  exists e, m = VStr ("LLM error: " +:+ e) \/
            m = VStr ("Unexpected error: " +:+ e).

(** ** The scanner's use of its fuel *)

(** The scan did not run out of fuel, and what it leaves is shorter than
    what it was given. *)
Definition shorter (r : Model.scanned) (s : string) : Prop :=
  r <> Model.Exhausted /\
  forall v rest idx, r = Model.Scanned v rest idx ->
                     (String.length rest < String.length s)%nat.

(** ** Further readings of the code *)

(** The governor after the actions recorded at [times], oldest first. *)
Definition record_actions (self : SafetyController) (times : list Q)
  : SafetyController :=
  fold_left record_action times self.

(** A governor that lets [limit] actions through per minute on a 1000 by
    800 screen. *)
Definition safety_with_limit (limit : Z) : SafetyController :=
  {| config := {| max_actions_per_minute := limit;
                  min_action_delay := 1 # 10;
                  require_confirmation := false;
                  bounds_margin := 10 |};
     _action_times := []; _last_action_time := 0;
     screen_width := 1000; screen_height := 800 |}.

(** The governor [self] with another margin. *)
Definition with_margin (self : SafetyController) (margin : Z)
  : SafetyController :=
  {| config := {| max_actions_per_minute := max_actions_per_minute (config self);
                  min_action_delay := min_action_delay (config self);
                  require_confirmation := require_confirmation (config self);
                  bounds_margin := margin |};
     _action_times := _action_times self;
     _last_action_time := _last_action_time self;
     screen_width := screen_width self;
     screen_height := screen_height self |}.

(** The keys of a shortcut, as the [keys] parameter of a [hotkey]. *)
Definition hotkey_params (keys : list string) : dict :=
  [("keys", VList (map VStr keys))].

(** The shortcuts that the combinations of [dangerous_combos] single out,
    told by the lower-case names [names] of the keys pressed. *)
Definition dangerous_names (names : list string) : Prop :=
  (In "command" names /\ (In "q" names \/ In "delete" names)) \/
  (In "control" names /\ In "alt" names /\ In "delete" names).

(** A memory that holds the screenshots [shots] and keeps [cap] of them. *)
Definition memory_with_screenshots (shots : list Image) (cap : Z)
  : AgentMemory :=
  {| messages := []; actions := []; screenshots := shots;
     max_screenshots := cap; max_messages := 20 |}.

(** A record of [done], succeeded or not. *)
Definition sample_record (ok : bool) : ActionRecord.t :=
  {| ActionRecord.action :=
       {| thought := EmptyString; action := "done"; params := [];
          raw_response := EmptyString |};
     ActionRecord.success := ok;
     ActionRecord.result_message := None |}.

(** A request to the controller: one of its methods with its arguments. *)
Inductive Request : Type :=
| req_click (x y : Z) (button : string)
| req_double_click (x y : Z)
| req_right_click (x y : Z)
| req_move (x y : Z) (duration : Q)
| req_drag (start_x start_y end_x end_y : Z) (duration : Q)
| req_type_text (text : string) (interval : Q)
| req_hotkey (keys : list string)
| req_scroll (clicks : Z) (direction : string) (x y : option Z).

Definition perform (pyautogui : ActionController.GuiCall -> result unit)
    (self : ActionController.t) (req : Request)
  : list ActionController.GuiCall * ActionResult.t :=
  match req with
  | req_click x y button => ActionController.click pyautogui self x y button
  | req_double_click x y => ActionController.double_click pyautogui self x y
  | req_right_click x y => ActionController.right_click pyautogui self x y
  | req_move x y duration => ActionController.move pyautogui self x y duration
  | req_drag sx sy ex ey duration =>
      ActionController.drag pyautogui self sx sy ex ey duration
  | req_type_text text interval =>
      ActionController.type_text pyautogui self text interval
  | req_hotkey keys => ActionController.hotkey pyautogui self keys
  | req_scroll clicks direction x y =>
      ActionController.scroll pyautogui self clicks direction x y
  end.


(** A [pyautogui] in which every call returns. *)
Definition obliging_gui (call : ActionController.GuiCall) : result unit :=
  Return tt.

Definition test_controller : ActionController.t :=
  {| ActionController.screen_width := 1000;
     ActionController.screen_height := 800 |}.

(** The point [p] lies on the screen of the controller. *)
Definition on_screen (self : ActionController.t) (p : Z * Z) : Prop :=
  0 <= fst p < ActionController.screen_width self /\
  0 <= snd p < ActionController.screen_height self.

(** A run of [add_screenshot] calls, oldest capture first. *)
Definition add_screenshots (self : AgentMemory) (shots : list Image)
  : AgentMemory :=
  fold_left add_screenshot shots self.

(** [scroll] with a direction in capitals. *)
Definition scroll_in_capitals : ParsedAction :=
  {| thought := EmptyString; action := "scroll";
     params := [("direction", VStr "UP")]; raw_response := EmptyString |}.

(** A store within its limits, whose conversation holds nothing but
    messages of the assistant. *)
Definition within_limits (m : AgentMemory) : Prop :=
  Forall (fun msg => has_role "assistant" msg = true) (messages m) /\
  Z.of_nat (length (messages m)) <= max_messages m /\
  Z.of_nat (length (screenshots m)) <= max_screenshots m.

(** A world like [quiet_world] in which [stop()] is called while step
    [n] waits for the oracle. *)
Definition stopped_world (answers : Z -> string) (n : Z) : World :=
  {| get_screenshot := get_screenshot (quiet_world answers);
     compress_image := compress_image (quiet_world answers);
     overlay_grid := overlay_grid (quiet_world answers);
     analyze_screen := analyze_screen (quiet_world answers);
     controller := controller (quiet_world answers);
     on_step := None;
     stop_during := fun k => k =? n;
     stop_between := fun _ => false;
     time_check := time_check (quiet_world answers);
     time_record := time_record (quiet_world answers) |}.

(** A world like [quiet_world] in which the oracle fails in step [n]. *)
Definition failing_oracle_world (answers : Z -> string) (n : Z) : World :=
  {| get_screenshot := get_screenshot (quiet_world answers);
     compress_image := compress_image (quiet_world answers);
     overlay_grid := overlay_grid (quiet_world answers);
     analyze_screen := fun k task history =>
       if k =? n then Raise (Exception "timed out")
       else Return (answers k);
     controller := controller (quiet_world answers);
     on_step := None;
     stop_during := fun _ => false;
     stop_between := fun _ => false;
     time_check := time_check (quiet_world answers);
     time_record := time_record (quiet_world answers) |}.

(** A world like [quiet_world] in which the capture fails in step [n]. *)
Definition blind_world (answers : Z -> string) (n : Z) : World :=
  {| get_screenshot := fun k =>
       if k =? n then Raise (Exception "Failed to capture screenshot: no display")
       else Return (image (Z.to_nat k));
     compress_image := compress_image (quiet_world answers);
     overlay_grid := overlay_grid (quiet_world answers);
     analyze_screen := analyze_screen (quiet_world answers);
     controller := controller (quiet_world answers);
     on_step := None;
     stop_during := fun _ => false;
     stop_between := fun _ => false;
     time_check := time_check (quiet_world answers);
     time_record := time_record (quiet_world answers) |}.

(** The world [w] with other primitives of the controller. *)
Definition with_controller (w : World)
    (primitives : Z -> ControllerCall -> result ActionResult.t) : World :=
  {| get_screenshot := get_screenshot w;
     compress_image := compress_image w;
     overlay_grid := overlay_grid w;
     analyze_screen := analyze_screen w;
     controller := primitives;
     on_step := on_step w;
     stop_during := stop_during w;
     stop_between := stop_between w;
     time_check := time_check w;
     time_record := time_record w |}.

(** A controller none of whose primitives returns. *)
Definition broken_controller (step : Z) (call : ControllerCall)
  : result ActionResult.t :=
  Raise (Exception "no display").

(** A click at the corner of the screen, which the margin excludes. *)
Definition corner_click_response : string :=
  Model.quoted "{'thought': 'Corner', 'action': 'click', 'params': {'x': 0, 'y': 0}}".

(** * Properties *)

(** ** The model runtime is a runtime *)

Lemma skip_ws_length (s : string) (idx : nat) :
  (String.length (fst (Model.skip_ws s idx)) <= String.length s)%nat.
Proof.
  revert idx. induction s as [|c s IH]; intros idx; cbn; [lia|].
  destruct (Model.is_whitespace c); cbn; [|lia].
  specialize (IH (S idx)). lia.
Qed.

Lemma hex4_length (s rest : string) (n : Z) :
  Model.hex4 s = Some (n, rest) ->
  String.length s = (4 + String.length rest)%nat.
Proof.
  unfold Model.hex4.
  destruct s as [|a [|b [|c [|d s]]]]; try discriminate.
  destruct (Model.hex_of a), (Model.hex_of b), (Model.hex_of c),
    (Model.hex_of d); try discriminate.
  now intros [= _ <-].
Qed.

Lemma low_surrogate_length (hi code : Z) (after after' : string) (idx idx' : nat) :
  Model.low_surrogate hi after idx = Some (code, after', idx') ->
  (String.length after' < String.length after)%nat.
Proof.
  unfold Model.low_surrogate.
  destruct (_ && _); [|discriminate].
  destruct after as [|a after]; [discriminate|].
  destruct (Ascii.ascii_dec a "\") as [-> | Ha].
  2: { destruct a as [[] [] [] [] [] [] [] []]; destruct after;
         try discriminate; contradiction. }
  destruct after as [|b low]; [discriminate|].
  destruct (Ascii.ascii_dec b "u") as [-> | Hb].
  2: { destruct b as [[] [] [] [] [] [] [] []]; try discriminate; contradiction. }
  destruct (Model.hex4 low) as [[lo rest]|] eqn:Hhex; [|discriminate].
  apply hex4_length in Hhex.
  destruct (_ && _); [|discriminate].
  intros [= _ <- _]. cbn. lia.
Qed.

Lemma scanstring_shorter (fuel : nat) :
  forall (s : string) (idx start : nat) (acc : string) v rest idx',
    Model.scanstring fuel s idx start acc = Model.Scanned v rest idx' ->
    (String.length rest < String.length s)%nat.
Proof.
  induction fuel as [|fuel IH]; intros s idx start acc v rest idx' Hscan;
    [discriminate|].
  cbn [Model.scanstring] in Hscan.
  destruct s as [|c s]; [discriminate|].
  destruct (Ascii.eqb c "034").
  { injection Hscan as _ <- _. cbn. lia. }
  destruct (Ascii.eqb c "\").
  - destruct s as [|e s]; [discriminate|].
    destruct (Ascii.eqb e "u").
    + destruct (Model.hex4 s) as [[hi after]|] eqn:Hhex; [|discriminate].
      apply hex4_length in Hhex.
      destruct (Model.low_surrogate hi after idx) as [[[code after'] i]|] eqn:Hlow.
      * apply low_surrogate_length in Hlow. apply IH in Hscan. cbn. lia.
      * apply IH in Hscan. cbn. lia.
    + destruct (Model.simple_escape e); [|discriminate].
      apply IH in Hscan. cbn. lia.
  - destruct (_ <? _)%nat; [discriminate|].
    apply IH in Hscan. cbn. lia.
Qed.

Lemma scanstring_not_exhausted (fuel : nat) :
  forall (s : string) (idx start : nat) (acc : string),
    Model.scanstring fuel s idx start acc <> Model.Exhausted.
Proof.
  induction fuel as [|fuel IH]; intros s idx start acc; [discriminate|].
  cbn [Model.scanstring].
  destruct s as [|c s]; [discriminate|].
  destruct (Ascii.eqb c "034"); [discriminate|].
  destruct (Ascii.eqb c "\").
  - destruct s as [|e s]; [discriminate|].
    destruct (Ascii.eqb e "u").
    + destruct (Model.hex4 s) as [[hi after]|]; [|discriminate].
      destruct (Model.low_surrogate hi after idx) as [[[code after'] i]|];
        apply IH.
    + destruct (Model.simple_escape e); [apply IH | discriminate].
  - destruct (_ <? _)%nat; [discriminate | apply IH].
Qed.

(** The length of the text is fuel enough for [scanstring]: more fuel
    changes nothing. *)
Lemma scanstring_fuel (fuel : nat) :
  forall (fuel' : nat) (s : string) (idx start : nat) (acc : string),
    (String.length s <= fuel)%nat -> (String.length s <= fuel')%nat ->
    Model.scanstring fuel s idx start acc =
    Model.scanstring fuel' s idx start acc.
Proof.
  induction fuel as [|fuel IH]; intros fuel' s idx start acc Hlen Hlen'.
  - destruct s; [now destruct fuel' | cbn in Hlen; lia].
  - destruct fuel' as [|fuel'];
      [destruct s; [reflexivity | cbn in Hlen'; lia]|].
    cbn [Model.scanstring].
    destruct s as [|c s]; [reflexivity|]. cbn [String.length] in Hlen, Hlen'.
    destruct (Ascii.eqb c "034"); [reflexivity|].
    destruct (Ascii.eqb c "\").
    + destruct s as [|e s]; [reflexivity|].
      cbn [String.length] in Hlen, Hlen'.
      destruct (Ascii.eqb e "u").
      * destruct (Model.hex4 s) as [[hi after]|] eqn:Hhex; [|reflexivity].
        apply hex4_length in Hhex.
        destruct (Model.low_surrogate hi after idx)
          as [[[code after'] i]|] eqn:Hlow.
        -- apply low_surrogate_length in Hlow. apply IH; lia.
        -- apply IH; lia.
      * destruct (Model.simple_escape e); [apply IH; lia | reflexivity].
    + destruct (_ <? _)%nat; [reflexivity | apply IH; lia].
Qed.

Lemma digits_length (s : string) :
  forall (acc : Z) (len : nat) n k rest,
    Model.digits s acc len = (n, k, rest) ->
    (String.length s + len = String.length rest + k)%nat /\
    (String.length rest <= String.length s)%nat.
Proof.
  induction s as [|c s IH]; intros acc len n k rest; cbn.
  - intros [= _ <- <-]. cbn. lia.
  - destruct (Model.digit_of c).
    + intros Hd. apply IH in Hd. lia.
    + intros [= _ <- <-]. cbn. lia.
Qed.

Lemma number_sign_length (s : string) :
  (String.length (snd (Model.number_sign s)) <= String.length s)%nat.
Proof.
  destruct s as [|c s]; [cbn; lia|].
  destruct c as [[] [] [] [] [] [] [] []]; cbn; lia.
Qed.

Lemma integer_part_length (s rest : string) (n : Z) (len : nat) :
  Model.integer_part s = Some (n, len, rest) ->
  (String.length rest < String.length s)%nat.
Proof.
  destruct s as [|c s]; [discriminate|].
  assert (Hdigits : match Model.digit_of c with
                    | Some _ => Some (Model.digits (String c s) 0 0)
                    | None => None
                    end = Some (n, len, rest) ->
                    (String.length rest < String.length (String c s))%nat).
  { cbn [Model.digits]. destruct (Model.digit_of c); [|discriminate].
    intros [= Hd]. apply digits_length in Hd. cbn. lia. }
  destruct c as [[] [] [] [] [] [] [] []]; try exact Hdigits.
  cbn. intros [= _ _ <-]. lia.
Qed.

Lemma fraction_part_length (s : string) (idx : nat) :
  (String.length (snd (fst (Model.fraction_part s idx))) <= String.length s)%nat.
Proof.
  unfold Model.fraction_part.
  destruct s as [|c s]; [cbn; lia|].
  assert (Hdot : (String.length
            (snd (fst (match Model.digits s 0 0 with
                       | (_, O, _) => (None, String c s, idx)
                       | (f, (S _ as k), rest) =>
                           (Some (f, k), rest, (idx + 1 + k)%nat)
                       end))) <= String.length (String c s))%nat).
  { destruct (Model.digits s 0 0) as [[f k] rest] eqn:Hd.
    apply digits_length in Hd. destruct k; cbn; lia. }
  destruct c as [[] [] [] [] [] [] [] []]; try (cbn; lia). exact Hdot.
Qed.

Lemma exponent_sign_length (s : string) :
  (String.length (snd (fst (Model.exponent_sign s))) <= String.length s)%nat.
Proof.
  destruct s as [|c s]; [cbn; lia|].
  destruct c as [[] [] [] [] [] [] [] []]; cbn; lia.
Qed.

Lemma exponent_part_length (s : string) (idx : nat) :
  (String.length (snd (fst (Model.exponent_part s idx))) <= String.length s)%nat.
Proof.
  unfold Model.exponent_part.
  destruct s as [|c s]; [cbn; lia|].
  destruct (_ || _); [|cbn; lia].
  pose proof (exponent_sign_length s) as Hsign.
  destruct (Model.exponent_sign s) as [[sign s''] signed]. cbn [fst snd] in Hsign.
  destruct (Model.digits s'' 0 0) as [[x k] rest] eqn:Hd.
  apply digits_length in Hd. destruct k; cbn; lia.
Qed.

Lemma match_number_shorter (s : string) (idx : nat) v rest idx' :
  Model.match_number s idx = Some (v, rest, idx') ->
  (String.length rest < String.length s)%nat.
Proof.
  unfold Model.match_number.
  pose proof (number_sign_length s) as Hsign.
  destruct (Model.number_sign s) as [negative s1]. cbn [snd] in Hsign.
  destruct (Model.integer_part s1) as [[[n len] s2]|] eqn:Hint; [|discriminate].
  apply integer_part_length in Hint.
  match goal with
  | |- context [Model.fraction_part s2 ?i] =>
      pose proof (fraction_part_length s2 i) as Hfrac;
      destruct (Model.fraction_part s2 i) as [[frac s3] idx3]
  end.
  cbn [fst snd] in Hfrac.
  pose proof (exponent_part_length s3 idx3) as Hexp.
  destruct (Model.exponent_part s3 idx3) as [[expo s4] idx4].
  cbn [fst snd] in Hexp.
  intros [= _ <- _]. lia.
Qed.

Lemma str_drop_prefix (p s : string) :
  str_prefix p s = true ->
  String.length (str_drop (String.length p) s) =
  (String.length s - String.length p)%nat.
Proof.
  revert s. induction p as [|a p IH]; intros s; cbn.
  - intros _. lia.
  - destruct s as [|b s]; [discriminate|].
    intros Hp. apply andb_prop in Hp as [_ Hp]. cbn. now apply IH.
Qed.

Lemma str_prefix_length (p s : string) :
  str_prefix p s = true -> (String.length p <= String.length s)%nat.
Proof.
  revert s. induction p as [|a p IH]; intros s; cbn; [lia|].
  destruct s as [|b s]; [discriminate|].
  intros Hp. apply andb_prop in Hp as [_ Hp]. apply IH in Hp. cbn. lia.
Qed.

Lemma shorter_weaken (r : Model.scanned) (s s' : string) :
  shorter r s -> (String.length s <= String.length s')%nat -> shorter r s'.
Proof.
  intros [Hne Hlen] Hle. split; [exact Hne|].
  intros v rest idx Hr. specialize (Hlen v rest idx Hr). lia.
Qed.

Lemma shorter_scanned (v : value) (rest s : string) (idx : nat) :
  (String.length rest < String.length s)%nat ->
  shorter (Model.Scanned v rest idx) s.
Proof.
  intros Hlt. split; [discriminate|]. now intros v' rest' idx' [= _ <- _].
Qed.

Lemma shorter_invalid (msg : string) (pos : nat) (s : string) :
  shorter (Model.Invalid msg pos) s.
Proof. split; [discriminate | intros; discriminate]. Qed.

Lemma shorter_stop (pos : nat) (s : string) :
  shorter (Model.StopIteration pos) s.
Proof. split; [discriminate | intros; discriminate]. Qed.

Ltac by_char c lit :=
  destruct (Ascii.ascii_dec c lit) as [-> | ?];
  [ | destruct c as [[] [] [] [] [] [] [] []];
      try (exfalso; congruence) ].

Lemma scan_once_fuel (fuel : nat) :
  (forall s idx, (2 * String.length s < fuel)%nat ->
                 shorter (Model.scan_once fuel s idx) s) /\
  (forall s idx d, (2 * String.length s < fuel)%nat ->
                   shorter (Model.object_members fuel s idx d) s) /\
  (forall s idx acc, (2 * String.length s + 1 < fuel)%nat ->
                     shorter (Model.array_items fuel s idx acc) s).
Proof.
  induction fuel as [|fuel (IHscan & IHobj & IHarr)].
  - repeat split; intros; lia.
  - split; [|split].
    + intros s idx Hfuel. cbn [Model.scan_once].
      destruct s as [|c s]; [apply shorter_stop|].
      cbn [String.length] in Hfuel.
      destruct (Ascii.eqb c "034").
      { split; [apply scanstring_not_exhausted|].
        intros v rest i Hs. apply scanstring_shorter in Hs. cbn. lia. }
      destruct (Ascii.eqb c "{").
      { pose proof (skip_ws_length s (S idx)) as Hws.
        destruct (Model.skip_ws s (S idx)) as [s1 i1]. cbn [fst] in Hws.
        destruct s1 as [|c1 r1].
        - eapply shorter_weaken; [apply IHobj; cbn; lia | cbn; lia].
        - by_char c1 "}"%char;
            try (eapply shorter_weaken; [apply IHobj; cbn in *; lia | cbn in *; lia]).
          apply shorter_scanned. cbn in *. lia. }
      destruct (Ascii.eqb c "[").
      { pose proof (skip_ws_length s (S idx)) as Hws.
        destruct (Model.skip_ws s (S idx)) as [s1 i1]. cbn [fst] in Hws.
        destruct s1 as [|c1 r1].
        - eapply shorter_weaken; [apply IHarr; cbn; lia | cbn; lia].
        - by_char c1 "]"%char;
            try (eapply shorter_weaken; [apply IHarr; cbn in *; lia | cbn in *; lia]).
          apply shorter_scanned. cbn in *. lia. }
      assert (Hkw : forall p v, str_prefix p (String c s) = true ->
                (0 < String.length p)%nat ->
                shorter (Model.Scanned v (str_drop (String.length p) (String c s))
                                       (idx + String.length p)) (String c s)).
      { intros p v Hp Hpos. apply shorter_scanned.
        rewrite (str_drop_prefix _ _ Hp).
        apply str_prefix_length in Hp. cbn in *. lia. }
      destruct (str_prefix "null" (String c s)) eqn:Hnull;
        [exact (Hkw "null" _ Hnull ltac:(cbn; lia))|].
      destruct (str_prefix "true" (String c s)) eqn:Htrue;
        [exact (Hkw "true" _ Htrue ltac:(cbn; lia))|].
      destruct (str_prefix "false" (String c s)) eqn:Hfalse;
        [exact (Hkw "false" _ Hfalse ltac:(cbn; lia))|].
      destruct (Model.match_number (String c s) idx) as [[[v rest] i]|] eqn:Hnum.
      { apply shorter_scanned. now apply match_number_shorter in Hnum. }
      destruct (str_prefix "NaN" (String c s)) eqn:Hnan;
        [exact (Hkw "NaN" _ Hnan ltac:(cbn; lia))|].
      destruct (str_prefix "Infinity" (String c s)) eqn:Hinf;
        [exact (Hkw "Infinity" _ Hinf ltac:(cbn; lia))|].
      destruct (str_prefix "-Infinity" (String c s)) eqn:Hninf;
        [exact (Hkw "-Infinity" _ Hninf ltac:(cbn; lia))|].
      apply shorter_stop.
    + intros s idx d Hfuel. cbn [Model.object_members].
      destruct s as [|c s]; [apply shorter_invalid|].
      cbn [String.length] in Hfuel.
      by_char c "034"%char; try apply shorter_invalid.
      destruct (Model.scanstring (String.length s) s (S idx) idx EmptyString)
        as [key s1 i1| | |] eqn:Hkey;
        try (split; [discriminate | intros; discriminate]).
      2: { exfalso. eapply scanstring_not_exhausted, Hkey. }
      apply scanstring_shorter in Hkey.
      pose proof (skip_ws_length s1 i1) as Hws.
      destruct (Model.skip_ws s1 i1) as [s2 i2]. cbn [fst] in Hws.
      destruct s2 as [|c2 s3]; [apply shorter_invalid|].
      by_char c2 ":"%char; try apply shorter_invalid.
      pose proof (skip_ws_length s3 (S i2)) as Hws'.
      destruct (Model.skip_ws s3 (S i2)) as [s4 i4]. cbn [fst] in Hws'.
      cbn [String.length] in Hws.
      destruct (IHscan s4 i4) as [Hne Hlen]; [lia|].
      destruct (Model.scan_once fuel s4 i4) as [v s5 i5| | |] eqn:Hval;
        try (split; [discriminate | intros; discriminate]).
      2: { contradiction. }
      specialize (Hlen v s5 i5 eq_refl).
      pose proof (skip_ws_length s5 i5) as Hws''.
      destruct (Model.skip_ws s5 i5) as [s6 i6]. cbn [fst] in Hws''.
      destruct s6 as [|c6 s7]; [apply shorter_invalid|].
      cbn [String.length] in Hws''.
      by_char c6 "}"%char.
      { apply shorter_scanned. cbn. lia. }
      all: try apply shorter_invalid.
      pose proof (skip_ws_length s7 (S i6)) as Hws3.
      destruct (Model.skip_ws s7 (S i6)) as [s8 i8]. cbn [fst] in Hws3.
      eapply shorter_weaken; [apply IHobj; lia | cbn; lia].
    + intros s idx acc Hfuel. cbn [Model.array_items].
      destruct (IHscan s idx) as [Hne Hlen]; [lia|].
      destruct (Model.scan_once fuel s idx) as [v s1 i1| | |] eqn:Hval;
        try (split; [discriminate | intros; discriminate]).
      2: { contradiction. }
      specialize (Hlen v s1 i1 eq_refl).
      pose proof (skip_ws_length s1 i1) as Hws.
      destruct (Model.skip_ws s1 i1) as [s2 i2]. cbn [fst] in Hws.
      destruct s2 as [|c2 s3]; [apply shorter_invalid|].
      cbn [String.length] in Hws.
      by_char c2 "]"%char.
      { apply shorter_scanned. lia. }
      all: try apply shorter_invalid.
      pose proof (skip_ws_length s3 (S i2)) as Hws'.
      destruct (Model.skip_ws s3 (S i2)) as [s4 i4]. cbn [fst] in Hws'.
      eapply shorter_weaken; [apply IHarr; lia | lia].
Qed.

(** No document exhausts the fuel that [raw_decode] gives the scanner. *)
Lemma raw_decode_fuel (s : string) (idx : nat) :
  Model.scan_once (Model.enough s) s idx <> Model.Exhausted.
Proof.
  apply (proj1 (scan_once_fuel (Model.enough s))). unfold Model.enough. lia.
Qed.


Lemma object_members_dict fuel :
  forall s idx d v rest idx',
    Model.object_members fuel s idx d = Model.Scanned v rest idx' ->
    isinstance_dict v = true.
Proof.
  induction fuel as [|fuel IH]; intros s idx d v rest idx' Hscan;
    [discriminate|].
  cbn [Model.object_members] in Hscan.
  repeat match type of Hscan with
         | Model.Scanned _ _ _ = Model.Scanned _ _ _ =>
             injection Hscan as <- _ _; reflexivity
         | match ?x with _ => _ end = _ =>
             destruct x eqn:?; try discriminate
         | (let (_, _) := ?x in _) = _ => destruct x eqn:?
         | Model.object_members _ _ _ _ = _ => eapply IH in Hscan; exact Hscan
         end.
Qed.

Lemma scan_once_brace fuel s idx v rest idx' :
  Model.scan_once fuel (String "{" s) idx = Model.Scanned v rest idx' ->
  isinstance_dict v = true.
Proof.
  destruct fuel as [|fuel]; [discriminate|].
  cbn [Model.scan_once].
  replace (Ascii.eqb "{" "034") with false by reflexivity.
  replace (Ascii.eqb "{" "{") with true by reflexivity.
  destruct (Model.skip_ws s (S idx)) as [s1 i1].
  destruct s1 as [|c s1].
  - apply object_members_dict.
  - destruct (Ascii.eqb c "}") eqn:Hc.
    + apply Ascii.eqb_eq in Hc as ->. intros Hscan.
      injection Hscan as <- _ _. reflexivity.
    + destruct c as [[] [] [] [] [] [] [] []];
        try discriminate Hc; apply object_members_dict.
Qed.

Lemma model_raw_decode_brace s v :
  Model.raw_decode (String "{" s) = inr v -> isinstance_dict v = true.
Proof.
  unfold Model.raw_decode. intros Hdec.
  destruct (Model.scan_once _ _ _) as [v' rest idx| | |] eqn:Hscan;
    try discriminate.
  injection Hdec as ->.
  eapply scan_once_brace; exact Hscan.
Qed.

#[export] Instance model_runtime : PyRuntime := {|
  py_str := Model.py_str;
  py_str_str := fun _ => eq_refl;
  py_str_int := fun _ => eq_refl;
  py_str_bool := fun _ => eq_refl;
  py_str_none := eq_refl;
  raw_decode := Model.raw_decode;
  raw_decode_brace := model_raw_decode_brace
|}.

(** ** Parameter validation *)

Lemma str_in_In x l : str_in x l = true <-> In x l.
Proof.
  unfold str_in. rewrite existsb_exists. split.
  - intros (y & Hy & Heq). apply String.eqb_eq in Heq. now subst.
  - intros Hx. exists x. split; [exact Hx | apply String.eqb_refl].
Qed.

Lemma dict_in_lookup k d : dict_in k d = true <-> exists v, dict_lookup k d = Some v.
Proof.
  unfold dict_in. destruct (dict_lookup k d) as [v|]; split;
    [eauto | reflexivity | discriminate | intros (v & Hv); discriminate].
Qed.

Lemma first_missing_None required ps :
  first_missing required ps = None <->
  (forall p, In p required -> dict_in p ps = true).
Proof.
  induction required as [|q required IH]; cbn.
  - split; [intros _ p [] | reflexivity].
  - destruct (dict_in q ps) eqn:Hq.
    + rewrite IH. split.
      * intros Hall p [<- | Hp]; [exact Hq | exact (Hall p Hp)].
      * intros Hall p Hp. apply Hall. now right.
    + split; [discriminate|]. intros Hall.
      rewrite (Hall q) in Hq by now left. discriminate.
Qed.

(** Validation accepts exactly the actions whose required fields are
    present and whose type checks hold. *)
Lemma validate_action_params_accepts (a : ParsedAction) :
  In (action a) valid_actions ->
  validate_action_params a = Return (true, None) <->
  fields_present a /\ types_hold a.
Proof.
  destruct a as [th act ps raw]. unfold fields_present, types_hold.
  cbn [action params valid_actions In].
  intros Hkind. rewrite <- first_missing_None.
  unfold validate_action_params. cbn [action params].
  repeat (destruct Hkind as [<- | Hkind]); [..| contradiction];
    cbn -[first_missing dict_get isinstance_int isinstance_list lower str_in].
  all: destruct (first_missing _ _) as [missing|] eqn:Hmiss.
  all: try (split; [discriminate | intros [Habs _]; discriminate]).
  1-3: destruct (isinstance_int (dict_get "x" VNone ps)),
         (isinstance_int (dict_get "y" VNone ps)); cbn;
       intuition (discriminate || eauto).
  1,4,5: intuition (discriminate || eauto).
  - destruct (isinstance_list (dict_get "keys" VNone ps)); cbn;
      intuition (discriminate || eauto).
  - cbn in Hmiss. unfold dict_in, dict_get in *.
    destruct (dict_lookup "direction" ps) as [v|]; [|discriminate].
    destruct v as [| | | |s| |]; cbn -[str_in lower].
    5: { destruct (str_in (lower s) ["up"; "down"; "left"; "right"]) eqn:Hdir;
         cbn.
         - apply str_in_In in Hdir. split; [intros _ | reflexivity].
           repeat split; try (intros; discriminate).
           1,2: match goal with
                | H : _ \/ _ |- _ => destruct H as [|[|[|[]]]]; discriminate
                end.
           intros _. exists s. split; [reflexivity | exact Hdir].
         - split; [discriminate|]. intros (_ & _ & _ & Hs).
           destruct (Hs eq_refl) as (s' & [= <-] & Hin).
           assert (Hyes : str_in (lower s) ["up"; "down"; "left"; "right"] = true)
             by (apply str_in_In; exact Hin).
           congruence. }
    all: split; [discriminate|]; intros (_ & _ & _ & Hs);
      destruct (Hs eq_refl) as (s' & [=] & _).
Qed.

(** Outside the defect below, validation returns a verdict: a reason comes
    with a refusal and only with a refusal. *)
Lemma validate_action_params_verdict (a : ParsedAction) :
  (action a = "scroll" ->
   isinstance_str (dict_get "direction" (VStr EmptyString) (params a)) = true) ->
  exists ok reason,
    validate_action_params a = Return (ok, reason) /\
    (ok = true <-> reason = None).
Proof.
  intros Hdir. unfold validate_action_params.
  destruct (first_missing _ _) as [missing|].
  { eexists _, _. split; [reflexivity|]. split; discriminate. }
  destruct (str_in (action a) _ && _).
  { eexists _, _. split; [reflexivity|]. split; discriminate. }
  destruct (String.eqb (action a) "hotkey" && _).
  { eexists _, _. split; [reflexivity|]. split; discriminate. }
  destruct (String.eqb (action a) "scroll") eqn:Hscroll.
  - apply String.eqb_eq in Hscroll. specialize (Hdir Hscroll).
    destruct (dict_get "direction" (VStr EmptyString) (params a)); try discriminate.
    cbn -[str_in]. destruct (str_in _ _); cbn.
    + eexists _, _. split; [reflexivity|]. split; reflexivity.
    + eexists _, _. split; [reflexivity|]. split; discriminate.
  - eexists _, _. split; [reflexivity|]. split; reflexivity.
Qed.

(** The only exception that validation raises: a [scroll] whose direction
    is present and is not a string. *)
Lemma validate_action_params_raises (a : ParsedAction) (e : exn) :
  validate_action_params a = Raise e ->
  action a = "scroll" /\
  exists v, dict_lookup "direction" (params a) = Some v /\
            isinstance_str v = false /\
            e = AttributeError ("'" +:+ type_name v +:+
                                "' object has no attribute 'lower'").
Proof.
  unfold validate_action_params. intros Hraise.
  destruct (first_missing _ _) as [missing|] eqn:Hmiss; [discriminate|].
  destruct (str_in (action a) _ && _); [discriminate|].
  destruct (String.eqb (action a) "hotkey" && _); [discriminate|].
  destruct (String.eqb (action a) "scroll") eqn:Hscroll; [|discriminate].
  apply String.eqb_eq in Hscroll. split; [exact Hscroll|].
  rewrite Hscroll in Hmiss. cbn in Hmiss. unfold dict_in, dict_get in *.
  destruct (dict_lookup "direction" (params a)) as [v|]; [|discriminate].
  exists v. split; [reflexivity|].
  destruct v; cbn -[str_in] in Hraise;
    try (injection Hraise as <-; split; reflexivity).
  destruct (str_in _ _); discriminate.
Qed.

(** C1. [validate_action_params] is documented to return a verdict
    [(is_valid, error_message)], and for an action of one of the eight
    kinds the specification has it return [(false, reason)] whenever a
    required field is missing or a type check fails. For a [scroll] whose
    [direction] is present and is a number, the code returns nothing: the
    call [.lower()] on the number raises [AttributeError]. The parser
    produces such an action from a well-formed response of the oracle. *)
Theorem validate_action_params_scroll_number_raises :
  In (action scroll_by_number) valid_actions /\
  validate_action_params scroll_by_number =
    Raise (AttributeError "'int' object has no attribute 'lower'") /\
  (forall v : verdict, validate_action_params scroll_by_number <> Return v) /\
  exists a,
    parse_llm_response scroll_by_number_response = Return a /\
    action a = action scroll_by_number /\
    params a = params scroll_by_number.
Proof.
  split; [cbn; tauto|].
  split; [reflexivity|].
  split; [discriminate|].
  eexists. split; [vm_compute; reflexivity|]. split; reflexivity.
Qed.

(** ** Safety governor *)

Lemma validate_coordinates_int `{PyRuntime} (self : SafetyController) (x y : Z) :
  validate_coordinates self (VInt x) (VInt y) =
  let m := bounds_margin (config self) in
  if (x <? m) || (x >=? screen_width self - m)
  then Return (false, Some (too_close "X" (string_of_Z x)))
  else if (y <? m) || (y >=? screen_height self - m)
  then Return (false, Some (too_close "Y" (string_of_Z y)))
  else Return (true, None).
Proof.
  unfold validate_coordinates, outside, py_lt, py_ge, too_close; cbn.
  rewrite !py_str_int.
  destruct (x <? _), (x >=? _), (y <? _), (y >=? _); reflexivity.
Qed.

(** C5. For integer coordinates, screen dimensions and margin, the
    coordinate check of the safety governor accepts exactly when
    [m <= x < width - m] and [m <= y < height - m]; a refusal names the
    axis that failed (X before Y) and the coordinate. The upper bound is
    exclusive: [width - m] is refused, and so is [width] itself for a
    margin that is not negative, while [width - m - 1] is accepted when
    the rest of the condition holds. *)
Theorem validate_coordinates_bounds `{PyRuntime}
    (self : SafetyController) (x y : Z) :
  let m := bounds_margin (config self) in
  let w := screen_width self in
  let h := screen_height self in
  (validate_coordinates self (VInt x) (VInt y) = Return (true, None) <->
   m <= x < w - m /\ m <= y < h - m) /\
  (~ (m <= x < w - m) ->
   validate_coordinates self (VInt x) (VInt y) =
     Return (false, Some (too_close "X" (string_of_Z x)))) /\
  (m <= x < w - m -> ~ (m <= y < h - m) ->
   validate_coordinates self (VInt x) (VInt y) =
     Return (false, Some (too_close "Y" (string_of_Z y)))) /\
  validate_coordinates self (VInt (w - m)) (VInt y) =
    Return (false, Some (too_close "X" (string_of_Z (w - m)))) /\
  (0 <= m ->
   validate_coordinates self (VInt w) (VInt y) =
     Return (false, Some (too_close "X" (string_of_Z w)))) /\
  (m <= w - m - 1 -> m <= y < h - m ->
   validate_coordinates self (VInt (w - m - 1)) (VInt y) = Return (true, None)).
Proof.
  intros m w h. rewrite !validate_coordinates_int. cbv zeta.
  fold m w h. rewrite !Z.geb_leb.
  repeat split.
  - destruct (Z.ltb_spec x m), (Z.leb_spec (w - m) x); cbn;
      try discriminate; lia.
  - destruct (Z.ltb_spec x m), (Z.leb_spec (w - m) x); cbn;
      try discriminate; lia.
  - destruct (Z.ltb_spec x m), (Z.leb_spec (w - m) x); cbn;
      try discriminate;
      destruct (Z.ltb_spec y m), (Z.leb_spec (h - m) y); cbn;
      try discriminate; lia.
  - destruct (Z.ltb_spec x m), (Z.leb_spec (w - m) x); cbn;
      try discriminate;
      destruct (Z.ltb_spec y m), (Z.leb_spec (h - m) y); cbn;
      try discriminate; lia.
  - intros (Hx & Hy).
    destruct (Z.ltb_spec x m), (Z.leb_spec (w - m) x); cbn; try lia.
    destruct (Z.ltb_spec y m), (Z.leb_spec (h - m) y); cbn; try lia.
    reflexivity.
  - intros Hx.
    destruct (Z.ltb_spec x m), (Z.leb_spec (w - m) x); cbn;
      try reflexivity; lia.
  - intros Hx Hy.
    destruct (Z.ltb_spec x m), (Z.leb_spec (w - m) x); cbn; try lia.
    destruct (Z.ltb_spec y m), (Z.leb_spec (h - m) y); cbn;
      try reflexivity; lia.
  - destruct (Z.ltb_spec (w - m) m), (Z.leb_spec (w - m) (w - m)); cbn;
      try reflexivity; lia.
  - intros Hm.
    destruct (Z.ltb_spec w m), (Z.leb_spec (w - m) w); cbn;
      try reflexivity; lia.
  - intros Hx Hy.
    destruct (Z.ltb_spec (w - m - 1) m), (Z.leb_spec (w - m) (w - m - 1));
      cbn; try lia.
    destruct (Z.ltb_spec y m), (Z.leb_spec (h - m) y); cbn;
      try reflexivity; lia.
Qed.

Lemma validate_coordinates_bounds_witness :
  validate_coordinates test_safety (VInt 989) (VInt 789) = Return (true, None) /\
  validate_coordinates test_safety (VInt 1000) (VInt 789) =
    Return (false, Some (too_close "X" (string_of_Z 1000))).
Proof.
  pose proof (validate_coordinates_bounds test_safety 989 789)
    as (Hiff & _ & _ & _ & Hwidth & _).
  split.
  - apply Hiff. cbn. lia.
  - apply Hwidth. cbn. lia.
Defined.

Lemma outside_number (x : value) (lo hi : Z) :
  is_number x = true -> exists b, outside x lo hi = Return b.
Proof.
  unfold outside. destruct x as [| | |[]| | |]; try discriminate; intros _; cbn;
    try (destruct (_ <? _)%Z; cbn; eauto); eauto.
  - destruct negative; cbn; eauto.
  - destruct (Qlt_bool _ _); cbn; eauto.
Qed.

Lemma outside_zero (lo hi : Z) : 0 < lo -> outside (VInt 0) lo hi = Return true.
Proof.
  intros Hlo. unfold outside; cbn.
  destruct (Z.ltb_spec 0 lo); [reflexivity | lia].
Qed.

(** On numbers the coordinate check returns a verdict, and a refusal is a
    bounds error. *)
Lemma validate_coordinates_number `{PyRuntime} (self : SafetyController)
    (x y : value) :
  is_number x = true -> is_number y = true ->
  validate_coordinates self x y = Return (true, None) \/
  exists reason,
    validate_coordinates self x y = Return (false, reason) /\
    bounds_error reason.
Proof.
  intros Hx Hy. unfold validate_coordinates.
  destruct (outside_number x (bounds_margin (config self))
              (screen_width self - bounds_margin (config self)) Hx) as [bx ->].
  destruct (outside_number y (bounds_margin (config self))
              (screen_height self - bounds_margin (config self)) Hy) as [by' ->].
  cbn. destruct bx; cbn.
  - right. eexists. split; [reflexivity|]. exists "X", x. split; [now left|].
    reflexivity.
  - destruct by'; cbn.
    + right. eexists. split; [reflexivity|]. exists "Y", y.
      split; [now right | reflexivity].
    + now left.
Qed.

(** With a positive margin, a pair of numbers one of which is 0 is refused. *)
Lemma validate_coordinates_zero `{PyRuntime} (self : SafetyController)
    (x y : value) :
  0 < bounds_margin (config self) ->
  is_number x = true -> is_number y = true ->
  x = VInt 0 \/ y = VInt 0 ->
  exists reason,
    validate_coordinates self x y = Return (false, reason) /\
    bounds_error reason.
Proof.
  intros Hm Hx Hy Hzero.
  destruct (validate_coordinates_number self x y Hx Hy) as [Hok | Hbad];
    [|exact Hbad].
  exfalso. unfold validate_coordinates in Hok.
  destruct Hzero as [-> | ->].
  - rewrite (outside_zero _ (screen_width self - bounds_margin (config self)) Hm)
      in Hok.
    discriminate.
  - destruct (outside_number x (bounds_margin (config self))
                (screen_width self - bounds_margin (config self)) Hx)
      as [bx Hbx].
    rewrite Hbx in Hok. cbn [bind] in Hok. destruct bx; [discriminate|].
    rewrite (outside_zero _ (screen_height self - bounds_margin (config self)) Hm)
      in Hok.
    discriminate.
Qed.

Lemma numeric_get (params : dict) (k : string) :
  numeric_coordinates params -> In k coordinate_keys ->
  is_number (dict_get k (VInt 0) params) = true.
Proof.
  intros Hnum Hk. unfold dict_get.
  destruct (dict_lookup k params) as [v|] eqn:Hv; [|reflexivity].
  exact (Hnum k v Hk Hv).
Qed.

Lemma missing_get (params : dict) (k : string) :
  dict_in k params = false -> dict_get k (VInt 0) params = VInt 0.
Proof.
  unfold dict_in, dict_get. now destruct (dict_lookup k params).
Qed.

Lemma check_rate_limit_frame `{PyRuntime} (self : SafetyController) (now : Q) :
  let self' := fst (check_rate_limit self now) in
  config self' = config self /\
  screen_width self' = screen_width self /\
  screen_height self' = screen_height self.
Proof.
  unfold check_rate_limit.
  destruct (_ >=? _); [cbn; tauto|].
  destruct (Qlt_bool _ _); cbn; tauto.
Qed.

Lemma validate_coordinates_frame `{PyRuntime} (self self' : SafetyController)
    (x y : value) :
  config self' = config self ->
  screen_width self' = screen_width self ->
  screen_height self' = screen_height self ->
  validate_coordinates self' x y = validate_coordinates self x y.
Proof.
  unfold validate_coordinates. now intros -> -> ->.
Qed.

Lemma validate_pairs_frame `{PyRuntime} (self self' : SafetyController)
    (params : dict) (pairs : list (string * string)) :
  config self' = config self ->
  screen_width self' = screen_width self ->
  screen_height self' = screen_height self ->
  validate_pairs self' params pairs = validate_pairs self params pairs.
Proof.
  intros Hc Hw Hh. induction pairs as [|pair pairs IH]; [reflexivity|].
  cbn. rewrite (validate_coordinates_frame self self') by assumption.
  now rewrite IH.
Qed.

Lemma validate_action_unfold `{PyRuntime} (self : SafetyController) (now : Q)
    (action : string) (params : dict) :
  snd (validate_action self now action params) =
  let limit := snd (check_rate_limit self now) in
  if negb (fst limit) then Return (false, snd limit)
  else checked_coordinates self action params.
Proof.
  unfold validate_action, checked_coordinates.
  pose proof (check_rate_limit_frame self now) as (Hc & Hw & Hh).
  destruct (check_rate_limit self now) as [self' limit]. cbn [fst snd] in *.
  destruct (negb (fst limit)); [reflexivity|].
  rewrite (validate_coordinates_frame self self') by assumption.
  rewrite (validate_pairs_frame self self') by assumption.
  reflexivity.
Qed.

Lemma validate_pairs_number `{PyRuntime} (self : SafetyController)
    (params : dict) (pairs : list (string * string)) :
  numeric_coordinates params ->
  (forall p, In p pairs ->
             In (fst p) coordinate_keys /\ In (snd p) coordinate_keys) ->
  validate_pairs self params pairs = Return (true, None) \/
  exists reason,
    validate_pairs self params pairs = Return (false, reason) /\
    bounds_error reason.
Proof.
  intros Hnum. induction pairs as [|pair pairs IH]; intros Hkeys.
  - now left.
  - cbn [validate_pairs].
    destruct (Hkeys pair) as [Hx Hy]; [now left|].
    destruct (validate_coordinates_number self
                (dict_get (fst pair) (VInt 0) params)
                (dict_get (snd pair) (VInt 0) params))
      as [Hok | (reason & Hbad & Herr)];
      try (apply numeric_get; assumption).
    + rewrite Hok. cbn. apply IH. intros p Hp. apply Hkeys. now right.
    + rewrite Hbad. cbn. right. exists reason. now split.
Qed.

Lemma checked_coordinates_number `{PyRuntime} (self : SafetyController)
    (action : string) (params : dict) :
  numeric_coordinates params ->
  checked_coordinates self action params = Return (true, None) \/
  exists reason,
    checked_coordinates self action params = Return (false, reason) /\
    bounds_error reason.
Proof.
  intros Hnum. unfold checked_coordinates.
  assert (Hpairs :
    validate_pairs self params [("start_x", "start_y"); ("end_x", "end_y")] =
      Return (true, None) \/
    exists reason,
      validate_pairs self params [("start_x", "start_y"); ("end_x", "end_y")] =
        Return (false, reason) /\ bounds_error reason).
  { apply validate_pairs_number; [exact Hnum|].
    intros p [<- | [<- | []]]; cbn; tauto. }
  assert (Hrest :
    (if String.eqb action "drag"
     then validate_pairs self params [("start_x", "start_y"); ("end_x", "end_y")]
     else Return (true, None)) = Return (true, None) \/
    exists reason,
      (if String.eqb action "drag"
       then validate_pairs self params
                           [("start_x", "start_y"); ("end_x", "end_y")]
       else Return (true, None)) = Return (false, reason) /\
      bounds_error reason).
  { destruct (String.eqb action "drag"); [exact Hpairs | now left]. }
  destruct (str_in action _).
  - destruct (validate_coordinates_number self
                (dict_get "x" (VInt 0) params) (dict_get "y" (VInt 0) params))
      as [Hok | (reason & Hbad & Herr)];
      try (apply numeric_get; [exact Hnum | cbn; tauto]).
    + rewrite Hok. exact Hrest.
    + rewrite Hbad. cbn. right. exists reason. now split.
  - exact Hrest.
Qed.

Lemma checked_coordinates_lacking `{PyRuntime} (self : SafetyController)
    (action : string) (params : dict) :
  numeric_coordinates params ->
  0 < bounds_margin (config self) ->
  lacks_coordinate action params ->
  exists reason,
    checked_coordinates self action params = Return (false, reason) /\
    bounds_error reason.
Proof.
  intros Hnum Hm [[Hkind Hmiss] | [-> Hmiss]]; unfold checked_coordinates.
  - apply str_in_In in Hkind. rewrite Hkind.
    destruct (validate_coordinates_zero self
                (dict_get "x" (VInt 0) params) (dict_get "y" (VInt 0) params))
      as (reason & Hbad & Herr);
      try (apply numeric_get; [exact Hnum | cbn; tauto]); try exact Hm.
    { destruct Hmiss as [Hx | Hy]; [left | right]; now apply missing_get. }
    rewrite Hbad. cbn. exists reason. now split.
  - cbn [str_in existsb String.eqb Ascii.eqb Bool.eqb orb bind fst snd negb
         validate_pairs].
    destruct (validate_coordinates_number self
                (dict_get "start_x" (VInt 0) params)
                (dict_get "start_y" (VInt 0) params))
      as [Hok | (reason & Hbad & Herr)];
      try (apply numeric_get; [exact Hnum | cbn; tauto]).
    + destruct Hmiss as [Hk | [Hk | Hend]].
      1,2: destruct (validate_coordinates_zero self
                  (dict_get "start_x" (VInt 0) params)
                  (dict_get "start_y" (VInt 0) params))
          as (reason & Hbad & Herr);
          try (apply numeric_get; [exact Hnum | cbn; tauto]); try exact Hm;
          [ first [left; now apply missing_get | right; now apply missing_get]
          | congruence ].
      rewrite Hok. cbn [bind fst snd negb].
      destruct (validate_coordinates_zero self
                  (dict_get "end_x" (VInt 0) params)
                  (dict_get "end_y" (VInt 0) params))
        as (reason & Hbad & Herr);
        try (apply numeric_get; [exact Hnum | cbn; tauto]); try exact Hm.
      { destruct Hend as [Hk | Hk]; [left | right]; now apply missing_get. }
      rewrite Hbad. cbn. exists reason. now split.
    + rewrite Hbad. cbn. exists reason. now split.
Qed.

(** C10, as the code has it. [validate_action] returns a verdict for every
    action name and every [params] whose coordinates are numbers, which is
    what [validate_action_params] leaves of a click, a double click or a
    move; it compares the coordinates without checking their type. When
    the rate limit lets the action through and the margin is positive, a
    position-bearing action that lacks a coordinate has 0 put in its place
    and is refused with a bounds error. *)
Theorem validate_action_numeric `{PyRuntime} (self : SafetyController)
    (now : Q) (action : string) (params : dict) :
  numeric_coordinates params ->
  (exists v, snd (validate_action self now action params) = Return v) /\
  (fst (snd (check_rate_limit self now)) = true ->
   0 < bounds_margin (config self) ->
   lacks_coordinate action params ->
   exists reason,
     snd (validate_action self now action params) = Return (false, reason) /\
     bounds_error reason).
Proof.
  intros Hnum. rewrite validate_action_unfold. cbv zeta. split.
  - destruct (negb (fst (snd (check_rate_limit self now)))); [eauto|].
    destruct (checked_coordinates_number self action params Hnum)
      as [-> | (reason & -> & _)]; eauto.
  - intros -> Hm Hlack. cbn [negb].
    now apply checked_coordinates_lacking.
Qed.

Lemma validate_action_numeric_witness :
  exists reason,
    snd (validate_action test_safety 1 "click" [("y", VInt 400)]) =
      Return (false, reason) /\
    bounds_error reason.
Proof.
  refine (proj2 (validate_action_numeric test_safety 1 "click"
                   [("y", VInt 400)] _) _ _ _).
  - intros k v Hk. cbn in Hk.
    destruct Hk as [<- | [<- | [<- | [<- | [<- | [<- | []]]]]]]; cbn;
      intros [= <-]; reflexivity.
  - reflexivity.
  - cbn. lia.
  - left. split; [cbn; tauto | left; reflexivity].
Defined.

(** C10 as stated fails on a coordinate that is not a number: the
    comparison raises [TypeError] and no verdict is returned. *)
Lemma validate_action_text_coordinate_raises :
  snd (validate_action test_safety 1 "click" click_on_text) =
    Raise (TypeError "'<' not supported between instances of 'str' and 'int'") /\
  ~ (exists v, snd (validate_action test_safety 1 "click" click_on_text) =
               Return v).
Proof.
  split; [reflexivity|]. intros [v Hv]. discriminate Hv.
Qed.

(** ** Memory store *)

Lemma slice_from_last_n {A : Type} (n : Z) (l : list A) :
  0 < n -> slice_from (- n) l = last_n (Z.to_nat n) l.
Proof.
  intros Hn. unfold slice_from, last_n.
  destruct (Z.ltb_spec (- n) 0); [|lia].
  f_equal. lia.
Qed.

(** The slip: a start of [-0] is a start of 0, and the slice is the whole
    list. *)
Lemma slice_from_zero {A : Type} (l : list A) : slice_from (- 0) l = l.
Proof. reflexivity. Qed.

(** Trimming with a cap of at least 2 (at least 1 when no system message
    leads) keeps what the specification says. *)
Lemma trim_messages_keeps (cap : Z) (msgs : list dict) :
  (Z.of_nat (length msgs) <= cap -> trim_messages cap msgs = msgs) /\
  (forall first rest,
     msgs = first :: rest -> Z.of_nat (length msgs) > cap -> 2 <= cap ->
     has_role "system" first = true ->
     trim_messages cap msgs = first :: last_n (Z.to_nat (cap - 1)) msgs) /\
  (forall first rest,
     msgs = first :: rest -> Z.of_nat (length msgs) > cap -> 1 <= cap ->
     has_role "system" first = false ->
     trim_messages cap msgs = last_n (Z.to_nat cap) msgs).
Proof.
  unfold trim_messages, has_role. repeat split.
  - intros Hle. destruct (Z.gtb_spec (Z.of_nat (length msgs)) cap);
      [lia | reflexivity].
  - intros first rest -> Hgt Hcap Hsys.
    destruct (Z.gtb_spec (Z.of_nat (length (first :: rest))) cap); [|lia].
    rewrite Hsys, slice_from_last_n by lia. reflexivity.
  - intros first rest -> Hgt Hcap Hsys.
    destruct (Z.gtb_spec (Z.of_nat (length (first :: rest))) cap); [|lia].
    rewrite Hsys, slice_from_last_n by lia. reflexivity.
Qed.

Lemma last_n_short {A : Type} (n : nat) (l : list A) (x : A) :
  (length l < n)%nat -> last_n n l ++ [x] = last_n n (l ++ [x]).
Proof.
  intros Hlen. unfold last_n. rewrite length_app. cbn [length].
  replace (length l - n)%nat with 0%nat by lia.
  replace (length l + 1 - n)%nat with 0%nat by lia.
  reflexivity.
Qed.

Lemma last_n_full {A : Type} (n : nat) (l : list A) (x : A) :
  (1 <= n)%nat -> (n <= length l)%nat ->
  length (last_n n l ++ [x]) = S n /\
  last_n n (last_n n l ++ [x]) = last_n n (l ++ [x]).
Proof.
  intros Hn Hlen. unfold last_n.
  rewrite !length_app, length_drop. cbn [length]. split; [lia|].
  replace (length l - (length l - n) + 1 - n)%nat with 1%nat by lia.
  rewrite !drop_app_le by (rewrite ?length_drop; lia).
  rewrite drop_drop. do 2 f_equal. lia.
Qed.

Lemma add_message_cap (self : AgentMemory) (role : string) (content : value) :
  max_messages (add_message self role content) = max_messages self.
Proof. reflexivity. Qed.

Lemma add_messages_cap (self : AgentMemory) (calls : list (string * value)) :
  max_messages (add_messages self calls) = max_messages self.
Proof.
  revert self. induction calls as [|call calls IH]; intros self;
    [reflexivity|].
  cbn. unfold add_messages in IH. now rewrite IH.
Qed.

Lemma has_role_mk_message (role r : string) (content : value) :
  has_role role (mk_message r content) = String.eqb r role.
Proof. reflexivity. Qed.

(** Adding messages none of which has the role [system] to an empty store
    with a cap of at least 1 leaves the most recent [cap], in order. *)
Lemma add_messages_keeps_last (self : AgentMemory)
    (calls : list (string * value)) :
  messages self = [] -> 1 <= max_messages self ->
  Forall (fun call => fst call <> "system") calls ->
  messages (add_messages self calls) =
  last_n (Z.to_nat (max_messages self))
         (map (fun call => mk_message (fst call) (snd call)) calls).
Proof.
  intros Hempty Hcap. induction calls as [|call calls IH] using rev_ind;
    intros Hroles.
  - exact Hempty.
  - apply Forall_app in Hroles as [Hroles Hcall].
    apply Forall_cons in Hcall as [Hcall _].
    specialize (IH Hroles).
    unfold add_messages in *. rewrite fold_left_app. cbn [fold_left].
    unfold add_message at 1. cbn [messages set_messages].
    fold (add_messages self calls). rewrite add_messages_cap.
    unfold add_messages. rewrite IH, map_app. cbn [map].
    fold (mk_message (fst call) (snd call)).
    set (all := map (fun c => mk_message (fst c) (snd c)) calls).
    set (new := mk_message (fst call) (snd call)).
    set (cap := max_messages self) in *.
    assert (Hplain : Forall (fun m => has_role "system" m = false)
                            (last_n (Z.to_nat cap) all ++ [new])).
    { apply Forall_app. split.
      - apply Forall_drop. subst all. apply Forall_map.
        eapply Forall_impl; [exact Hroles|]. intros c Hc.
        change (has_role "system" (mk_message (fst c) (snd c)) = false).
        rewrite has_role_mk_message. now apply String.eqb_neq.
      - constructor; [|constructor]. subst new.
        rewrite has_role_mk_message. now apply String.eqb_neq. }
    destruct (decide (length all < Z.to_nat cap)%nat) as [Hshort | Hfull].
    + rewrite last_n_short by exact Hshort.
      apply (trim_messages_keeps cap). unfold last_n.
      rewrite length_drop, length_app. cbn [length]. lia.
    + destruct (last_n_full (Z.to_nat cap) all new) as [Hlen Hlast]; [lia..|].
      rewrite <- Hlast.
      destruct (last_n (Z.to_nat cap) all ++ [new]) as [|first rest] eqn:Hlist;
        [discriminate|].
      apply Forall_cons in Hplain as [Hfirst _].
      eapply (trim_messages_keeps cap); [reflexivity | | lia | exact Hfirst].
      rewrite Hlen. lia.
Qed.

(** C6. After a call that takes the count above the cap, the store is to
    hold the leading system message plus the most recent [cap - 1]
    entries. With a cap of 1 and a leading system message the code keeps
    the system message and then the whole list again, [messages[-0:]]
    being [messages[0:]]: every further call makes the store longer, and
    the system message is there once more each time. *)
Theorem add_message_one_slot_grows :
  let sys := mk_message "system" (VStr "s") in
  let a := mk_message "user" (VStr "a") in
  let b := mk_message "user" (VStr "b") in
  let m1 := add_message one_slot_memory "system" (VStr "s") in
  let m2 := add_message m1 "user" (VStr "a") in
  let m3 := add_message m2 "user" (VStr "b") in
  messages m1 = [sys] /\
  messages m2 = [sys; sys; a] /\
  messages m3 = [sys; sys; sys; a; b] /\
  messages m2 <> sys :: last_n (Z.to_nat (max_messages m1 - 1)) [sys; a] /\
  Z.of_nat (length (messages m3)) > max_messages m3.
Proof.
  cbv zeta. repeat split; try reflexivity. discriminate.
Qed.

(** ** What [get_conversation_for_llm] shares *)

(** Writing a list object where there was none, or where there was a list,
    changes no reading of a message. *)
Lemma read_dict_write_list (h : gmap positive Heap.object) (c l : positive)
    (items : list positive) :
  Heap.read_dict h c = None ->
  Heap.read_dict (<[c := Heap.OList items]> h) l = Heap.read_dict h l.
Proof.
  unfold Heap.read_dict. intros Hc.
  destruct (decide (c = l)) as [<- | Hne].
  - rewrite lookup_insert_eq. now rewrite Hc.
  - now rewrite lookup_insert_ne.
Qed.

Lemma read_list_write_list (h : gmap positive Heap.object) (c l : positive)
    (items : list positive) :
  Heap.read_dict h c = None -> c <> l ->
  Heap.read_list (<[c := Heap.OList items]> h) l = Heap.read_list h l.
Proof.
  unfold Heap.read_list. intros Hc Hne. rewrite lookup_insert_ne by exact Hne.
  destruct (h !! l) as [[refs|]|]; try reflexivity.
  apply mapM_ext. intros r. now apply read_dict_write_list.
Qed.

(** C9, as the code has it. [get_conversation_for_llm] returns a new list
    object that holds the same references: the call changes no object of
    the store, the copy reads as the store's sequence of messages, and
    whatever the caller does to the returned list itself leaves that
    sequence as it was. The message dictionaries are shared with the
    store. *)
Theorem get_conversation_for_llm_copies_list
    (h h' : gmap positive Heap.object) (messages conversation : positive) :
  Heap.get_conversation_for_llm h messages = Some (conversation, h') ->
  h !! conversation = None /\
  (forall l, l <> conversation -> h' !! l = h !! l) /\
  Heap.read_list h' messages = Heap.read_list h messages /\
  Heap.read_list h' conversation = Heap.read_list h messages /\
  (forall items',
     Heap.read_list (Heap.mutate_list h' conversation items') messages =
     Heap.read_list h messages).
Proof.
  unfold Heap.get_conversation_for_llm, Heap.alloc, Heap.mutate_list.
  destruct (h !! messages) as [[refs|]|] eqn:Hlist; try discriminate.
  intros [= <- <-].
  set (c := fresh (dom h)).
  assert (Hfresh : h !! c = None)
    by (apply not_elem_of_dom; apply is_fresh).
  assert (Hnone : Heap.read_dict h c = None)
    by (unfold Heap.read_dict; now rewrite Hfresh).
  assert (Hne : c <> messages) by congruence.
  repeat split.
  - exact Hfresh.
  - intros l Hl. now rewrite lookup_insert_ne.
  - now apply read_list_write_list.
  - unfold Heap.read_list. rewrite lookup_insert_eq, Hlist.
    apply mapM_ext. intros r. now apply read_dict_write_list.
  - intros items'. rewrite insert_insert_eq.
    now apply read_list_write_list.
Qed.

Lemma get_conversation_for_llm_copies_list_witness :
  Heap.read_list (Heap.mutate_list
                    (<[3%positive := Heap.OList [2%positive]]> Heap.one_message)
                    3 [])
                 1 =
  Heap.read_list Heap.one_message 1.
Proof.
  exact (proj2 (proj2 (proj2 (proj2
           (get_conversation_for_llm_copies_list
              Heap.one_message
              (<[3%positive := Heap.OList [2%positive]]> Heap.one_message)
              1 3 eq_refl)))) []).
Defined.

(** C9 as stated fails for the elements: through the returned list the
    caller reaches the store's own dictionaries, and
    [conversation[0]["content"] = "changed"] changes what the store holds. *)
Lemma conversation_item_mutation_reaches_store :
  match Heap.get_conversation_for_llm Heap.one_message 1 with
  | Some (conversation, h') =>
      match Heap.setitem_of_item h' conversation 0 "content" (VStr "changed") with
      | Some h'' =>
          Heap.read_list Heap.one_message 1 =
            Some [mk_message "user" (VStr "test1")] /\
          Heap.read_list h'' 1 = Some [mk_message "user" (VStr "changed")] /\
          Heap.read_list h'' 1 <> Heap.read_list Heap.one_message 1
      | None => False
      end
  | None => False
  end.
Proof.
  vm_compute. repeat split. discriminate.
Qed.

(** ** Extraction of the JSON object *)


Lemma brace_candidates_brace (response candidate : string) :
  In candidate (brace_candidates response) ->
  exists rest, candidate = String "{" rest.
Proof.
  induction response as [|c rest IH]; [intros []|].
  cbn. destruct (Ascii.eqb c "{") eqn:Hc; [|exact IH].
  intros [<- | Hin]; [|exact (IH Hin)].
  apply Ascii.eqb_eq in Hc as ->. now exists rest.
Qed.

Lemma scan_fold `{PyRuntime} (cands : list string) (st : scan_state) :
  let st' := fold_left scan_step cands st in
  parsed_objects st' = parsed_objects st ++ omap decode_object cands /\
  first_decode_error st' =
    match first_decode_error st with
    | Some e => Some e
    | None => head (omap decode_error cands)
    end /\
  found_json_start st' =
    found_json_start st || match cands with [] => false | _ => true end.
Proof.
  revert st. induction cands as [|c cands IH]; intros st; cbn [fold_left].
  - cbn. rewrite app_nil_r, orb_false_r. now destruct (first_decode_error st).
  - destruct (IH (scan_step st c)) as (Hobjs & Herr & Hfound).
    cbv zeta. rewrite Hobjs, Herr, Hfound. clear Hobjs Herr Hfound.
    unfold scan_step, decode_object, decode_error.
    cbn [omap list_omap].
    destruct (raw_decode c) as [e | v];
      cbn [parsed_objects first_decode_error found_json_start].
    + split; [reflexivity|]. split; [|now rewrite orb_true_r].
      now destruct (first_decode_error st).
    + split; [|split; [|now rewrite orb_true_r]].
      * destruct v; try reflexivity. cbn. now rewrite <- app_assoc.
      * now destruct (first_decode_error st).
Qed.

Lemma scan_collected `{PyRuntime} (response : string) :
  parsed_objects (scan response) = collected response /\
  first_decode_error (scan response) =
    head (omap decode_error (brace_candidates response)) /\
  found_json_start (scan response) =
    match brace_candidates response with [] => false | _ => true end.
Proof.
  unfold scan, collected.
  destruct (scan_fold (brace_candidates response) scan_init)
    as (Hobjs & Herr & Hfound).
  cbv zeta in *. now rewrite Hobjs, Herr, Hfound.
Qed.



(** A candidate decodes to an object or fails to decode. *)
Lemma candidate_decodes `{PyRuntime} (response candidate : string) :
  In candidate (brace_candidates response) ->
  (exists d, decode_object candidate = Some d) \/
  (exists e, raw_decode candidate = inl e).
Proof.
  intros Hin. destruct (brace_candidates_brace _ _ Hin) as [rest ->].
  unfold decode_object.
  destruct (raw_decode (String "{" rest)) as [e | v] eqn:Hdec; [eauto|].
  apply raw_decode_brace in Hdec. destruct v; try discriminate. eauto.
Qed.

(** Once an object has been extracted, no failure of the parse says that
    no JSON was found. *)
Lemma parse_fields_not_no_json `{PyRuntime} (response : string) (data : dict) :
  _extract_json_object response = Return data ->
  ~ no_json_found (parse_llm_response response).
Proof.
  unfold parse_llm_response. intros -> (m & Hm & Hprefix). cbn [bind] in Hm.
  destruct (negb (dict_in "action" data)).
  { injection Hm as <-. discriminate Hprefix. }
  destruct (dict_get "action" VNone data);
    try (injection Hm as <-; discriminate Hprefix).
  destruct (negb (str_in (lower s) valid_actions)).
  { injection Hm as <-. discriminate Hprefix. }
  destruct (dict_get "params" (VDict []) data);
    try (injection Hm as <-; discriminate Hprefix).
  discriminate Hm.
Qed.

(** What the extraction does when nothing was collected. *)
Lemma extract_nothing_collected `{PyRuntime} (response : string) :
  collected response = [] ->
  _extract_json_object response =
  match head (omap decode_error (brace_candidates response)) with
  | Some e => Raise (ParseError ("Invalid JSON: " +:+ JSONDecodeError_str e))
  | None => Raise (ParseError ("No JSON found in response: " +:+
                               str_take 200 response))
  end.
Proof.
  intros Hnone. unfold _extract_json_object.
  destruct (scan_collected response) as (-> & -> & ->). rewrite Hnone.
  destruct (brace_candidates response); [reflexivity|].
  now destruct (head _).
Qed.

Lemma extract_something_collected `{PyRuntime} (response : string) :
  collected response <> [] ->
  exists data, _extract_json_object response = Return data.
Proof.
  intros Hsome. unfold _extract_json_object.
  destruct (scan_collected response) as (-> & _ & _).
  destruct (collected response) as [|first rest]; [contradiction|].
  destruct (List.find _ _); eauto.
Qed.

(** C4, as the code has it. The parse fails saying that no JSON was found,
    with the first 200 characters of the input, exactly when the input has
    no opening brace. When there are opening braces and every candidate
    fails to decode, it fails with the first decode error, under the
    heading [Invalid JSON]. In neither case does it return an action. *)
Theorem parse_llm_response_without_json `{PyRuntime} (response : string) :
  (no_json_found (parse_llm_response response) <->
   brace_candidates response = []) /\
  (brace_candidates response = [] ->
   parse_llm_response response =
     Raise (ParseError ("No JSON found in response: " +:+
                        str_take 200 response))) /\
  (forall first rest e,
     brace_candidates response = first :: rest ->
     (forall c, In c (first :: rest) -> exists e', raw_decode c = inl e') ->
     raw_decode first = inl e ->
     parse_llm_response response =
       Raise (ParseError ("Invalid JSON: " +:+ JSONDecodeError_str e))) /\
  (collected response = [] ->
   forall a, parse_llm_response response <> Return a).
Proof.
  assert (Hnobrace : brace_candidates response = [] ->
            parse_llm_response response =
              Raise (ParseError ("No JSON found in response: " +:+
                                 str_take 200 response))).
  { intros Hnone. unfold parse_llm_response.
    rewrite extract_nothing_collected by (unfold collected; now rewrite Hnone).
    now rewrite Hnone. }
  assert (Hfails : forall first rest e,
            brace_candidates response = first :: rest ->
            (forall c, In c (first :: rest) -> exists e', raw_decode c = inl e') ->
            raw_decode first = inl e ->
            parse_llm_response response =
              Raise (ParseError ("Invalid JSON: " +:+ JSONDecodeError_str e))).
  { intros first rest e Hcands Hall Hfirst. unfold parse_llm_response.
    rewrite extract_nothing_collected.
    - rewrite Hcands. cbn [omap list_omap]. unfold decode_error at 1.
      now rewrite Hfirst.
    - unfold collected. rewrite Hcands. clear Hcands Hfirst.
      induction (first :: rest) as [|c l IH]; [reflexivity|].
      cbn [omap list_omap]. unfold decode_object at 1.
      destruct (Hall c) as [e' ->]; [now left|].
      apply IH. intros c' Hc'. apply Hall. now right. }
  split; [|split; [exact Hnobrace | split; [exact Hfails|]]].
  - split.
    + intros Hno.
      destruct (brace_candidates response) as [|first rest] eqn:Hcands;
        [reflexivity|].
      exfalso.
      destruct (collected response) as [|d ds] eqn:Hobjs.
      * assert (Hall : forall c, In c (first :: rest) ->
                                 exists e', raw_decode c = inl e').
        { intros c Hc. rewrite <- Hcands in Hc.
          destruct (candidate_decodes response c Hc) as [[d Hd] | He];
            [|exact He].
          exfalso. unfold collected in Hobjs.
          assert (Hin : In d (omap decode_object (brace_candidates response))).
          { apply list_elem_of_In, list_elem_of_omap. exists c.
            split; [now apply list_elem_of_In | exact Hd]. }
          rewrite Hobjs in Hin. destruct Hin. }
        destruct (Hall first) as [e He]; [now left|].
        destruct Hno as (m & Hm & Hprefix).
        rewrite (Hfails first rest e eq_refl Hall He) in Hm.
        injection Hm as <-. discriminate Hprefix.
      * destruct (extract_something_collected response) as [data Hdata];
          [now rewrite Hobjs|].
        exact (parse_fields_not_no_json response data Hdata Hno).
    + intros Hnone. eexists. split; [exact (Hnobrace Hnone) | reflexivity].
  - intros Hobjs a. unfold parse_llm_response.
    rewrite extract_nothing_collected by exact Hobjs.
    now destruct (head _).
Qed.

Lemma parse_llm_response_without_json_witness :
  parse_llm_response "This is not valid JSON at all" =
    Raise (ParseError "No JSON found in response: This is not valid JSON at all") /\
  parse_llm_response lone_brace =
    Raise (ParseError ("Invalid JSON: " +:+
             JSONDecodeError_str
               {| jde_msg := "Expecting property name enclosed in double quotes";
                  jde_doc := "{"; jde_pos := 1 |})).
Proof.
  split.
  - apply (proj1 (proj2 (parse_llm_response_without_json
                           "This is not valid JSON at all"))).
    reflexivity.
  - apply (proj1 (proj2 (proj2 (parse_llm_response_without_json lone_brace)))
             lone_brace []).
    + reflexivity.
    + intros c [<- | []]. eexists. vm_compute. reflexivity.
    + vm_compute. reflexivity.
Defined.

(** C4 as stated fails where an opening brace appears and no candidate
    parses: the failure is the decode error, not that no JSON was found. *)
Lemma lone_brace_is_invalid_json :
  brace_candidates lone_brace <> [] /\
  collected lone_brace = [] /\
  parse_llm_response lone_brace =
    Raise (ParseError "Invalid JSON: Expecting property name enclosed in double quotes: line 1 column 2 (char 1)") /\
  ~ (no_json_found (parse_llm_response lone_brace) <->
     (brace_candidates lone_brace = [] \/ collected lone_brace = [])).
Proof.
  split; [discriminate|]. split; [reflexivity|]. split; [reflexivity|].
  intros [_ Hback].
  destruct Hback as (m & Hm & Hprefix); [right; reflexivity|].
  vm_compute in Hm. injection Hm as <-. discriminate Hprefix.
Qed.

(** ** Control loop *)

Lemma observe_stop_frame (self : Agent) (called : bool) :
  agent_config (observe_stop self called) = agent_config self /\
  memory (observe_stop self called) = memory self /\
  agent_safety (observe_stop self called) = agent_safety self /\
  status (observe_stop self called) = status self /\
  _stop_requested (observe_stop self called) = _stop_requested self || called.
Proof.
  destruct called; cbn; rewrite ?orb_true_r, ?orb_false_r; tauto.
Qed.

Lemma delay_frame (self : Agent) (step : Z) :
  agent_config (_delay_between_steps self step) = agent_config self /\
  memory (_delay_between_steps self step) = memory self /\
  agent_safety (_delay_between_steps self step) = agent_safety self /\
  status (_delay_between_steps self step) = status self /\
  _stop_requested (_delay_between_steps self step) = _stop_requested self.
Proof.
  unfold _delay_between_steps.
  destruct (Qle_bool _ _); [tauto|].
  destruct (_ || _); cbn; tauto.
Qed.

Lemma capture_frame (w : World) (self self1 : Agent) (step : Z)
    (r : result Image) :
  _capture_screen w self step = (self1, r) ->
  agent_config self1 = agent_config self /\
  agent_safety self1 = agent_safety self /\
  status self1 = status self /\
  _stop_requested self1 = _stop_requested self /\
  messages (memory self1) = messages (memory self) /\
  actions (memory self1) = actions (memory self) /\
  max_messages (memory self1) = max_messages (memory self).
Proof.
  unfold _capture_screen.
  destruct (processed_screenshot _ _ _); intros [= <- <-]; cbn; tauto.
Qed.

Ltac split_body Hb :=
  repeat match type of Hb with
         | (match ?x with _ => _ end) = _ => destruct x eqn:?
         | (if ?b then _ else _) = _ => destruct b eqn:?
         | (let (_, _) := ?x in _) = _ => destruct x eqn:?
         end.

Lemma delay_config (self : Agent) (step : Z) :
  agent_config (_delay_between_steps self step) = agent_config self.
Proof. apply delay_frame. Qed.

Lemma delay_stop (self : Agent) (step : Z) :
  _stop_requested (_delay_between_steps self step) = _stop_requested self.
Proof. apply delay_frame. Qed.

Lemma delay_status (self : Agent) (step : Z) :
  status (_delay_between_steps self step) = status self.
Proof. apply delay_frame. Qed.

Lemma delay_memory (self : Agent) (step : Z) :
  memory (_delay_between_steps self step) = memory self.
Proof. apply delay_frame. Qed.

Ltac frame_simpl :=
  rewrite ?delay_config, ?delay_stop, ?delay_status, ?delay_memory;
  cbn [agent_config _stop_requested status memory agent_safety
       remember set_memory set_safety set_status set_stop_requested].

(** A pass through the body changes neither the configuration nor, unless
    [stop()] is called during it, the stop flag. *)
Lemma loop_body_frame `{PyRuntime} (w : World) (task : string)
    (self self' : Agent) (step : Z) (final final' : option Image) (c : control) :
  loop_body w task self step final = (self', final', c) ->
  agent_config self' = agent_config self /\
  (stop_during w step = false -> _stop_requested self' = _stop_requested self).
Proof.
  unfold loop_body. intros Hb.
  destruct (_capture_screen w self step) as [self1 captured] eqn:Hcap.
  destruct (capture_frame _ _ _ _ _ Hcap) as (Hcfg & _ & _ & Hstop & _).
  destruct (observe_stop_frame self1 (stop_during w step))
    as (Hcfg' & _ & _ & _ & Hstop').
  split_body Hb; injection Hb as <- <- <-; frame_simpl;
    rewrite ?Hcfg', ?Hstop', ?Hcfg, ?Hstop;
    (split; [reflexivity | intros Hquiet; rewrite ?Hquiet, ?orb_false_r;
                           reflexivity]).
Qed.

Lemma run_loop_unfold `{PyRuntime} (w : World) (task : string) (fuel : nat)
    (self : Agent) (step : Z) (final : option Image) :
  run_loop w task fuel self step final =
  if (step <? max_steps (agent_config self)) && negb (_stop_requested self)
  then
    match fuel with
    | O => None
    | S fuel' =>
        match loop_body w task self (step + 1) final with
        | (self', final', Continue) =>
            run_loop w task fuel'
                     (observe_stop self' (stop_between w (step + 1)))
                     (step + 1) final'
        | (self', final', Exit r) => Some (self', r)
        | (self', final', Fault e) =>
            Some (set_status self' FAILED,
                  make_result (set_status self' FAILED) (step + 1) final'
                              (VBool false)
                              (VStr ("Unexpected error: " +:+ exn_str e)))
        end
    end
  else
    Some (set_status self (if _stop_requested self then STOPPED else FAILED),
          make_result
            (set_status self (if _stop_requested self then STOPPED else FAILED))
            step final (VBool false)
            (VStr (if negb (_stop_requested self)
                   then "Max steps reached" else "Stopped by user"))).
Proof.
  destruct fuel; reflexivity.
Qed.

Lemma run_loop_total `{PyRuntime} (w : World) (task : string) (fuel : nat) :
  forall (self : Agent) (step : Z) (final : option Image),
    (Z.to_nat (max_steps (agent_config self) - step) <= fuel)%nat ->
    exists out, run_loop w task fuel self step final = Some out.
Proof.
  induction fuel as [|fuel IH]; intros self step final Hfuel;
    rewrite run_loop_unfold.
  - destruct (Z.ltb_spec step (max_steps (agent_config self))); [lia|].
    cbn. eauto.
  - destruct (_ && _) eqn:Hcond; [|eauto].
    apply andb_prop in Hcond as [Hlt _]. apply Z.ltb_lt in Hlt.
    destruct (loop_body w task self (step + 1) final)
      as [[self' final'] c] eqn:Hb.
    destruct (loop_body_frame _ _ _ _ _ _ _ _ Hb) as [Hcfg _].
    destruct c; eauto.
    apply IH.
    destruct (observe_stop_frame self' (stop_between w (step + 1)))
      as (-> & _).
    rewrite Hcfg. lia.
Qed.

(** [run] returns: the loop ends within the fuel that [run] gives it. *)
Lemma run_total `{PyRuntime} (w : World) (task : string) (self : Agent) :
  exists out, run w task self = Some out.
Proof.
  unfold run. cbv zeta. apply run_loop_total.
  match goal with
  | |- context [observe_stop ?s ?b] =>
      destruct (observe_stop_frame s b) as (-> & _)
  end.
  cbn. lia.
Qed.

Lemma validate_done (a : ParsedAction) :
  action a = "done" -> dict_in "result" (params a) = true ->
  validate_action_params a = Return (true, None).
Proof.
  intros Hdone Hresult. unfold validate_action_params. rewrite Hdone. cbn.
  now rewrite Hresult.
Qed.


Lemma capture_ok (w : World) (self : Agent) (step : Z) (img : Image) :
  processed_screenshot w (agent_config self) step = Return img ->
  _capture_screen w self step =
  (set_memory self (add_screenshot (memory self) img), Return img).
Proof. unfold _capture_screen. now intros ->. Qed.

(** A pass in which the parse fails ends at the [continue]. *)
Lemma loop_body_parse_error `{PyRuntime} (w : World) (task : string)
    (self self1 : Agent) (step : Z) (final : option Image) (img : Image)
    (content msg : string) :
  _capture_screen w self step = (self1, Return img) ->
  analyze_screen w step task (get_conversation_for_llm (memory self1)) =
    Return content ->
  parse_llm_response content = Raise (ParseError msg) ->
  loop_body w task self step final =
  (_delay_between_steps
     (remember (observe_stop self1 (stop_during w step))
               ("Parse error: " +:+ msg +:+ ". Please respond with valid JSON."))
     step,
   Some img, Continue).
Proof.
  intros Hcap Hanswer Hparse. unfold loop_body.
  now rewrite Hcap, Hanswer, Hparse.
Qed.

(** A pass in which the oracle returns a validated [done] ends at the
    [return]. *)
Lemma loop_body_done `{PyRuntime} (w : World) (task : string)
    (self self1 : Agent) (step : Z) (final : option Image) (img : Image)
    (content : string) (a : ParsedAction) :
  _capture_screen w self step = (self1, Return img) ->
  analyze_screen w step task (get_conversation_for_llm (memory self1)) =
    Return content ->
  parse_llm_response content = Return a ->
  action a = "done" -> dict_in "result" (params a) = true ->
  loop_body w task self step final =
  (set_status (observe_stop self1 (stop_during w step)) COMPLETED,
   Some img,
   Exit (make_result (set_status (observe_stop self1 (stop_during w step))
                                 COMPLETED)
                     step (Some img)
                     (dict_get "success" (VBool true) (params a))
                     (dict_get "result" (VStr "Task completed") (params a)))).
Proof.
  intros Hcap Hanswer Hparse Hdone Hresult. unfold loop_body.
  rewrite Hcap, Hanswer, Hparse, (validate_done a Hdone Hresult), Hdone.
  reflexivity.
Qed.

Lemma run_loop_parse_error `{PyRuntime} (w : World) (task : string)
    (fuel : nat) (self self1 : Agent) (step : Z) (final : option Image)
    (img : Image) (content msg : string) :
  step < max_steps (agent_config self) -> _stop_requested self = false ->
  _capture_screen w self (step + 1) = (self1, Return img) ->
  analyze_screen w (step + 1) task (get_conversation_for_llm (memory self1)) =
    Return content ->
  parse_llm_response content = Raise (ParseError msg) ->
  run_loop w task (S fuel) self step final =
  run_loop w task fuel
    (observe_stop
       (_delay_between_steps
          (remember (observe_stop self1 (stop_during w (step + 1)))
                    (parse_error_text msg))
          (step + 1))
       (stop_between w (step + 1)))
    (step + 1) (Some img).
Proof.
  intros Hlt Hrun Hcap Hanswer Hparse. rewrite run_loop_unfold.
  apply Z.ltb_lt in Hlt. rewrite Hlt, Hrun. cbn [andb negb].
  now rewrite (loop_body_parse_error w task self self1 (step + 1) final img
                 content msg Hcap Hanswer Hparse).
Qed.

Lemma run_loop_done `{PyRuntime} (w : World) (task : string)
    (fuel : nat) (self self1 : Agent) (step : Z) (final : option Image)
    (img : Image) (content : string) (a : ParsedAction) :
  step < max_steps (agent_config self) -> _stop_requested self = false ->
  _capture_screen w self (step + 1) = (self1, Return img) ->
  analyze_screen w (step + 1) task (get_conversation_for_llm (memory self1)) =
    Return content ->
  parse_llm_response content = Return a ->
  action a = "done" -> dict_in "result" (params a) = true ->
  run_loop w task (S fuel) self step final =
  Some (set_status (observe_stop self1 (stop_during w (step + 1))) COMPLETED,
        make_result (set_status (observe_stop self1 (stop_during w (step + 1)))
                                COMPLETED)
                    (step + 1) (Some img)
                    (dict_get "success" (VBool true) (params a))
                    (dict_get "result" (VStr "Task completed") (params a))).
Proof.
  intros Hlt Hrun Hcap Hanswer Hparse Hdone Hresult. rewrite run_loop_unfold.
  apply Z.ltb_lt in Hlt. rewrite Hlt, Hrun. cbn [andb negb].
  now rewrite (loop_body_done w task self self1 (step + 1) final img
                 content a Hcap Hanswer Hparse Hdone Hresult).
Qed.

(** C7. A [ParseError] does not end [run]: the pass appends an
    assistant-role message that describes the failure, settles the
    inter-step delay and goes back to the loop condition for the next
    step. When the first answer of the oracle is unparsable and the second
    is a valid [done] that declares success, [run] returns at step 2 with
    success. *)
Theorem parse_error_does_not_end_run `{PyRuntime} (w : World) (task : string) :
  (forall fuel self self1 step final img content msg,
     step < max_steps (agent_config self) -> _stop_requested self = false ->
     _capture_screen w self (step + 1) = (self1, Return img) ->
     analyze_screen w (step + 1) task
                    (get_conversation_for_llm (memory self1)) = Return content ->
     parse_llm_response content = Raise (ParseError msg) ->
     let told := remember (observe_stop self1 (stop_during w (step + 1)))
                          (parse_error_text msg) in
     messages (memory told) =
       trim_messages (max_messages (memory self))
         (messages (memory self) ++
          [mk_message "assistant" (VStr (parse_error_text msg))]) /\
     run_loop w task (S fuel) self step final =
       run_loop w task fuel
         (observe_stop (_delay_between_steps told (step + 1))
                       (stop_between w (step + 1)))
         (step + 1) (Some img)) /\
  (forall self img1 img2 garbage msg content a,
     2 <= max_steps (agent_config self) ->
     stop_between w 0 = false -> stop_during w 1 = false ->
     stop_between w 1 = false ->
     processed_screenshot w (agent_config self) 1 = Return img1 ->
     processed_screenshot w (agent_config self) 2 = Return img2 ->
     (forall history, analyze_screen w 1 task history = Return garbage) ->
     parse_llm_response garbage = Raise (ParseError msg) ->
     (forall history, analyze_screen w 2 task history = Return content) ->
     parse_llm_response content = Return a ->
     action a = "done" -> dict_in "result" (params a) = true ->
     dict_get "success" (VBool true) (params a) = VBool true ->
     exists self' r,
       run w task self = Some (self', r) /\
       AgentResult.total_steps r = 2 /\
       AgentResult.success r = VBool true /\
       status self' = COMPLETED /\
       messages (memory self') =
         trim_messages (max_messages (memory self))
                       [mk_message "assistant" (VStr (parse_error_text msg))] /\
       sleeps self' =
         sleeps self ++
         (if Qle_bool (step_delay (agent_config self)) 0 then []
          else [(1, step_delay (agent_config self))])).
Proof.
  split.
  - intros fuel self self1 step final img content msg Hlt Hrun Hcap Hanswer
      Hparse told. split.
    + destruct (capture_frame _ _ _ _ _ Hcap) as (_ & _ & _ & _ & Hm & _ & Hcap').
      destruct (observe_stop_frame self1 (stop_during w (step + 1)))
        as (_ & Hmem & _).
      subst told. cbn [remember memory set_memory add_message messages
                       set_messages].
      now rewrite Hmem, Hm, Hcap'.
    + now apply run_loop_parse_error with (content := content).
  - intros self img1 img2 garbage msg content a Hmax Hs0 Hs1 Hs1' Himg1 Himg2
      Hfirst Hgarbage Hsecond Hparse Hdone Hresult Hsuccess.
    unfold run. cbv zeta. rewrite Hs0. cbn [observe_stop].
    set (start := set_memory _ _).
    assert (Hcfg : agent_config start = agent_config self) by reflexivity.
    rewrite Hcfg.
    destruct (Z.to_nat (max_steps (agent_config self))) as [|[|fuel]] eqn:Hfuel;
      [lia | lia |].
    erewrite (run_loop_parse_error w task (S fuel) start _ 0 None img1 garbage msg);
      [| rewrite Hcfg; lia | reflexivity
       | apply capture_ok; rewrite Hcfg; exact Himg1
       | apply Hfirst | exact Hgarbage].
    change (0 + 1) with 1. rewrite Hs1, Hs1'. cbn [observe_stop].
    erewrite (run_loop_done w task fuel _ _ 1 (Some img1) img2 content a);
      [| rewrite delay_config; cbn; lia
       | rewrite delay_stop; reflexivity
       | apply capture_ok; rewrite delay_config; exact Himg2
       | apply Hsecond | exact Hparse | exact Hdone | exact Hresult].
    change (1 + 1) with 2.
    eexists _, _. split; [reflexivity|].
    split; [reflexivity|]. split; [exact Hsuccess|].
    split; [destruct (stop_during w 2); reflexivity|].
    assert (Hquiet : forall s : Agent,
              memory (observe_stop s (stop_during w 2)) = memory s /\
              sleeps (observe_stop s (stop_during w 2)) = sleeps s)
      by (intros s; destruct (stop_during w 2); split; reflexivity).
    cbn [set_status memory sleeps].
    rewrite (proj1 (Hquiet _)), (proj2 (Hquiet _)).
    cbn [memory set_memory add_screenshot messages sleeps].
    rewrite delay_memory. split; [reflexivity|].
    unfold _delay_between_steps. cbn.
    destruct (Qle_bool (step_delay (agent_config self)) 0);
      [now rewrite app_nil_r|].
    destruct (Z.geb_spec 1 (max_steps (agent_config self))); [lia|].
    reflexivity.
Qed.

Lemma parse_error_does_not_end_run_witness :
  exists self' r,
    run (quiet_world garbage_then_done) "Parse error test"
        (new_Agent default_AgentConfig 1920 1080) = Some (self', r) /\
    AgentResult.total_steps r = 2 /\
    AgentResult.success r = VBool true /\
    status self' = COMPLETED.
Proof.
  destruct (proj2 (parse_error_does_not_end_run
                     (quiet_world garbage_then_done) "Parse error test")
              (new_Agent default_AgentConfig 1920 1080)
              (image 1) (image 2)
              "This is not valid JSON"
              "No JSON found in response: This is not valid JSON"
              done_response
              {| thought := "Done"; action := "done";
                 params := [("result", VStr "Done"); ("success", VBool true)];
                 raw_response := done_response |})
    as (self' & r & Hrun & Hsteps & Hsuccess & Hstatus & _);
    try reflexivity.
  - cbn. lia.
  - exists self', r. repeat split; assumption.
Defined.



(** A parsed action has one of the eight kinds. *)
Lemma parse_llm_response_kind `{PyRuntime} (response : string)
    (a : ParsedAction) :
  parse_llm_response response = Return a -> In (action a) valid_actions.
Proof.
  unfold parse_llm_response. intros Hparse.
  destruct (_extract_json_object response) as [data|]; [|discriminate].
  cbn [bind] in Hparse.
  destruct (negb (dict_in "action" data)); [discriminate|].
  destruct (dict_get "action" VNone data) as [| | | |name| |];
    try discriminate.
  destruct (str_in (lower name) valid_actions) eqn:Hkind; [|discriminate].
  cbn [negb] in Hparse.
  destruct (dict_get "params" (VDict []) data); try discriminate.
  injection Hparse as <-. cbn [action]. now apply str_in_In.
Qed.

Lemma validate_action_params_true (a : ParsedAction) (reason : option string) :
  validate_action_params a = Return (true, reason) -> reason = None.
Proof.
  unfold validate_action_params.
  destruct (first_missing _ _); [discriminate|].
  destruct (str_in (action a) _ && _); [discriminate|].
  destruct (String.eqb (action a) "hotkey" && _); [discriminate|].
  destruct (String.eqb (action a) "scroll"); [|now intros [= <-]].
  destruct (py_lower _); [|discriminate]. cbn [bind].
  destruct (negb _); [discriminate | now intros [= <-]].
Qed.

Lemma dict_get_present (k : string) (d1 d2 : value) (d : dict) :
  dict_in k d = true -> dict_get k d1 d = dict_get k d2 d.
Proof.
  unfold dict_in, dict_get. destruct (dict_lookup k d); [reflexivity|discriminate].
Qed.

Lemma dict_item_present (k : string) (d : dict) :
  dict_in k d = true -> exists v, dict_item k d = Return v.
Proof.
  unfold dict_in, dict_item. destruct (dict_lookup k d); [eauto|discriminate].
Qed.

Lemma dict_item_get (k : string) (d : dict) (v : value) :
  dict_item k d = Return v -> dict_get k VNone d = v.
Proof.
  unfold dict_item, dict_get. destruct (dict_lookup k d); [|discriminate].
  now intros [= <-].
Qed.

Lemma isinstance_int_number (v : value) :
  isinstance_int v = true -> is_number v = true.
Proof. now destruct v. Qed.

Lemma valid_action_not_drag (name : string) :
  In name valid_actions -> String.eqb name "drag" = false.
Proof.
  cbn. intros [<-|[<-|[<-|[<-|[<-|[<-|[<-|[<-|[]]]]]]]]]; reflexivity.
Qed.

(** The safety check returns a verdict on every validated action. *)
Lemma validate_action_validated `{PyRuntime} (self : SafetyController)
    (now : Q) (a : ParsedAction) :
  validate_action_params a = Return (true, None) ->
  In (action a) valid_actions ->
  exists v, snd (validate_action self now (action a) (params a)) = Return v.
Proof.
  intros Hvalid Hkind.
  destruct (proj1 (validate_action_params_accepts a Hkind) Hvalid)
    as [Hpresent (Hxy & _ & _)].
  rewrite validate_action_unfold. cbv zeta.
  destruct (negb _); [eauto|].
  unfold checked_coordinates.
  rewrite (valid_action_not_drag _ Hkind).
  destruct (str_in (action a) ["click"; "double_click"; "move"]) eqn:Hfam.
  - apply str_in_In in Hfam. destruct (Hxy Hfam) as [Hx Hy].
    assert (Hreq : required_for (action a) required_params = ["x"; "y"]).
    { destruct Hfam as [<-|[<-|[<-|[]]]]; reflexivity. }
    assert (Hinx : dict_in "x" (params a) = true)
      by (apply Hpresent; rewrite Hreq; now left).
    assert (Hiny : dict_in "y" (params a) = true)
      by (apply Hpresent; rewrite Hreq; right; now left).
    rewrite (dict_get_present "x" (VInt 0) VNone _ Hinx),
            (dict_get_present "y" (VInt 0) VNone _ Hiny).
    destruct (validate_coordinates_number self
                (dict_get "x" VNone (params a)) (dict_get "y" VNone (params a)))
      as [-> | (reason & -> & _)];
      try (now apply isinstance_int_number); cbn; eauto.
  - cbn. eauto.
Qed.

(** The dispatch raises nothing on a validated action when the primitives
    of the controller raise nothing. *)
Lemma execute_action_validated (w : World) (step : Z) (a : ParsedAction) :
  validate_action_params a = Return (true, None) ->
  In (action a) valid_actions ->
  (forall call, exists res, controller w step call = Return res) ->
  exists res, _execute_action w step a = Return res.
Proof.
  intros Hvalid Hkind Hctl.
  destruct (proj1 (validate_action_params_accepts a Hkind) Hvalid)
    as [Hpresent (_ & Hkeys & _)].
  unfold fields_present in Hpresent. unfold _execute_action.
  cbn in Hkind.
  destruct Hkind as [Hk|[Hk|[Hk|[Hk|[Hk|[Hk|[Hk|[Hk|[]]]]]]]]];
    rewrite <- Hk in *; cbn [String.eqb Ascii.eqb Bool.eqb] in *;
    cbn [required_for required_params String.eqb Ascii.eqb Bool.eqb] in Hpresent;
    eauto.
  1-3: destruct (dict_item_present "x" (params a)) as [x ->];
       [apply Hpresent; now left|];
       destruct (dict_item_present "y" (params a)) as [y ->];
       [apply Hpresent; right; now left|]; cbn [bind]; apply Hctl.
  - destruct (dict_item_present "text" (params a)) as [v ->];
      [apply Hpresent; now left|]. cbn [bind]. apply Hctl.
  - destruct (dict_item_present "keys" (params a)) as [v Hv];
      [apply Hpresent; now left|]. rewrite Hv. cbn [bind].
    specialize (Hkeys eq_refl). rewrite (dict_item_get _ _ _ Hv) in Hkeys.
    destruct v; try discriminate. cbn. apply Hctl.
  - destruct (dict_item_present "direction" (params a)) as [v ->];
      [apply Hpresent; now left|]. cbn [bind]. apply Hctl.
  - destruct (dict_item_present "seconds" (params a)) as [v ->];
      [apply Hpresent; now left|]. cbn [bind]. apply Hctl.
Qed.











(** * Further properties of the code *)

(** ** Safety governor: the rate limit *)

Lemma Qlt_bool_iff (a b : Q) : Qlt_bool a b = true <-> (a < b)%Q.
Proof.
  unfold Qlt_bool. rewrite negb_true_iff. split.
  - intros Hle. apply Qnot_le_lt. intros Hba.
    apply Qle_bool_iff in Hba. congruence.
  - intros Hlt. destruct (Qle_bool b a) eqn:Hba; [|reflexivity].
    apply Qle_bool_iff in Hba. exfalso. exact (Qlt_not_le _ _ Hlt Hba).
Qed.

Lemma record_actions_frame (times : list Q) :
  forall self,
    config (record_actions self times) = config self /\
    _action_times (record_actions self times) = _action_times self ++ times.
Proof.
  unfold record_actions.
  induction times as [|t times IH]; intros self; cbn [fold_left].
  - now rewrite app_nil_r.
  - destruct (IH (record_action self t)) as [-> ->].
    cbn [record_action config _action_times].
    now rewrite <- app_assoc.
Qed.

Lemma filter_all {A : Type} (f : A -> bool) (l : list A) :
  Forall (fun x => f x = true) l -> List.filter f l = l.
Proof.
  induction 1 as [|x l Hx _ IH]; cbn; [reflexivity|].
  now rewrite Hx, IH.
Qed.

(** X1. Once as many actions as the limit allows have been recorded within
    the last minute, the rate check refuses, whatever came before them and
    however long ago the last one was. *)
Theorem check_rate_limit_refuses_burst (self : SafetyController)
    (times : list Q) (now : Q) :
  Forall (fun t => (now - t < 60)%Q) times ->
  max_actions_per_minute (config self) <= Z.of_nat (length times) ->
  snd (check_rate_limit (record_actions self times) now) =
  (false, Some "Rate limit exceeded: too many actions per minute").
Proof.
  intros Hrecent Hmany. unfold check_rate_limit.
  destruct (record_actions_frame times self) as [-> ->].
  rewrite List.filter_app, (filter_all _ times).
  2: { eapply Forall_impl; [exact Hrecent|]. intros t Ht.
       now apply Qlt_bool_iff. }
  rewrite length_app.
  destruct (Z.geb_spec
              (Z.of_nat (length (List.filter
                                   (fun t => Qlt_bool (now - t) 60)
                                   (_action_times self)) + length times))
              (max_actions_per_minute (config self))); [reflexivity | lia].
Qed.

Lemma check_rate_limit_refuses_burst_witness :
  snd (check_rate_limit (record_actions (safety_with_limit 2) [1%Q; 2%Q]) 3) =
  (false, Some "Rate limit exceeded: too many actions per minute").
Proof.
  apply (check_rate_limit_refuses_burst (safety_with_limit 2) [1%Q; 2%Q] 3).
  - repeat constructor.
  - cbn. lia.
Defined.



Lemma filter_none {A : Type} (f : A -> bool) (l : list A) :
  Forall (fun x => f x = false) l -> List.filter f l = [].
Proof.
  induction 1 as [|x l Hx _ IH]; cbn; [reflexivity|].
  now rewrite Hx, IH.
Qed.

(** X3. The allowance comes back: when every recorded action is a minute
    old or older and the last one at least the minimum delay, a governor
    that allows any action at all lets the next one through, and forgets
    the old times. *)
Theorem check_rate_limit_recovers (self : SafetyController) (now : Q) :
  0 < max_actions_per_minute (config self) ->
  Forall (fun t => (60 <= now - t)%Q) (_action_times self) ->
  (min_action_delay (config self) <= now - _last_action_time self)%Q ->
  snd (check_rate_limit self now) = (true, None) /\
  _action_times (fst (check_rate_limit self now)) = [].
Proof.
  intros Hsome Hold Hdelay. unfold check_rate_limit.
  rewrite (filter_none _ (_action_times self)).
  2: { eapply Forall_impl; [exact Hold|]. cbn beta. intros t Ht.
       destruct (Qlt_bool (now - t) 60) eqn:Hrecent; [|reflexivity].
       apply Qlt_bool_iff in Hrecent. exfalso.
       exact (Qlt_not_le _ _ Hrecent Ht). }
  cbn [length].
  destruct (Z.geb_spec (Z.of_nat 0) (max_actions_per_minute (config self)));
    [lia|].
  destruct (Qlt_bool (now - _last_action_time self)
                     (min_action_delay (config self))) eqn:Hsoon.
  - apply Qlt_bool_iff in Hsoon. exfalso. exact (Qlt_not_le _ _ Hsoon Hdelay).
  - split; reflexivity.
Qed.

Lemma check_rate_limit_recovers_witness :
  snd (check_rate_limit (record_actions (safety_with_limit 2) [1%Q; 2%Q]) 62) =
    (true, None) /\
  _action_times
    (fst (check_rate_limit (record_actions (safety_with_limit 2) [1%Q; 2%Q]) 62)) =
  [].
Proof.
  apply (check_rate_limit_recovers
           (record_actions (safety_with_limit 2) [1%Q; 2%Q]) 62).
  - cbn. lia.
  - repeat constructor; discriminate.
  - discriminate.
Defined.

Lemma outside_raises (x : value) (lo hi : Z) (e : exn) :
  outside x lo hi = Raise e ->
  is_number x = false /\ exists msg, e = TypeError msg.
Proof.
  unfold outside.
  destruct x as [| | |[|negative|q]| | |]; cbn;
    try (intros [= <-]; split; [reflexivity | eauto]);
    try (destruct (_ <? _)%Z; discriminate).
  - discriminate.
  - destruct negative; discriminate.
  - destruct (Qlt_bool _ _); discriminate.
Qed.

Lemma validate_coordinates_raises `{PyRuntime} (self : SafetyController)
    (x y : value) (e : exn) :
  validate_coordinates self x y = Raise e ->
  (is_number x = false \/ is_number y = false) /\ exists msg, e = TypeError msg.
Proof.
  unfold validate_coordinates.
  destruct (outside x _ _) as [bad_x|ex] eqn:Hx; cbn [bind].
  - destruct bad_x; [discriminate|].
    destruct (outside y _ _) as [bad_y|ey] eqn:Hy; cbn [bind].
    + destruct bad_y; discriminate.
    + intros [= <-]. apply outside_raises in Hy as [Hy Hmsg]. auto.
  - intros [= <-]. apply outside_raises in Hx as [Hx Hmsg]. auto.
Qed.

Lemma not_number_get (ps : dict) (k : string) :
  is_number (dict_get k (VInt 0) ps) = false ->
  exists v, dict_lookup k ps = Some v /\ is_number v = false.
Proof.
  unfold dict_get. destruct (dict_lookup k ps) as [v|]; [eauto | discriminate].
Qed.

Lemma validate_pair_raises `{PyRuntime} (self : SafetyController) (ps : dict)
    (kx ky : string) (e : exn) :
  In kx coordinate_keys -> In ky coordinate_keys ->
  validate_coordinates self (dict_get kx (VInt 0) ps) (dict_get ky (VInt 0) ps) =
    Raise e ->
  (exists msg, e = TypeError msg) /\
  exists k v, In k coordinate_keys /\ dict_lookup k ps = Some v /\
              is_number v = false.
Proof.
  intros Hkx Hky Hraise.
  apply validate_coordinates_raises in Hraise as [[Hx | Hy] Hmsg];
    (split; [exact Hmsg|]).
  - apply not_number_get in Hx as (v & Hv & Hnot). eauto.
  - apply not_number_get in Hy as (v & Hv & Hnot). eauto.
Qed.

(** X4. What [validate_action] raises: nothing when the rate check
    refuses, whatever the parameters hold; otherwise only a [TypeError],
    and only for a click, a double click, a move or a drag one of whose
    coordinates is present and is not a number. *)
Theorem validate_action_raises `{PyRuntime} (self : SafetyController)
    (now : Q) (name : string) (ps : dict) (e : exn) :
  snd (validate_action self now name ps) = Raise e ->
  fst (snd (check_rate_limit self now)) = true /\
  In name ["click"; "double_click"; "move"; "drag"] /\
  (exists msg, e = TypeError msg) /\
  exists k v, In k coordinate_keys /\ dict_lookup k ps = Some v /\
              is_number v = false.
Proof.
  rewrite validate_action_unfold. cbv zeta.
  destruct (fst (snd (check_rate_limit self now))); cbn [negb];
    [|discriminate].
  unfold checked_coordinates. intros Hraise. split; [reflexivity|].
  destruct (str_in name ["click"; "double_click"; "move"]) eqn:Hpointer.
  - apply str_in_In in Hpointer.
    destruct (validate_coordinates self _ _) as [v|e'] eqn:Hxy;
      cbn [bind] in Hraise.
    + destruct (negb (fst v)); [discriminate|].
      destruct (String.eqb_spec name "drag") as [-> | _]; [|discriminate].
      cbn in Hpointer. intuition discriminate.
    + injection Hraise as <-. split.
      * cbn in *. tauto.
      * apply (validate_pair_raises self ps "x" "y"); cbn; tauto.
  - cbn [bind fst negb] in Hraise.
    destruct (String.eqb_spec name "drag") as [-> | _]; [|discriminate].
    split; [cbn; tauto|].
    cbn [validate_pairs fst snd] in Hraise.
    destruct (validate_coordinates self (dict_get "start_x" (VInt 0) ps) _)
      as [v|e'] eqn:Hstart; cbn [bind] in Hraise.
    + destruct (negb (fst v)); [discriminate|].
      destruct (validate_coordinates self (dict_get "end_x" (VInt 0) ps) _)
        as [v'|e'] eqn:Hend; cbn [bind] in Hraise.
      * destruct (negb (fst v')); discriminate.
      * injection Hraise as <-.
        apply (validate_pair_raises self ps "end_x" "end_y"); cbn; tauto.
    + injection Hraise as <-.
      apply (validate_pair_raises self ps "start_x" "start_y"); cbn; tauto.
Qed.

Lemma validate_action_raises_witness :
  fst (snd (check_rate_limit test_safety 1)) = true /\
  In "click" ["click"; "double_click"; "move"; "drag"] /\
  (exists msg,
     TypeError "'<' not supported between instances of 'str' and 'int'" =
     TypeError msg) /\
  exists k v, In k coordinate_keys /\ dict_lookup k click_on_text = Some v /\
              is_number v = false.
Proof.
  apply (validate_action_raises test_safety 1 "click" click_on_text
           (TypeError "'<' not supported between instances of 'str' and 'int'")).
  reflexivity.
Defined.

Lemma filter_filter {A : Type} (f : A -> bool) (l : list A) :
  List.filter f (List.filter f l) = List.filter f l.
Proof.
  induction l as [|x l IH]; [reflexivity|]. cbn [List.filter].
  destruct (f x) eqn:Hx; [|exact IH]. cbn [List.filter]. now rewrite Hx, IH.
Qed.

(** X5. A check of the rate limit does not count as an action: checking
    again at the same moment finds the governor as the first check left it
    and gives the same verdict. Only [record_action] uses up the
    allowance. *)
Theorem check_rate_limit_idempotent (self : SafetyController) (now : Q) :
  check_rate_limit (fst (check_rate_limit self now)) now =
  check_rate_limit self now.
Proof.
  assert (Hleft : fst (check_rate_limit self now) =
                  {| config := config self;
                     _action_times :=
                       List.filter (fun t => Qlt_bool (now - t) 60)
                                   (_action_times self);
                     _last_action_time := _last_action_time self;
                     screen_width := screen_width self;
                     screen_height := screen_height self |}).
  { unfold check_rate_limit. destruct (_ >=? _); [reflexivity|].
    destruct (Qlt_bool _ _); reflexivity. }
  rewrite Hleft. unfold check_rate_limit.
  cbn [config _action_times _last_action_time screen_width screen_height].
  rewrite filter_filter. reflexivity.
Qed.

(** ** Safety governor: the margin *)

(** X6. The coordinate check is monotone in the margin: a point accepted
    under a margin is accepted under every smaller one on the same
    screen. *)
Theorem validate_coordinates_margin_monotone `{PyRuntime}
    (self : SafetyController) (margin x y : Z) :
  margin <= bounds_margin (config self) ->
  validate_coordinates self (VInt x) (VInt y) = Return (true, None) ->
  validate_coordinates (with_margin self margin) (VInt x) (VInt y) =
  Return (true, None).
Proof.
  intros Hle. rewrite !validate_coordinates_int. cbv zeta. cbn [with_margin
    config bounds_margin screen_width screen_height].
  destruct (Z.ltb_spec x (bounds_margin (config self))),
           (Z.geb_spec x (screen_width self - bounds_margin (config self)));
    cbn [orb]; try discriminate.
  destruct (Z.ltb_spec y (bounds_margin (config self))),
           (Z.geb_spec y (screen_height self - bounds_margin (config self)));
    cbn [orb]; try discriminate.
  intros _.
  destruct (Z.ltb_spec x margin), (Z.geb_spec x (screen_width self - margin));
    try lia.
  destruct (Z.ltb_spec y margin), (Z.geb_spec y (screen_height self - margin));
    try lia.
  reflexivity.
Qed.

Lemma validate_coordinates_margin_monotone_witness :
  validate_coordinates (with_margin test_safety 0) (VInt 10) (VInt 789) =
  Return (true, None).
Proof.
  apply (validate_coordinates_margin_monotone test_safety 0 10 789).
  - cbn. lia.
  - reflexivity.
Defined.

(** X7. A margin of half the width of the screen or more (or half its
    height) leaves no point that the check accepts. *)
Theorem validate_coordinates_empty_region `{PyRuntime}
    (self : SafetyController) (x y : Z) :
  screen_width self <= 2 * bounds_margin (config self) \/
  screen_height self <= 2 * bounds_margin (config self) ->
  exists reason,
    validate_coordinates self (VInt x) (VInt y) = Return (false, Some reason).
Proof.
  intros Hwide. rewrite validate_coordinates_int. cbv zeta.
  destruct (Z.ltb_spec x (bounds_margin (config self))),
           (Z.geb_spec x (screen_width self - bounds_margin (config self)));
    cbn [orb]; eauto.
  destruct (Z.ltb_spec y (bounds_margin (config self))),
           (Z.geb_spec y (screen_height self - bounds_margin (config self)));
    cbn [orb]; eauto.
  lia.
Qed.

Lemma validate_coordinates_empty_region_witness :
  exists reason,
    validate_coordinates (with_margin test_safety 400) (VInt 500) (VInt 400) =
    Return (false, Some reason).
Proof.
  apply (validate_coordinates_empty_region (with_margin test_safety 400) 500 400).
  right. cbn. lia.
Defined.

(** ** Safety governor: the dangerous shortcuts *)

Lemma lowered_strings (keys : list string) :
  lowered (map VStr keys) = Return (map lower keys).
Proof.
  induction keys as [|k keys IH]; [reflexivity|].
  cbn [map lowered py_lower bind]. now rewrite IH.
Qed.

Lemma lowered_raises (keys : list value) :
  Exists (fun k => isinstance_str k = false) keys ->
  exists msg, lowered keys = Raise (AttributeError msg).
Proof.
  induction keys as [|k keys IH]; intros Hsome.
  - inversion Hsome.
  - cbn [lowered]. destruct k as [| | | |s| |];
      try (cbn; eauto; fail).
    cbn [py_lower bind].
    destruct IH as [msg ->].
    + inversion Hsome as [? ? Hk | ? ? Hrest]; subst;
        [discriminate Hk | exact Hrest].
    + cbn. eauto.
Qed.

Lemma dangerous_combos_names (names : list string) :
  existsb (fun combo => bool_decide (subseteq combo (list_to_set names : gset string)))
          dangerous_combos = true <->
  dangerous_names names.
Proof.
  unfold dangerous_combos, dangerous_names. cbn [existsb].
  rewrite !orb_true_iff, !bool_decide_eq_true.
  setoid_rewrite <- list_elem_of_In.
  rewrite !elem_of_subseteq.
  setoid_rewrite elem_of_list_to_set.
  repeat setoid_rewrite elem_of_union.
  setoid_rewrite elem_of_singleton.
  split.
  - intros [Hq | [Hd | [Hs | [Hc | Hnone]]]].
    + left. split; [apply Hq | left; apply Hq]; auto.
    + left. split; [apply Hd | right; apply Hd]; auto.
    + left. split; [apply Hs | right; apply Hs]; auto.
    + right. repeat split; apply Hc; auto.
    + discriminate Hnone.
  - intros [[Hc [Hq | Hd]] | (Hc & Ha & Hd)].
    + left. intros x [-> | ->]; assumption.
    + right. left. intros x [-> | ->]; assumption.
    + do 3 right. left. intros x [[-> | ->] | ->]; assumption.
Qed.

(** X8. Only a [hotkey] is ever dangerous, and one whose keys are strings
    is dangerous exactly when, case and order of the keys apart, it holds
    [command] with [q] or with [delete], or [control], [alt] and [delete];
    further keys change nothing, and the combination [command], [shift],
    [delete] adds nothing to the second. *)
Theorem is_dangerous_action_shortcuts (self : SafetyController)
    (name : string) (ps : dict) (keys : list string) :
  dict_lookup "keys" ps = Some (VList (map VStr keys)) ->
  exists b,
    is_dangerous_action self name ps = Return b /\
    (b = true <-> name = "hotkey" /\ dangerous_names (map lower keys)).
Proof.
  intros Hkeys. unfold is_dangerous_action, dict_get. rewrite Hkeys.
  destruct (String.eqb_spec name "hotkey") as [-> | Hother].
  - cbn [py_iter bind]. rewrite lowered_strings. cbn [bind].
    eexists. split; [reflexivity|].
    rewrite dangerous_combos_names. tauto.
  - exists false. split; [reflexivity|].
    split; [discriminate | tauto].
Qed.

Lemma is_dangerous_action_shortcuts_witness :
  exists b,
    is_dangerous_action test_safety "hotkey"
                        (hotkey_params ["Q"; "shift"; "Command"]) = Return b /\
    (b = true <->
     "hotkey" = "hotkey" /\
     dangerous_names (map lower ["Q"; "shift"; "Command"])).
Proof.
  apply (is_dangerous_action_shortcuts test_safety "hotkey"
           (hotkey_params ["Q"; "shift"; "Command"]) ["Q"; "shift"; "Command"]).
  reflexivity.
Defined.

(** X9. A key that is not a string makes the check of a [hotkey] raise
    [AttributeError], also when the other keys form a dangerous
    combination: the keys are all lowered before any is compared. *)
Theorem is_dangerous_action_non_string_key (self : SafetyController)
    (ps : dict) (keys : list value) :
  dict_lookup "keys" ps = Some (VList keys) ->
  Exists (fun k => isinstance_str k = false) keys ->
  exists msg, is_dangerous_action self "hotkey" ps = Raise (AttributeError msg).
Proof.
  intros Hkeys Hsome. unfold is_dangerous_action, dict_get. rewrite Hkeys.
  cbn [String.eqb Ascii.eqb Bool.eqb py_iter bind].
  destruct (lowered_raises keys Hsome) as [msg ->]. cbn. eauto.
Qed.

Lemma is_dangerous_action_non_string_key_witness :
  exists msg,
    is_dangerous_action test_safety "hotkey"
      [("keys", VList [VStr "command"; VStr "q"; VInt 1])] =
    Raise (AttributeError msg).
Proof.
  apply (is_dangerous_action_non_string_key test_safety
           [("keys", VList [VStr "command"; VStr "q"; VInt 1])]
           [VStr "command"; VStr "q"; VInt 1]).
  - reflexivity.
  - do 2 apply Exists_cons_tl. apply Exists_cons_hd. reflexivity.
Defined.

(** ** Memory store: screenshots, counters and the summary *)

Lemma last_n_snoc {A : Type} (n : nat) (l : list A) (x : A) :
  (1 <= n)%nat -> exists older, last_n n (l ++ [x]) = older ++ [x].
Proof.
  intros Hn. unfold last_n. rewrite length_app. cbn [length].
  exists (drop (length l + 1 - n) l).
  rewrite drop_app_le by lia. reflexivity.
Qed.

Lemma add_screenshot_last_n (m : AgentMemory) (img : Image) :
  1 <= max_screenshots m ->
  screenshots (add_screenshot m img) =
  last_n (Z.to_nat (max_screenshots m)) (screenshots m ++ [img]).
Proof.
  intros Hcap. unfold add_screenshot. cbn [screenshots].
  destruct (Z.gtb_spec (Z.of_nat (length (screenshots m ++ [img])))
                       (max_screenshots m)) as [Hover | Hfits].
  - apply slice_from_last_n. lia.
  - unfold last_n.
    replace (length (screenshots m ++ [img]) -
             Z.to_nat (max_screenshots m))%nat with 0%nat by lia.
    reflexivity.
Qed.

Lemma last_n_bound {A : Type} (n : nat) (l : list A) :
  (length (last_n n l) <= n)%nat.
Proof. unfold last_n. rewrite length_drop. lia. Qed.

(** X10. With room for at least one screenshot, [add_screenshot] leaves the
    most recent [max_screenshots] captures, in their order and the new
    one last: never more than [max_screenshots]. *)
Theorem add_screenshot_keeps_newest (self : AgentMemory) (img : Image) :
  1 <= max_screenshots self ->
  screenshots (add_screenshot self img) =
    last_n (Z.to_nat (max_screenshots self)) (screenshots self ++ [img]) /\
  Z.of_nat (length (screenshots (add_screenshot self img))) <=
    max_screenshots self /\
  exists older, screenshots (add_screenshot self img) = older ++ [img].
Proof.
  intros Hcap. rewrite (add_screenshot_last_n self img Hcap).
  split; [reflexivity|]. split.
  - pose proof (last_n_bound (Z.to_nat (max_screenshots self))
                             (screenshots self ++ [img])).
    lia.
  - apply last_n_snoc. lia.
Qed.

Lemma add_screenshot_keeps_newest_witness :
  screenshots (add_screenshot
                 (memory_with_screenshots [image 1; image 2] 2) (image 3)) =
    last_n (Z.to_nat 2) ([image 1; image 2] ++ [image 3]) /\
  Z.of_nat (length (screenshots
                      (add_screenshot
                         (memory_with_screenshots [image 1; image 2] 2)
                         (image 3)))) <= 2 /\
  exists older,
    screenshots (add_screenshot
                   (memory_with_screenshots [image 1; image 2] 2) (image 3)) =
    older ++ [image 3].
Proof.
  apply (add_screenshot_keeps_newest
           (memory_with_screenshots [image 1; image 2] 2) (image 3)).
  cbn. lia.
Defined.

(** X11. With [max_screenshots] set to 0 no screenshot is ever dropped: the
    slice that should keep the last 0 captures starts at [-0], which is
    the start of the list. *)
Theorem add_screenshot_zero_keeps_all (self : AgentMemory)
    (shots : list Image) :
  max_screenshots self = 0 ->
  screenshots (add_screenshots self shots) = screenshots self ++ shots.
Proof.
  unfold add_screenshots. revert self.
  induction shots as [|img shots IH]; intros self Hcap; cbn [fold_left].
  - now rewrite app_nil_r.
  - rewrite IH by exact Hcap.
    assert (Hstep : screenshots (add_screenshot self img) =
                    screenshots self ++ [img]).
    { unfold add_screenshot. cbn [screenshots]. rewrite Hcap.
      destruct (_ >? _); reflexivity. }
    rewrite Hstep, <- app_assoc. reflexivity.
Qed.

Lemma add_screenshot_zero_keeps_all_witness :
  screenshots (add_screenshots (memory_with_screenshots [] 0)
                               [image 1; image 2; image 3]) =
  [] ++ [image 1; image 2; image 3].
Proof.
  apply (add_screenshot_zero_keeps_all (memory_with_screenshots [] 0)
           [image 1; image 2; image 3]).
  reflexivity.
Defined.

(** X12. The counters of the store: no more actions have succeeded than
    were executed, and [add_action] adds one to [total_actions] and, for a
    success, one to [successful_actions]. *)
Theorem action_counters (self : AgentMemory) (a : ParsedAction) (ok : bool)
    (message : option string) :
  0 <= successful_actions self <= total_actions self /\
  total_actions (add_action self a ok message) = total_actions self + 1 /\
  successful_actions (add_action self a ok message) =
    successful_actions self + (if ok then 1 else 0).
Proof.
  unfold successful_actions, total_actions, add_action. cbn [actions].
  rewrite List.filter_app, !length_app. cbn [List.filter ActionRecord.success].
  pose proof (List.filter_length_le ActionRecord.success (actions self)).
  destruct ok; cbn [length]; lia.
Qed.

(** X13. The summary of an empty store says that no action was executed
    yet; otherwise it lists, under its heading and one to a line, the last
    [last_n] actions, oldest first. Asked for the last 0 actions it lists
    them all. *)
Theorem get_action_summary_recent `{PyRuntime} (self : AgentMemory) (n : Z) :
  0 <= n ->
  get_action_summary self n =
  match actions self with
  | [] => "No actions executed yet."
  | _ =>
      String.concat (String "010" EmptyString)
        ("Recent actions:" ::
         map summary_line
             (if n =? 0 then actions self
              else last_n (Z.to_nat n) (actions self)))
  end.
Proof.
  intros Hn. unfold get_action_summary, summary_lines.
  destruct (actions self) as [|record records]; [reflexivity|].
  do 3 f_equal.
  destruct (Z.eqb_spec n 0) as [-> | Hpos]; [reflexivity|].
  apply slice_from_last_n. lia.
Qed.

Lemma get_action_summary_recent_witness :
  get_action_summary
    {| messages := []; actions := [sample_record true; sample_record false];
       screenshots := []; max_screenshots := 5; max_messages := 20 |} 0 =
  String.concat (String "010" EmptyString)
    ("Recent actions:" ::
     map summary_line
         (if 0 =? 0 then [sample_record true; sample_record false]
          else last_n (Z.to_nat 0) [sample_record true; sample_record false])).
Proof.
  apply (get_action_summary_recent
           {| messages := []; actions := [sample_record true; sample_record false];
              screenshots := []; max_screenshots := 5; max_messages := 20 |} 0).
  lia.
Defined.

(** ** Action controller *)

Lemma validate_coordinates_on_screen (self : ActionController.t) (x y : Z) :
  ActionController._validate_coordinates self x y = true <->
  on_screen self (x, y).
Proof.
  unfold ActionController._validate_coordinates, on_screen. cbn [fst snd].
  rewrite !andb_true_iff, !Z.leb_le, !Z.ltb_lt. tauto.
Qed.



(** X15. Every result of the controller carries a message and no error
    when it reports success, an error and no message when it reports
    failure; and it reports success exactly when it made at least one call
    of [pyautogui] and every call it made returned. *)
Theorem action_result_well_formed
    (gui : ActionController.GuiCall -> result unit)
    (self : ActionController.t) (req : Request) :
  let made := fst (perform gui self req) in
  let res := snd (perform gui self req) in
  (if ActionResult.success res
   then (exists m, ActionResult.message res = Some m) /\
        ActionResult.error res = None
   else ActionResult.message res = None /\
        exists e, ActionResult.error res = Some e) /\
  (ActionResult.success res = true <->
   made <> [] /\ Forall (fun call => gui call = Return tt) made).
Proof.
  cbv zeta.
  destruct req; cbn [perform];
    unfold ActionController.right_click, ActionController.click,
      ActionController.double_click, ActionController.move,
      ActionController.drag, ActionController.type_text,
      ActionController.hotkey, ActionController.scroll;
    repeat match goal with
           | |- context [ActionController._validate_coordinates self ?x ?y] =>
               destruct (ActionController._validate_coordinates self x y)
           | |- context [String.eqb ?a ?b] => destruct (String.eqb a b)
           end;
    cbn [negb fst snd ActionController.failed ActionResult.success
         ActionResult.message ActionResult.error];
    cbn [ActionController.attempt];
    repeat match goal with
           | |- context [gui ?call] =>
               let Hcall := fresh "Hcall" in
               destruct (gui call) as [[]|?] eqn:Hcall
           end;
    cbn [fst snd ActionController.succeeded ActionController.failed
         ActionResult.success ActionResult.message ActionResult.error];
    (split;
     [ eauto
     | split;
       [ first [ discriminate
               | intros _; split; [discriminate|];
                 repeat (apply Forall_cons_2; [assumption|]);
                 apply Forall_nil_2 ]
       | intros [Hmade Hall];
         first [ reflexivity
               | now contradict Hmade
               | repeat (apply Forall_cons_1 in Hall as [? Hall]);
                 congruence ] ] ]).
Qed.

(** X16. Validation reads the direction of a [scroll] without regard to
    case, the dispatch hands it to the controller as it was written, and
    the controller compares it as written: every direction but the
    lower-case [up], [down] and [right] scrolls horizontally by [-clicks],
    so that a validated [UP] scrolls to the left. *)
Theorem scroll_direction_as_written
    (gui : ActionController.GuiCall -> result unit)
    (self : ActionController.t) (w : World) (step : Z) (a : ParsedAction)
    (direction : string) :
  action a = "scroll" ->
  dict_lookup "direction" (params a) = Some (VStr direction) ->
  In (lower direction) ["up"; "down"; "left"; "right"] ->
  validate_action_params a = Return (true, None) /\
  _execute_action w step a =
    controller w step
      (call_scroll (VStr direction) (dict_get "amount" (VInt 3) (params a))) /\
  (direction <> "up" -> direction <> "down" -> direction <> "right" ->
   forall clicks x y,
     fst (ActionController.scroll gui self clicks direction x y) =
     [ActionController.gui_hscroll (- clicks) x y]).
Proof.
  intros Hscroll Hdirection Hlower. repeat split.
  - unfold validate_action_params. rewrite Hscroll.
    cbn [required_for required_params String.eqb Ascii.eqb Bool.eqb
         first_missing].
    unfold dict_in, dict_get. rewrite Hdirection.
    cbn [str_in existsb String.eqb Ascii.eqb Bool.eqb andb py_lower bind].
    apply str_in_In in Hlower. unfold str_in in Hlower.
    cbn [existsb] in Hlower. rewrite Hlower. reflexivity.
  - unfold _execute_action, dict_item. rewrite Hscroll, Hdirection.
    reflexivity.
  - intros Hup Hdown Hright clicks x y. unfold ActionController.scroll.
    apply String.eqb_neq in Hup, Hdown, Hright.
    rewrite Hup, Hdown, Hright.
    cbn [ActionController.attempt].
    destruct (gui _) as [[]|]; reflexivity.
Qed.

Lemma scroll_direction_as_written_witness :
  validate_action_params scroll_in_capitals = Return (true, None) /\
  _execute_action (quiet_world (fun _ => EmptyString)) 1 scroll_in_capitals =
    controller (quiet_world (fun _ => EmptyString)) 1
      (call_scroll (VStr "UP")
                   (dict_get "amount" (VInt 3) (params scroll_in_capitals))) /\
  fst (ActionController.scroll obliging_gui test_controller 3 "UP" None None) =
  [ActionController.gui_hscroll (- 3) None None].
Proof.
  destruct (scroll_direction_as_written obliging_gui test_controller
              (quiet_world (fun _ => EmptyString)) 1 scroll_in_capitals "UP")
    as (Hvalid & Hcall & Hleft).
  - reflexivity.
  - reflexivity.
  - cbn. tauto.
  - split; [exact Hvalid|]. split; [exact Hcall|].
    apply Hleft; discriminate.
Defined.

Lemma str_take_length (n : nat) (s : string) :
  (String.length (str_take n s) <= n)%nat.
Proof.
  revert s. induction n as [|n IH]; intros [|c s]; cbn; try lia.
  specialize (IH s). lia.
Qed.

Lemma str_take_all (n : nat) (s : string) :
  (String.length s <= n)%nat -> str_take n s = s.
Proof.
  revert s. induction n as [|n IH]; intros [|c s]; cbn; try reflexivity;
    try lia.
  intros Hlen. f_equal. apply IH. lia.
Qed.

Lemma append_length (s t : string) :
  String.length (s +:+ t) = (String.length s + String.length t)%nat.
Proof.
  induction s as [|c s IH]; [reflexivity|].
  change (String c s +:+ t) with (String c (s +:+ t)). cbn [String.length].
  now rewrite IH.
Qed.

Lemma append_empty (s : string) : s +:+ EmptyString = s.
Proof.
  induction s as [|c s IH]; [reflexivity|].
  change (String c s +:+ EmptyString) with (String c (s +:+ EmptyString)).
  now rewrite IH.
Qed.

(** X17. When the text has been typed, the message of the result shows
    the text itself if it has at most 50 characters and otherwise its first
    50 followed by an ellipsis: never more than 60 characters. *)
Theorem type_text_message
    (gui : ActionController.GuiCall -> result unit)
    (self : ActionController.t) (text : string) (interval : Q) :
  gui (ActionController.gui_write text interval) = Return tt ->
  exists m,
    ActionResult.message
      (snd (ActionController.type_text gui self text interval)) = Some m /\
    (String.length m <= 60)%nat /\
    ((String.length text <= 50)%nat -> m = "Typed: " +:+ text) /\
    ((50 < String.length text)%nat ->
     m = "Typed: " +:+ str_take 50 text +:+ "...").
Proof.
  intros Hgui. unfold ActionController.type_text.
  cbn [ActionController.attempt]. rewrite Hgui.
  cbn [snd ActionController.succeeded ActionResult.message].
  eexists. split; [reflexivity|].
  pose proof (str_take_length 50 text) as Htake.
  destruct (Nat.ltb_spec 50 (String.length text)) as [Hlong | Hshort].
  - repeat split.
    + rewrite !append_length. cbn [String.length]. lia.
    + lia.
  - repeat split.
    + rewrite !append_length. cbn [String.length]. lia.
    + intros _. now rewrite append_empty, str_take_all.
    + lia.
Qed.

Lemma type_text_message_witness :
  exists m,
    ActionResult.message
      (snd (ActionController.type_text obliging_gui test_controller
                                       "hello" (1 # 50))) = Some m /\
    (String.length m <= 60)%nat /\
    ((String.length "hello" <= 50)%nat -> m = "Typed: " +:+ "hello") /\
    ((50 < String.length "hello")%nat ->
     m = "Typed: " +:+ str_take 50 "hello" +:+ "...").
Proof.
  apply (type_text_message obliging_gui test_controller "hello" (1 # 50)).
  reflexivity.
Defined.

(** X18. With a margin that is not negative, a point that the safety
    governor accepts is on the screen for the controller, when both took
    the same size from [pyautogui]: no click, double click or move that
    passed the safety check is turned down by the controller for its
    bounds. *)
Theorem safety_accepts_on_screen `{PyRuntime} (safety : SafetyController)
    (self : ActionController.t) (x y : Z) :
  ActionController.screen_width self = screen_width safety ->
  ActionController.screen_height self = screen_height safety ->
  0 <= bounds_margin (config safety) ->
  validate_coordinates safety (VInt x) (VInt y) = Return (true, None) ->
  ActionController._validate_coordinates self x y = true.
Proof.
  intros Hw Hh Hmargin. rewrite validate_coordinates_int. cbv zeta.
  destruct (Z.ltb_spec x (bounds_margin (config safety))),
           (Z.geb_spec x (screen_width safety - bounds_margin (config safety)));
    cbn [orb]; try discriminate.
  destruct (Z.ltb_spec y (bounds_margin (config safety))),
           (Z.geb_spec y (screen_height safety - bounds_margin (config safety)));
    cbn [orb]; try discriminate.
  intros _. apply validate_coordinates_on_screen. unfold on_screen.
  cbn [fst snd]. lia.
Qed.

Lemma safety_accepts_on_screen_witness :
  ActionController._validate_coordinates test_controller 10 789 = true.
Proof.
  apply (safety_accepts_on_screen test_safety test_controller 10 789).
  - reflexivity.
  - reflexivity.
  - cbn. lia.
  - reflexivity.
Defined.

(** ** Response parser *)

(** X19. What the parser returns: the action is the lower-case form of
    the [action] string of the extracted object and one of the eight
    kinds, the parameters are its [params] object, or empty when it has
    none, and the response is kept as it came. *)
Theorem parse_llm_response_result `{PyRuntime} (response : string)
    (a : ParsedAction) :
  parse_llm_response response = Return a ->
  exists data name,
    _extract_json_object response = Return data /\
    dict_lookup "action" data = Some (VStr name) /\
    action a = lower name /\
    In (action a) valid_actions /\
    params a = match dict_lookup "params" data with
               | Some (VDict ps) => ps
               | _ => []
               end /\
    thought a = py_str (dict_get "thought" (VStr EmptyString) data) /\
    raw_response a = response.
Proof.
  unfold parse_llm_response. intros Hparse.
  destruct (_extract_json_object response) as [data|]; [|discriminate].
  cbn [bind] in Hparse. unfold dict_in, dict_get in Hparse.
  destruct (dict_lookup "action" data) as [[| | | |name| |]|] eqn:Haction;
    try discriminate.
  cbn [negb] in Hparse.
  destruct (str_in (lower name) valid_actions) eqn:Hkind; [|discriminate].
  cbn [negb] in Hparse.
  exists data, name.
  destruct (dict_lookup "params" data) as [[| | | | | |ps]|];
    try discriminate; injection Hparse as <-; cbn [action params thought raw_response];
    apply str_in_In in Hkind; unfold dict_get; auto 10.
Qed.

Lemma parse_llm_response_result_witness :
  exists data name,
    _extract_json_object done_response = Return data /\
    dict_lookup "action" data = Some (VStr name) /\
    "done" = lower name /\
    In "done" valid_actions /\
    [("result", VStr "Done"); ("success", VBool true)] =
      match dict_lookup "params" data with
      | Some (VDict ps) => ps
      | _ => []
      end /\
    "Done" = py_str (dict_get "thought" (VStr EmptyString) data) /\
    done_response = done_response.
Proof.
  apply (parse_llm_response_result done_response
           {| thought := "Done"; action := "done";
              params := [("result", VStr "Done"); ("success", VBool true)];
              raw_response := done_response |}).
  vm_compute. reflexivity.
Defined.



Lemma brace_candidates_prose (prose doc : string) :
  str_contains "{" prose = false ->
  brace_candidates (prose +:+ doc) = brace_candidates doc.
Proof.
  induction prose as [|c prose IH]; [reflexivity|].
  cbn [str_contains str_prefix]. rewrite andb_true_r.
  intros Hnone. apply orb_false_elim in Hnone as [Hc Hrest].
  change (String c prose +:+ doc) with (String c (prose +:+ doc)).
  cbn [brace_candidates].
  rewrite Ascii.eqb_sym, Hc. now apply IH.
Qed.

(** X21. Text without a brace in front of the answer changes nothing but
    the response kept: the parser returns for prose followed by a document
    the action, parameters and thought that it returns for the document. *)
Theorem parse_llm_response_skips_prose `{PyRuntime} (prose doc : string)
    (a : ParsedAction) :
  str_contains "{" prose = false ->
  parse_llm_response doc = Return a ->
  parse_llm_response (prose +:+ doc) =
  Return {| thought := thought a; action := action a; params := params a;
            raw_response := prose +:+ doc |}.
Proof.
  intros Hprose Hparse.
  assert (Hsame : forall data,
             _extract_json_object doc = Return data ->
             _extract_json_object (prose +:+ doc) = Return data).
  { unfold _extract_json_object, scan.
    rewrite (brace_candidates_prose prose doc Hprose).
    intros data.
    set (st := fold_left scan_step (brace_candidates doc) scan_init).
    destruct (parsed_objects st); [|trivial].
    destruct (found_json_start st), (first_decode_error st); discriminate. }
  unfold parse_llm_response in *.
  destruct (_extract_json_object doc) as [data|]; [|discriminate].
  rewrite (Hsame data eq_refl). cbn [bind] in *.
  destruct (negb (dict_in "action" data)); [discriminate|].
  destruct (dict_get "action" VNone data); try discriminate.
  destruct (negb (str_in (lower s) valid_actions)); [discriminate|].
  destruct (dict_get "params" (VDict []) data); try discriminate.
  now injection Hparse as <-.
Qed.

Lemma parse_llm_response_skips_prose_witness :
  parse_llm_response ("Here is my answer: " +:+ done_response) =
  Return {| thought := "Done"; action := "done";
            params := [("result", VStr "Done"); ("success", VBool true)];
            raw_response := "Here is my answer: " +:+ done_response |}.
Proof.
  apply (parse_llm_response_skips_prose "Here is my answer: " done_response
           {| thought := "Done"; action := "done";
              params := [("result", VStr "Done"); ("success", VBool true)];
              raw_response := done_response |}).
  - reflexivity.
  - vm_compute. reflexivity.
Defined.

(** X22. The stages fit: on an action that the parser returned and the
    validation accepted, the safety check returns a verdict and, when the
    primitives of the controller return, so does the dispatch: neither a
    missing parameter nor a coordinate of the wrong type is met further
    down. *)
Theorem validated_action_passes_on `{PyRuntime} (w : World) (step : Z)
    (self : SafetyController) (now : Q) (response : string) (a : ParsedAction)
    (reason : option string) :
  parse_llm_response response = Return a ->
  validate_action_params a = Return (true, reason) ->
  (exists v, snd (validate_action self now (action a) (params a)) = Return v) /\
  ((forall call, exists res, controller w step call = Return res) ->
   exists res, _execute_action w step a = Return res).
Proof.
  intros Hparse Hvalid.
  pose proof (parse_llm_response_kind response a Hparse) as Hkind.
  rewrite (validate_action_params_true a reason Hvalid) in Hvalid.
  split.
  - now apply validate_action_validated.
  - now apply execute_action_validated.
Qed.

Lemma validated_action_passes_on_witness :
  (exists v,
     snd (validate_action test_safety 1 "click"
                          [("x", VInt 100); ("y", VInt 100)]) = Return v) /\
  exists res,
    _execute_action (quiet_world (fun _ => click_response)) 1
      {| thought := "Keep clicking"; action := "click";
         params := [("x", VInt 100); ("y", VInt 100)];
         raw_response := click_response |} = Return res.
Proof.
  destruct (validated_action_passes_on (quiet_world (fun _ => click_response)) 1
              test_safety 1 click_response
              {| thought := "Keep clicking"; action := "click";
                 params := [("x", VInt 100); ("y", VInt 100)];
                 raw_response := click_response |} None)
    as [Hsafe Hrun].
  - vm_compute. reflexivity.
  - reflexivity.
  - split; [exact Hsafe|]. apply Hrun. intros call. eexists. reflexivity.
Defined.

(** ** Control loop: what a run leaves behind *)

(** Every way through the loop body, with the agent that it leaves written
    out. *)
Ltac body_cases Hb :=
  unfold loop_body, _capture_screen in Hb;
  match type of Hb with
  | context [processed_screenshot ?w ?cfg ?step] =>
      destruct (processed_screenshot w cfg step) as [?img|?e]
  end;
  match type of Hb with
  | context [stop_during ?w ?step] =>
      let Hduring := fresh "Hduring" in
      destruct (stop_during w step) eqn:Hduring
  | _ => idtac
  end;
  cbn [observe_stop] in Hb;
  split_body Hb; injection Hb as <- <- <-.

Ltac body_simpl :=
  rewrite ?delay_config, ?delay_stop, ?delay_status, ?delay_memory;
  cbn [agent_config _stop_requested status memory agent_safety sleeps
       remember set_memory set_safety set_status set_stop_requested
       add_message set_messages add_action add_screenshot
       messages actions screenshots max_screenshots max_messages
       make_result total_actions
       AgentResult.success AgentResult.message AgentResult.total_steps
       AgentResult.actions_executed AgentResult.final_screenshot].

(** How a pass through the body ends: a [return] fixes the status and
    reports the step and the actions of the store; a [continue] leaves the
    status alone and the stop flag as [stop()] left it. A pass records at
    most one action. *)
Lemma loop_body_outcome `{PyRuntime} (w : World) (task : string)
    (self self' : Agent) (step : Z) (final final' : option Image) (c : control) :
  loop_body w task self step final = (self', final', c) ->
  (length (actions (memory self)) <= length (actions (memory self')) <=
   S (length (actions (memory self))))%nat /\
  match c with
  | Exit r =>
      AgentResult.total_steps r = step /\
      AgentResult.actions_executed r = total_actions (memory self') /\
      (status self' = COMPLETED \/
       status self' = FAILED /\ AgentResult.success r = VBool false /\
       failure_message (AgentResult.message r))
  | Continue =>
      status self' = status self /\
      _stop_requested self' = _stop_requested self || stop_during w step
  | Fault _ => status self' = status self
  end.
Proof.
  intros Hb. body_cases Hb; body_simpl;
    rewrite ?length_app, ?orb_true_r, ?orb_false_r; cbn [length];
    (split; [lia|]); repeat split; auto.
  all: right; repeat split; eexists; left; reflexivity.
Qed.



Lemma run_loop_stopped `{PyRuntime} (w : World) (task : string) (n : Z)
    (fuel : nat) :
  1 <= n /\ stop_during w n = true \/ 0 <= n /\ stop_between w n = true ->
  forall (self : Agent) (step : Z) (final : option Image)
         (self' : Agent) (r : AgentResult.t),
    step < n \/ step = n /\ _stop_requested self = true ->
    run_loop w task fuel self step final = Some (self', r) ->
    AgentResult.total_steps r <= n.
Proof.
  intros Hstop.
  induction fuel as [|fuel IH]; intros self step final self' r Hbefore;
    rewrite run_loop_unfold;
    (destruct (Z.ltb_spec step (max_steps (agent_config self))) as [Hlt | Hge];
     [destruct (_stop_requested self) eqn:Hflag|]; cbn [andb negb]);
    try discriminate.
  1, 2, 3, 5: intros [= <- <-]; cbn; lia.
  assert (Hnext : step < n) by (destruct Hbefore as [? | [_ ?]]; [lia | discriminate]).
  destruct (loop_body w task self (step + 1) final) as [[self1 final1] c] eqn:Hb.
  destruct (loop_body_outcome _ _ _ _ _ _ _ _ Hb) as [_ Hend].
  destruct c as [|r1|e].
  - apply IH.
    destruct (Z.eq_dec (step + 1) n) as [Hn | Hn]; [right | left; lia].
    split; [exact Hn|].
    destruct (observe_stop_frame self1 (stop_between w (step + 1)))
      as (_ & _ & _ & _ & ->).
    destruct Hend as [_ ->]. rewrite Hflag, Hn. cbn [orb].
    destruct Hstop as [[_ ->] | [_ ->]]; [reflexivity | apply orb_true_r].
  - intros [= <- <-]. destruct Hend as (-> & _). lia.
  - intros [= <- <-]. cbn. lia.
Qed.

(** X24. A call of [stop()] is honoured at the end of the step in which
    it arrives: when it comes while step [n] waits for the oracle, or
    between step [n] and the next, no step after [n] is begun. *)
Theorem stop_request_ends_run `{PyRuntime} (w : World) (task : string)
    (self self' : Agent) (r : AgentResult.t) (n : Z) :
  1 <= n /\ stop_during w n = true \/ 0 <= n /\ stop_between w n = true ->
  run w task self = Some (self', r) ->
  AgentResult.total_steps r <= n.
Proof.
  intros Hstop. unfold run. cbv zeta.
  apply (run_loop_stopped w task n _ Hstop).
  match goal with
  | |- context [observe_stop ?s ?b] =>
      destruct (observe_stop_frame s b) as (_ & _ & _ & _ & ->)
  end.
  cbn [_stop_requested set_memory set_stop_requested orb].
  destruct (Z.eq_dec 0 n) as [<- | Hn]; [right | left; lia].
  split; [reflexivity|].
  destruct Hstop as [[Hn _] | [_ ->]]; [lia | reflexivity].
Qed.

Lemma delay_sleeps (self : Agent) (step : Z) :
  sleeps (_delay_between_steps self step) = sleeps self \/
  sleeps (_delay_between_steps self step) =
    sleeps self ++ [(step, step_delay (agent_config self))] /\
  step < max_steps (agent_config self) /\
  (0 < step_delay (agent_config self))%Q.
Proof.
  unfold _delay_between_steps.
  destruct (Qle_bool (step_delay (agent_config self)) 0) eqn:Hdelay;
    [now left|].
  destruct (_stop_requested self); [now left|]. cbn [orb].
  destruct (Z.geb_spec step (max_steps (agent_config self))); [now left|].
  right. cbn [sleeps]. repeat split; [lia|].
  apply Qnot_le_lt. intros Hle. apply Qle_bool_iff in Hle. congruence.
Qed.

(** A pass through the body sleeps at most once, after the step and only
    when another step may follow. *)
Lemma loop_body_sleeps `{PyRuntime} (w : World) (task : string)
    (self self' : Agent) (step : Z) (final final' : option Image) (c : control) :
  loop_body w task self step final = (self', final', c) ->
  sleeps self' = sleeps self \/
  sleeps self' = sleeps self ++ [(step, step_delay (agent_config self))] /\
  step < max_steps (agent_config self) /\
  (0 < step_delay (agent_config self))%Q.
Proof.
  intros Hb. body_cases Hb;
    try match goal with
        | |- context [_delay_between_steps ?s ?n] =>
            destruct (delay_sleeps s n) as [-> | (-> & Hlt & Hpos)]
        end;
    cbn [agent_config sleeps remember set_memory set_safety set_status
         set_stop_requested] in *;
    auto.
Qed.

Lemma run_loop_sleeps `{PyRuntime} (w : World) (task : string) (fuel : nat) :
  forall (self : Agent) (step : Z) (final : option Image)
         (self' : Agent) (r : AgentResult.t),
    run_loop w task fuel self step final = Some (self', r) ->
    step <= AgentResult.total_steps r /\
    exists slept,
      sleeps self' = sleeps self ++ slept /\
      Forall (fun s => step < fst s <= AgentResult.total_steps r /\
                       fst s < max_steps (agent_config self) /\
                       snd s = step_delay (agent_config self) /\
                       (0 < snd s)%Q) slept.
Proof.
  induction fuel as [|fuel IH]; intros self step final self' r;
    rewrite run_loop_unfold;
    (destruct ((step <? max_steps (agent_config self)) &&
               negb (_stop_requested self)); try discriminate).
  1, 3: intros [= <- <-]; cbn; (split; [lia|]); exists [];
    rewrite app_nil_r; split; [reflexivity | constructor].
  destruct (loop_body w task self (step + 1) final) as [[self1 final1] c] eqn:Hb.
  destruct (loop_body_frame _ _ _ _ _ _ _ _ Hb) as [Hcfg _].
  destruct (loop_body_outcome _ _ _ _ _ _ _ _ Hb) as [_ Hend].
  pose proof (loop_body_sleeps _ _ _ _ _ _ _ _ Hb) as Hslept.
  destruct c as [|r1|e].
  - intros Hloop. apply IH in Hloop as (Hsteps & slept & Hall & Hslept').
    assert (Hobs : sleeps (observe_stop self1 (stop_between w (step + 1))) =
                   sleeps self1)
      by (destruct (stop_between w (step + 1)); reflexivity).
    destruct (observe_stop_frame self1 (stop_between w (step + 1)))
      as (Hcfg' & _).
    rewrite Hobs in Hall. rewrite Hcfg', Hcfg in Hslept'.
    split; [lia|].
    assert (Hlater : Forall (fun s => step < fst s <= AgentResult.total_steps r /\
                                      fst s < max_steps (agent_config self) /\
                                      snd s = step_delay (agent_config self) /\
                                      (0 < snd s)%Q) slept).
    { eapply Forall_impl; [exact Hslept'|]. cbn beta. intros s Hs.
      repeat split; try apply Hs; lia. }
    destruct Hslept as [Hsame | (Hone & Hlt & Hpos)].
    + exists slept. rewrite Hall, Hsame. split; [reflexivity | exact Hlater].
    + exists ((step + 1, step_delay (agent_config self)) :: slept).
      rewrite Hall, Hone, <- app_assoc. split; [reflexivity|].
      apply Forall_cons_2; [|exact Hlater]. cbn [fst snd].
      repeat split; try lia; assumption.
  - intros [= <- <-]. destruct Hend as (-> & _). split; [lia|].
    destruct Hslept as [-> | (-> & Hlt & Hpos)].
    + exists []. rewrite app_nil_r. split; [reflexivity | constructor].
    + eexists. split; [reflexivity|]. apply Forall_cons_2; [|constructor].
      cbn [fst snd]. repeat split; try lia; assumption.
  - intros [= <- <-]. cbn [make_result AgentResult.total_steps]. split; [lia|].
    cbn [sleeps set_status].
    destruct Hslept as [-> | (-> & Hlt & Hpos)].
    + exists []. rewrite app_nil_r. split; [reflexivity | constructor].
    + eexists. split; [reflexivity|]. apply Forall_cons_2; [|constructor].
      cbn [fst snd]. repeat split; try lia; assumption.
Qed.

(** X25. The sleeps of a run: each follows a step that the run counts, is
    as long as the configured delay, which is then greater than 0, and
    comes before the last step that [max_steps] allows: the agent does not
    sleep once no step can follow, nor with a delay of 0 or less. *)
Theorem run_sleeps_between_steps `{PyRuntime} (w : World) (task : string)
    (self self' : Agent) (r : AgentResult.t) :
  run w task self = Some (self', r) ->
  exists slept,
    sleeps self' = sleeps self ++ slept /\
    Forall (fun s => 1 <= fst s <= AgentResult.total_steps r /\
                     fst s < max_steps (agent_config self) /\
                     snd s = step_delay (agent_config self) /\
                     (0 < snd s)%Q) slept.
Proof.
  unfold run. cbv zeta. intros Hrun.
  apply run_loop_sleeps in Hrun as (_ & slept & Hall & Hslept).
  exists slept. split.
  - rewrite Hall. now destruct (stop_between w 0).
  - match type of Hslept with
    | context [observe_stop ?s ?b] =>
        destruct (observe_stop_frame s b) as (Hcfg & _)
    end.
    rewrite Hcfg in Hslept. cbn [agent_config set_memory set_stop_requested
                                 set_status] in Hslept.
    eapply Forall_impl; [exact Hslept|]. cbn beta. intros s Hs.
    repeat split; try apply Hs; lia.
Qed.

Lemma stop_request_ends_run_witness :
  exists self' r,
    run (stopped_world (fun _ => click_response) 2) "Endless task"
        (new_Agent (config_with_max_steps 5) 1920 1080) = Some (self', r) /\
    AgentResult.total_steps r <= 2.
Proof.
  destruct (run_total (stopped_world (fun _ => click_response) 2)
              "Endless task" (new_Agent (config_with_max_steps 5) 1920 1080))
    as [[self' r] Hrun].
  exists self', r. split; [exact Hrun|].
  apply (stop_request_ends_run (stopped_world (fun _ => click_response) 2)
           "Endless task" (new_Agent (config_with_max_steps 5) 1920 1080)
           self' r 2).
  - left. split; [lia | reflexivity].
  - exact Hrun.
Defined.

Lemma run_sleeps_between_steps_witness :
  exists self' r slept,
    run (quiet_world (fun _ => click_response)) "Endless task"
        (new_Agent (config_with_max_steps 3) 1920 1080) = Some (self', r) /\
    sleeps self' = [] ++ slept /\
    Forall (fun s => 1 <= fst s <= AgentResult.total_steps r /\
                     fst s < 3 /\ snd s = 1 # 2 /\ (0 < snd s)%Q) slept.
Proof.
  destruct (run_total (quiet_world (fun _ => click_response)) "Endless task"
              (new_Agent (config_with_max_steps 3) 1920 1080))
    as [[self' r] Hrun].
  destruct (run_sleeps_between_steps
              (quiet_world (fun _ => click_response)) "Endless task"
              (new_Agent (config_with_max_steps 3) 1920 1080) self' r Hrun)
    as (slept & Hall & Hslept).
  exists self', r, slept. split; [exact Hrun|]. split; assumption.
Defined.

(** ** Control loop: the store stays within its limits *)

Lemma within_limits_screenshot (m : AgentMemory) (img : Image) :
  1 <= max_screenshots m -> within_limits m ->
  within_limits (add_screenshot m img).
Proof.
  intros Hcap (Hroles & Hmsgs & _). unfold within_limits.
  rewrite (add_screenshot_last_n m img Hcap).
  cbn [add_screenshot messages max_messages max_screenshots].
  repeat split; try assumption.
  pose proof (last_n_bound (Z.to_nat (max_screenshots m))
                           (screenshots m ++ [img])).
  lia.
Qed.

Lemma within_limits_action (m : AgentMemory) (a : ParsedAction) (ok : bool)
    (message : option string) :
  within_limits m -> within_limits (add_action m a ok message).
Proof. trivial. Qed.

Lemma within_limits_message (m : AgentMemory) (content : value) :
  1 <= max_messages m -> within_limits m ->
  within_limits (add_message m "assistant" content).
Proof.
  intros Hcap (Hroles & Hmsgs & Hshots). unfold within_limits, add_message.
  cbn [set_messages messages screenshots max_messages max_screenshots].
  assert (Hall : Forall (fun msg => has_role "assistant" msg = true)
                        (messages m ++ [mk_message "assistant" content])).
  { apply Forall_app. split; [exact Hroles|]. now constructor. }
  change [("role", VStr "assistant"); ("content", content)]
    with (mk_message "assistant" content).
  destruct (trim_messages_keeps (max_messages m)
              (messages m ++ [mk_message "assistant" content]))
    as (Hfits & _ & Hover).
  destruct (Z.le_gt_cases
              (Z.of_nat (length (messages m ++ [mk_message "assistant" content])))
              (max_messages m)) as [Hle | Hgt].
  - rewrite (Hfits Hle). repeat split; assumption.
  - destruct (messages m ++ [mk_message "assistant" content])
      as [|first rest] eqn:Hlist; [cbn in Hgt; lia|].
    rewrite (Hover first rest eq_refl); [|lia|exact Hcap|].
    + repeat split; [|
        pose proof (last_n_bound (Z.to_nat (max_messages m)) (first :: rest));
        lia | exact Hshots].
      unfold last_n. now apply Forall_drop.
    + apply Forall_cons_1 in Hall as [Hfirst _]. unfold has_role in *.
      destruct (dict_get "role" VNone first) as [| | | |role| |];
        try discriminate.
      cbn [eq_str] in *. apply String.eqb_eq in Hfirst as ->. reflexivity.
Qed.

Lemma loop_body_within_limits `{PyRuntime} (w : World) (task : string)
    (self self' : Agent) (step : Z) (final final' : option Image) (c : control) :
  1 <= max_messages (memory self) -> 1 <= max_screenshots (memory self) ->
  within_limits (memory self) ->
  loop_body w task self step final = (self', final', c) ->
  within_limits (memory self') /\
  max_messages (memory self') = max_messages (memory self) /\
  max_screenshots (memory self') = max_screenshots (memory self).
Proof.
  intros Hmsgs Hshots Hin Hb. body_cases Hb;
    rewrite ?delay_memory;
    cbn [memory remember set_memory set_safety set_status set_stop_requested];
    (split; [|split; reflexivity]);
    repeat first [ assumption
                 | apply within_limits_message; [assumption|]
                 | apply within_limits_action
                 | apply within_limits_screenshot; [assumption|] ].
Qed.

Lemma run_loop_within_limits `{PyRuntime} (w : World) (task : string)
    (fuel : nat) :
  forall (self : Agent) (step : Z) (final : option Image)
         (self' : Agent) (r : AgentResult.t),
    1 <= max_messages (memory self) -> 1 <= max_screenshots (memory self) ->
    within_limits (memory self) ->
    run_loop w task fuel self step final = Some (self', r) ->
    within_limits (memory self') /\
    max_messages (memory self') = max_messages (memory self) /\
    max_screenshots (memory self') = max_screenshots (memory self).
Proof.
  induction fuel as [|fuel IH]; intros self step final self' r Hmsgs Hshots Hin;
    rewrite run_loop_unfold;
    (destruct ((step <? max_steps (agent_config self)) &&
               negb (_stop_requested self)); try discriminate).
  1, 3: intros [= <- <-]; cbn [memory set_status]; auto.
  destruct (loop_body w task self (step + 1) final) as [[self1 final1] c] eqn:Hb.
  destruct (loop_body_within_limits _ _ _ _ _ _ _ _ Hmsgs Hshots Hin Hb)
    as (Hin1 & Hmsgs1 & Hshots1).
  destruct c as [|r1|e].
  - intros Hloop.
    destruct (observe_stop_frame self1 (stop_between w (step + 1)))
      as (_ & Hmem & _).
    apply IH in Hloop; rewrite ?Hmem in *; try assumption; try lia.
    destruct Hloop as (Hin' & -> & ->). auto.
  - intros [= <- <-]. auto.
  - intros [= <- <-]. cbn [memory set_status]. auto.
Qed.

(** X26. A run keeps the store within its limits, when these leave room
    for a message and for a screenshot: at its end the conversation holds
    at most [max_messages] messages, each of them of the assistant, and the
    store at most [max_screenshots] screenshots. *)
Theorem run_keeps_store_within_limits `{PyRuntime} (w : World) (task : string)
    (self self' : Agent) (r : AgentResult.t) :
  1 <= max_messages (memory self) -> 1 <= max_screenshots (memory self) ->
  run w task self = Some (self', r) ->
  Forall (fun msg => has_role "assistant" msg = true) (messages (memory self')) /\
  Z.of_nat (length (messages (memory self'))) <= max_messages (memory self) /\
  Z.of_nat (length (screenshots (memory self'))) <=
    max_screenshots (memory self).
Proof.
  intros Hmsgs Hshots. unfold run. cbv zeta. intros Hrun.
  apply run_loop_within_limits in Hrun;
    destruct (stop_between w 0);
    cbn [observe_stop memory set_memory set_stop_requested set_status clear
         max_messages max_screenshots] in *;
    try assumption.
  1, 2: destruct Hrun as ((Hroles & Hlen & Hlen') & Hmsgs' & Hshots');
    rewrite <- Hmsgs', <- Hshots'; auto.
  all: unfold within_limits; cbn [clear messages screenshots max_messages
                                  max_screenshots length];
    repeat split; [constructor | lia | lia].
Qed.

Lemma run_keeps_store_within_limits_witness :
  exists self' r,
    run (quiet_world (fun _ => click_response)) "Endless task"
        (new_Agent (config_with_max_steps 3) 1920 1080) = Some (self', r) /\
    Forall (fun msg => has_role "assistant" msg = true)
           (messages (memory self')) /\
    Z.of_nat (length (messages (memory self'))) <= 20 /\
    Z.of_nat (length (screenshots (memory self'))) <= 5.
Proof.
  destruct (run_total (quiet_world (fun _ => click_response)) "Endless task"
              (new_Agent (config_with_max_steps 3) 1920 1080))
    as [[self' r] Hrun].
  exists self', r. split; [exact Hrun|].
  apply (run_keeps_store_within_limits
           (quiet_world (fun _ => click_response)) "Endless task"
           (new_Agent (config_with_max_steps 3) 1920 1080) self' r).
  - cbn. lia.
  - cbn. lia.
  - exact Hrun.
Defined.

(** ** Control loop: failures around the agent *)

(** X27. When the oracle fails, [run] ends at that step: the agent is
    [FAILED], the result reports no success, the message [LLM error:]
    with the text of the exception, the steps up to this one and the
    screenshot just captured; nothing is added to the conversation and the
    agent does not sleep. *)
Theorem llm_error_ends_run `{PyRuntime} (w : World) (task : string)
    (fuel : nat) (self self1 : Agent) (step : Z) (final : option Image)
    (img : Image) (e : exn) :
  step < max_steps (agent_config self) -> _stop_requested self = false ->
  _capture_screen w self (step + 1) = (self1, Return img) ->
  analyze_screen w (step + 1) task (get_conversation_for_llm (memory self1)) =
    Raise e ->
  exists self',
    run_loop w task (S fuel) self step final =
    Some (self',
          {| AgentResult.success := VBool false;
             AgentResult.message := VStr ("LLM error: " +:+ exn_str e);
             AgentResult.total_steps := step + 1;
             AgentResult.actions_executed := total_actions (memory self);
             AgentResult.final_screenshot := Some img |}) /\
    status self' = FAILED /\
    messages (memory self') = messages (memory self) /\
    sleeps self' = sleeps self.
Proof.
  intros Hlt Hrun Hcap Hanswer. rewrite run_loop_unfold.
  apply Z.ltb_lt in Hlt. rewrite Hlt, Hrun. cbn [andb negb].
  unfold loop_body. rewrite Hcap, Hanswer.
  unfold _capture_screen in Hcap.
  destruct (processed_screenshot w (agent_config self) (step + 1));
    [|discriminate].
  injection Hcap as <- <-.
  destruct (stop_during w (step + 1)); cbn [observe_stop];
    (eexists; split; [reflexivity|]); cbn; auto.
Qed.

Lemma llm_error_ends_run_witness :
  exists self',
    run_loop (failing_oracle_world (fun _ => click_response) 1) "Test task" 1
             (new_Agent default_AgentConfig 1920 1080) 0 None =
    Some (self',
          {| AgentResult.success := VBool false;
             AgentResult.message := VStr ("LLM error: " +:+ "timed out");
             AgentResult.total_steps := 0 + 1;
             AgentResult.actions_executed := 0;
             AgentResult.final_screenshot := Some (image 1) |}) /\
    status self' = FAILED /\
    messages (memory self') = [] /\
    sleeps self' = [].
Proof.
  eapply (llm_error_ends_run (failing_oracle_world (fun _ => click_response) 1)
            "Test task" 0%nat (new_Agent default_AgentConfig 1920 1080) _ 0 None
            (image 1) (Exception "timed out")); reflexivity.
Defined.

(** X28. When the capture of the screen fails, [run] ends at that step
    with the agent [FAILED] and the message [Unexpected error:] with the
    text of the exception; the result carries the screenshot of the step
    before, if there was one, and the store is as that step left it. *)
Theorem capture_failure_ends_run `{PyRuntime} (w : World) (task : string)
    (fuel : nat) (self : Agent) (step : Z) (final : option Image) (e : exn) :
  step < max_steps (agent_config self) -> _stop_requested self = false ->
  processed_screenshot w (agent_config self) (step + 1) = Raise e ->
  run_loop w task (S fuel) self step final =
  Some (set_status self FAILED,
        {| AgentResult.success := VBool false;
           AgentResult.message := VStr ("Unexpected error: " +:+ exn_str e);
           AgentResult.total_steps := step + 1;
           AgentResult.actions_executed := total_actions (memory self);
           AgentResult.final_screenshot := final |}).
Proof.
  intros Hlt Hrun Hshot. rewrite run_loop_unfold.
  apply Z.ltb_lt in Hlt. rewrite Hlt, Hrun. cbn [andb negb].
  unfold loop_body, _capture_screen. rewrite Hshot. reflexivity.
Qed.

Lemma capture_failure_ends_run_witness :
  run_loop (blind_world (fun _ => click_response) 1) "Test task" 1
           (new_Agent default_AgentConfig 1920 1080) 0 None =
  Some (set_status (new_Agent default_AgentConfig 1920 1080) FAILED,
        {| AgentResult.success := VBool false;
           AgentResult.message :=
             VStr ("Unexpected error: " +:+
                   "Failed to capture screenshot: no display");
           AgentResult.total_steps := 0 + 1;
           AgentResult.actions_executed := 0;
           AgentResult.final_screenshot := None |}).
Proof.
  apply (capture_failure_ends_run (blind_world (fun _ => click_response) 1)
           "Test task" 0%nat (new_Agent default_AgentConfig 1920 1080) 0 None
           (Exception "Failed to capture screenshot: no display"));
    reflexivity.
Defined.

(** ** Control loop: refused actions *)

Lemma check_rate_limit_last (self : SafetyController) (now : Q) :
  _last_action_time (fst (check_rate_limit self now)) = _last_action_time self.
Proof.
  unfold check_rate_limit. destruct (_ >=? _); [reflexivity|].
  destruct (Qlt_bool _ _); reflexivity.
Qed.

Lemma delay_safety (self : Agent) (step : Z) :
  agent_safety (_delay_between_steps self step) = agent_safety self.
Proof. apply delay_frame. Qed.

Lemma validate_action_last `{PyRuntime} (self : SafetyController) (now : Q)
    (name : string) (ps : dict) :
  _last_action_time (fst (validate_action self now name ps)) =
  _last_action_time self.
Proof.
  unfold validate_action.
  pose proof (check_rate_limit_last self now) as Hlast.
  destruct (check_rate_limit self now). exact Hlast.
Qed.

(** X29. An action that the validation or the safety governor refuses is
    not dispatched: the pass ends at its [continue] in the same way
    whatever the primitives of the controller would do, no action is
    recorded in the store, and the governor counts no action. *)
Theorem refused_action_is_not_dispatched `{PyRuntime} (w : World)
    (task : string) (self : Agent) (step : Z) (final : option Image)
    (primitives : Z -> ControllerCall -> result ActionResult.t)
    (img : Image) (content : string) (a : ParsedAction)
    (reason : option string) :
  processed_screenshot w (agent_config self) step = Return img ->
  analyze_screen w step task
    (get_conversation_for_llm (add_screenshot (memory self) img)) =
    Return content ->
  parse_llm_response content = Return a ->
  validate_action_params a = Return (false, reason) \/
  validate_action_params a = Return (true, None) /\ action a <> "done" /\
  snd (validate_action (agent_safety self) (time_check w step)
                       (action a) (params a)) = Return (false, reason) ->
  exists self',
    loop_body w task self step final = (self', Some img, Continue) /\
    loop_body (with_controller w primitives) task self step final =
      (self', Some img, Continue) /\
    actions (memory self') = actions (memory self) /\
    _last_action_time (agent_safety self') =
      _last_action_time (agent_safety self).
Proof.
  intros Hshot Hanswer Hparse Hrefused.
  unfold loop_body, _capture_screen, processed_screenshot in *.
  cbn [with_controller get_screenshot compress_image overlay_grid
       analyze_screen stop_during time_check memory set_memory].
  rewrite Hshot.
  cbn [memory set_memory]. rewrite Hanswer, Hparse.
  destruct Hrefused as [Hinvalid | (Hvalid & Hnot & Hunsafe)].
  - rewrite Hinvalid. cbn [negb].
    eexists. split; [reflexivity|]. split; [reflexivity|].
    rewrite delay_memory, delay_safety.
    destruct (stop_during w step); cbn; auto.
  - rewrite Hvalid. cbn [negb].
    apply String.eqb_neq in Hnot. rewrite Hnot.
    pose proof (validate_action_last (agent_safety self) (time_check w step)
                  (action a) (params a)) as Hlast.
    assert (Hsafety : forall b,
              agent_safety (observe_stop
                (set_memory self (add_screenshot (memory self) img)) b) =
              agent_safety self) by (intros []; reflexivity).
    rewrite Hsafety.
    destruct (validate_action (agent_safety self) (time_check w step)
                              (action a) (params a)) as [safety' checked].
    cbn [fst snd] in *. rewrite Hunsafe. cbn [negb].
    eexists. split; [reflexivity|]. split; [reflexivity|].
    rewrite delay_memory, delay_safety.
    destruct (stop_during w step); cbn; auto.
Qed.

Lemma refused_action_is_not_dispatched_witness :
  exists self',
    loop_body (quiet_world (fun _ => corner_click_response)) "Test task"
              (new_Agent default_AgentConfig 1920 1080) 1 None =
      (self', Some (image 1), Continue) /\
    loop_body (with_controller (quiet_world (fun _ => corner_click_response))
                               broken_controller)
              "Test task" (new_Agent default_AgentConfig 1920 1080) 1 None =
      (self', Some (image 1), Continue) /\
    actions (memory self') = [] /\
    _last_action_time (agent_safety self') = 0%Q.
Proof.
  eapply (refused_action_is_not_dispatched
            (quiet_world (fun _ => corner_click_response)) "Test task"
            (new_Agent default_AgentConfig 1920 1080) 1 None broken_controller
            (image 1) corner_click_response
            {| thought := "Corner"; action := "click";
               params := [("x", VInt 0); ("y", VInt 0)];
               raw_response := corner_click_response |}
            (Some "X coordinate 0 is too close to screen edge")).
  - reflexivity.
  - reflexivity.
  - vm_compute. reflexivity.
  - right. split; [reflexivity|]. split; [discriminate | reflexivity].
Defined.
